(** * Load-Tester: the report analyzer and the live status tracker

    A shallow embedding of

    - [dev/Generate_Report.py]: the telemetry analyzer
      ([get_endpoint_info_from_config], [analyze_k6_json_with_timeline]) and
      the parts of [generate_html_report_with_charts] that compute the
      timeline error rates and the per-endpoint status;
    - [src/web/app.py]: the output loop of [run_k6_test] and the writes that
      [run_k6_test] and [run_simple_rate_control_test] make to a run's entry
      of the status table.

    Conventions of the embedding.

    - A Python [str] is a [string] of bytes; case mapping and whitespace are
      the ASCII ones.
    - A number is a rational [Q]; the rounding of Python's floats is not
      modelled, and the non-standard literals [NaN] and [Infinity] are left
      out.
    - A telemetry line is given by what [json.loads] makes of it: [None] when
      it raises [JSONDecodeError], a [json] value otherwise.
    - A raised exception is a value; state that was mutated before the raise
      stays mutated, as in Python. *)

From Stdlib Require Import String Ascii List ZArith QArith Qround Lia ZifyNat Bool.
From Stdlib Require Import Permutation Sorted Lqa.
From stdpp Require Import base gmap strings pretty.
Import ListNotations.

Local Open Scope string_scope.
Local Open Scope list_scope.
Local Open Scope nat_scope.

Set Warnings "-register-all".

(** ** Python strings *)

Module PyStr.

Definition code (c : ascii) : N := N_of_ascii c.

Definition is_digit (c : ascii) : bool :=
  (48 <=? code c)%N && (code c <=? 57)%N.

Definition digit_val (c : ascii) : Z := Z.of_N (code c) - 48.

(** [str.isspace] on the ASCII range: tab to carriage return, the four
    separators 0x1c..0x1f and the space. *)
Definition is_space (c : ascii) : bool :=
  ((9 <=? code c)%N && (code c <=? 13)%N)
  || ((28 <=? code c)%N && (code c <=? 32)%N).

Definition upper_char (c : ascii) : ascii :=
  if (97 <=? code c)%N && (code c <=? 122)%N
  then ascii_of_N (code c - 32) else c.

Definition lower_char (c : ascii) : ascii :=
  if (65 <=? code c)%N && (code c <=? 90)%N
  then ascii_of_N (code c + 32) else c.

Fixpoint map_chars (f : ascii -> ascii) (s : string) : string :=
  match s with
  | EmptyString => EmptyString
  | String c t => String (f c) (map_chars f t)
  end.

(** [s.upper()] and [s.lower()] *)
Definition upper (s : string) : string := map_chars upper_char s.
Definition lower (s : string) : string := map_chars lower_char s.

(** [s.startswith(p)] *)
Fixpoint startswith (p s : string) : bool :=
  match p, s with
  | EmptyString, _ => true
  | String a p', String b s' => Ascii.eqb a b && startswith p' s'
  | String _ _, EmptyString => false
  end.

(** [needle in hay] on two strings *)
Fixpoint contains (needle hay : string) : bool :=
  startswith needle hay ||
  match hay with
  | EmptyString => false
  | String _ t => contains needle t
  end.

(** [s.lstrip(chars)] for a one-character [chars] *)
Fixpoint lstrip_char (c : ascii) (s : string) : string :=
  match s with
  | String a t => if Ascii.eqb a c then lstrip_char c t else s
  | EmptyString => EmptyString
  end.

Fixpoint lstrip (s : string) : string :=
  match s with
  | String a t => if is_space a then lstrip t else s
  | EmptyString => EmptyString
  end.

Fixpoint rstrip (s : string) : string :=
  match s with
  | EmptyString => EmptyString
  | String a t =>
      match rstrip t with
      | EmptyString => if is_space a then EmptyString else String a EmptyString
      | r => String a r
      end
  end.

(** [s.strip()] *)
Definition strip (s : string) : string := rstrip (lstrip s).

(** [s.split(sep)] for a one-character [sep]; the result is never empty. *)
Fixpoint split (sep : ascii) (s : string) : list string :=
  match s with
  | EmptyString => [EmptyString]
  | String a t =>
      if Ascii.eqb a sep then EmptyString :: split sep t
      else match split sep t with
           | h :: r => String a h :: r
           | [] => [String a EmptyString]
           end
  end.

(** The digits of [int(s)], with the single underscores Python allows
    between two digits. *)
Fixpoint digits_us (s : string) (acc : Z) (prev_digit : bool) : option Z :=
  match s with
  | EmptyString => if prev_digit then Some acc else None
  | String c t =>
      if is_digit c then digits_us t (10 * acc + digit_val c)%Z true
      else if Ascii.eqb c "_"%char
           then (if prev_digit then digits_us t acc false else None)
           else None
  end.

(** [int(s)] on a string: [None] stands for [ValueError]. *)
Definition int_of_string (s : string) : option Z :=
  match strip s with
  | String "-"%char t => option_map Z.opp (digits_us t 0%Z false)
  | String "+"%char t => digits_us t 0%Z false
  | t => digits_us t 0%Z false
  end.

(** Maximal run of characters satisfying [p] at the head of [s], and the
    rest. *)
Fixpoint span (p : ascii -> bool) (s : string) : string * string :=
  match s with
  | String a t =>
      if p a then let '(r, rest) := span p t in (String a r, rest)
      else (EmptyString, s)
  | EmptyString => (EmptyString, EmptyString)
  end.

(** The decimal value of a string of digits. *)
Fixpoint nat_of_digits (s : string) (acc : N) : N :=
  match s with
  | String c t => nat_of_digits t (10 * acc + (code c - 48))%N
  | EmptyString => acc
  end.

(** [str(n)] for a natural number. *)
Definition of_N (n : N) : string := pretty n.

(** [s.rsplit(sep, 1)[1]] for a one-character [sep] that occurs in [s]:
    what follows its last occurrence; [None] when it does not occur. *)
Fixpoint after_last (sep : ascii) (s : string) : option string :=
  match s with
  | EmptyString => None
  | String a t =>
      match after_last sep t with
      | Some r => Some r
      | None => if Ascii.eqb a sep then Some t else None
      end
  end.

(** [s.rstrip(chars)] for a one-character [chars] *)
Fixpoint rstrip_char (c : ascii) (s : string) : string :=
  match s with
  | EmptyString => EmptyString
  | String a t =>
      match rstrip_char c t with
      | EmptyString => if Ascii.eqb a c then EmptyString else String a EmptyString
      | r => String a r
      end
  end.

(** [s.strip(chars)] for a one-character [chars] *)
Definition strip_char (c : ascii) (s : string) : string :=
  rstrip_char c (lstrip_char c s).

(** The characters of [s] that satisfy [p], in their order. *)
Fixpoint filter_chars (p : ascii -> bool) (s : string) : string :=
  match s with
  | EmptyString => EmptyString
  | String a t => if p a then String a (filter_chars p t) else filter_chars p t
  end.

(** The class [\w] on the ASCII range: letters, digits and the underscore. *)
Definition is_word (c : ascii) : bool :=
  is_digit c
  || ((65 <=? code c)%N && (code c <=? 90)%N)
  || ((97 <=? code c)%N && (code c <=? 122)%N)
  || Ascii.eqb c "_"%char.

End PyStr.

(** ** Python values and exceptions *)

(** What [json.loads] returns.  [JObj kv] lists the items of a [dict]; when a
  key is listed twice the last item is the one the dict holds. *)
Inductive json : Type :=
| JNull
| JBool (b : bool)
| JNum (q : Q)
| JStr (s : string)
| JArr (l : list json)
| JObj (kv : list (string * json)).

Inductive exn : Type :=
| JSONDecodeError
| ValueError
| TypeError
| KeyError
| AttributeError.

Inductive result (A : Type) : Type :=
| Ok (a : A)
| Raise (e : exn).
Arguments Ok {A} a.
Arguments Raise {A} e.

Module Py.

(** [d.get(k)] on the items of a dict, [None] when the key is absent. *)
Fixpoint lookup_item (k : string) (kv : list (string * json)) : option json :=
  match kv with
  | [] => None
  | (k', v) :: r =>
      match lookup_item k r with
      | Some x => Some x
      | None => if String.eqb k k' then Some v else None
      end
  end.

(** [d.get(k, dflt)] on the items of a dict. *)
Definition get (kv : list (string * json)) (k : string) (dflt : json) : json :=
  match lookup_item k kv with
  | Some v => v
  | None => dflt
  end.

(** [v.get(k, dflt)] on any value: only a dict has [get]. *)
Definition attr_get (v : json) (k : string) (dflt : json) : result json :=
  match v with
  | JObj kv => Ok (get kv k dflt)
  | _ => Raise AttributeError
  end.

(** [d[k]] on the items of a dict. *)
Definition subscript (kv : list (string * json)) (k : string) : result json :=
  match lookup_item k kv with
  | Some v => Ok v
  | None => Raise KeyError
  end.

(** Truth value of [v] in a condition. *)
Definition truthy (v : json) : bool :=
  match v with
  | JNull => false
  | JBool b => b
  | JNum q => negb (Qeq_bool q 0)
  | JStr s => negb (String.eqb s "")
  | JArr l => match l with [] => false | _ => true end
  | JObj kv => match kv with [] => false | _ => true end
  end.

(** [v == s] for a string literal [s]. *)
Definition eq_str (v : json) (s : string) : bool :=
  match v with
  | JStr t => String.eqb t s
  | _ => false
  end.

(** The number a value counts as in arithmetic and comparisons; [bool] is a
    subclass of [int]. *)
Definition num_of (v : json) : option Q :=
  match v with
  | JNum q => Some q
  | JBool b => Some (if b then 1%Q else 0%Q)
  | _ => None
  end.

Definition Qltb (a b : Q) : bool := negb (Qle_bool b a).

(** [int(v)] *)
Definition int (v : json) : result Z :=
  match v with
  | JStr s =>
      match PyStr.int_of_string s with
      | Some z => Ok z
      | None => Raise ValueError
      end
  | JNum q => Ok (Z.quot (Qnum q) (Z.pos (Qden q)))
  | JBool b => Ok (if b then 1%Z else 0%Z)
  | _ => Raise TypeError
  end.

(** [s in v] for a string [s]: substring of a string, element of a list,
    key of a dict; [TypeError] on the values that are not iterable. *)
Definition str_in (s : string) (v : json) : result bool :=
  match v with
  | JStr t => Ok (PyStr.contains s t)
  | JArr l => Ok (existsb (fun x => eq_str x s) l)
  | JObj kv => Ok (existsb (fun kx => String.eqb (fst kx) s) kv)
  | _ => Raise TypeError
  end.

(** [v.upper()]: only a string has it. *)
Definition upper (v : json) : result string :=
  match v with
  | JStr s => Ok (PyStr.upper s)
  | _ => Raise AttributeError
  end.

(** Whether [hash(v)] succeeds. *)
Definition hashable (v : json) : bool :=
  match v with
  | JArr _ | JObj _ => false
  | _ => true
  end.

(** Equality of two hashable values as dict keys: strings by content,
    numbers and booleans by numeric value. *)
Definition key_eqb (a b : json) : bool :=
  match a, b with
  | JNull, JNull => true
  | JStr s, JStr t => String.eqb s t
  | _, _ =>
      match num_of a, num_of b with
      | Some x, Some y => Qeq_bool x y
      | _, _ => false
      end
  end.

(** [max(l)] of a non-empty list: the first of the largest elements. *)
Definition max (l : list Q) : Q :=
  match l with
  | [] => 0%Q
  | x :: t => fold_left (fun m y => if Qltb m y then y else m) t x
  end.

(** [min(l)] of a non-empty list: the first of the smallest elements. *)
Definition min (l : list Q) : Q :=
  match l with
  | [] => 0%Q
  | x :: t => fold_left (fun m y => if Qltb y m then y else m) t x
  end.

(** Stable insertion: [x] goes behind every element that is not larger. *)
Fixpoint insert_by {A : Type} (lt : A -> A -> bool) (x : A) (l : list A) : list A :=
  match l with
  | [] => [x]
  | y :: t => if lt x y then x :: y :: t else y :: insert_by lt x t
  end.

(** [sorted(l)]: the stable sort, written as an insertion sort. *)
Definition sorted_by {A : Type} (lt : A -> A -> bool) (l : list A) : list A :=
  fold_left (fun acc x => insert_by lt x acc) l [].

Definition sorted (l : list Q) : list Q := sorted_by Qltb l.

Definition sum (l : list Q) : Q := fold_left Qplus l 0%Q.

(** [round(x, 2)]: to the nearest hundredth, a tie to the even one. *)
Definition round2 (x : Q) : Q :=
  let y := (x * 100)%Q in
  let f := Qfloor y in
  let frac := (y - inject_Z f)%Q in
  let up :=
    if Qltb (1 # 2) frac then true
    else if Qltb frac (1 # 2) then false
    else Z.odd f in
  (inject_Z (if up then f + 1 else f) / 100)%Q.

End Py.

(** ** The [statistics] functions the analyzer calls *)

Module Statistics.

(** [statistics.mean] *)
Definition mean (l : list Q) : Q := (Py.sum l / inject_Z (Z.of_nat (length l)))%Q.

(** [statistics.median] *)
Definition median (l : list Q) : Q :=
  let data := Py.sorted l in
  let n := length data in
  if Nat.odd n then nth (n / 2) data 0%Q
  else ((nth (n / 2 - 1) data 0%Q + nth (n / 2) data 0%Q) / 2)%Q.

(** [statistics.quantiles(data, n=n)] with the default exclusive method.
    On fewer than two data points CPython raises [StatisticsError] (its
    newest versions repeat a single point); the analyzer calls it on twenty
    points or more, and the empty list stands for the other case here.
    The interpolation is exact here; the source computes it in floats, so
    its value can differ from this one by the rounding of that arithmetic,
    and can even leave the interval of the two neighbours. *)
Definition quantiles (n : nat) (l : list Q) : list Q :=
  let data := Py.sorted l in
  let ld := length data in
  if ld <? 2 then []
  else
    let m := ld + 1 in
    map (fun i =>
           let j0 := i * m / n in
           let j := if j0 <? 1 then 1 else if ld - 1 <? j0 then ld - 1 else j0 in
           let delta := (Z.of_nat (i * m) - Z.of_nat (j * n))%Z in
           ((nth (j - 1) data 0%Q * inject_Z (Z.of_nat n - delta)
             + nth j data 0%Q * inject_Z delta) / inject_Z (Z.of_nat n))%Q)
        (seq 1 (n - 1)).

End Statistics.

(** ** [dev/Generate_Report.py] *)

Module Report.

(** One item of [config['endpoints']], read with the defaults of
    [endpoint.get]: [''] for a missing [url] or [name], ['GET'] for a
    missing [method], [None] for a missing [threshold_ms].  The
    configuration [{}] that [load_routes_config] falls back to, and one
    without [endpoints], behave as the empty list. *)
Record endpoint_cfg : Type := {
  ec_name : string;
  ec_method : string;
  ec_url : string;
  ec_threshold_ms : option Q
}.

(** [get_endpoint_info_from_config(url, method, config)[0]] *)
Fixpoint get_endpoint_info_from_config
    (url method : json) (config : list endpoint_cfg) : result (option string) :=
  match config with
  | [] => Ok None
  | endpoint :: rest =>
      let clean_endpoint_url := PyStr.lstrip_char "/" (ec_url endpoint) in
      match Py.str_in clean_endpoint_url url with
      | Raise e => Raise e
      | Ok false => get_endpoint_info_from_config url method rest
      | Ok true =>
          match Py.upper method with
          | Raise e => Raise e
          | Ok m =>
              if String.eqb (PyStr.upper (ec_method endpoint)) m
              then Ok (Some (ec_name endpoint))
              else get_endpoint_info_from_config url method rest
          end
      end
  end.

Record timeline_point : Type := {
  tp_timestamp : json;
  tp_response_time : Q;
  tp_tags : json
}.

(** The value of [endpoint_stats[endpoint]] *)
Record endpoint_data : Type := {
  response_times : list Q;
  timeline : list (json * Q);
  errors : nat;
  count : nat
}.

Definition default_entry : endpoint_data :=
  {| response_times := []; timeline := []; errors := 0; count := 0 |}.

(** The local variables of [analyze_k6_json_with_timeline].
    [endpoint_stats] keeps the insertion order of the [defaultdict]. *)
Record acc : Type := {
  line_count : nat;
  all_response_times : list Q;
  timeline_data : list timeline_point;
  error_count : nat;
  total_requests : nat;
  endpoint_stats : list (json * endpoint_data);
  vus_timeline : list (json * json)
}.

Definition init : acc :=
  {| line_count := 0; all_response_times := []; timeline_data := [];
     error_count := 0; total_requests := 0; endpoint_stats := [];
     vus_timeline := [] |}.

(** A computation on the local variables that returns or raises. *)
Definition M (A : Type) : Type := acc -> acc * result A.

Definition ret {A} (x : A) : M A := fun a => (a, Ok x).
Definition raise {A} (e : exn) : M A := fun a => (a, Raise e).
Definition bind {A B} (m : M A) (k : A -> M B) : M B :=
  fun a => match m a with
           | (a', Ok x) => k x a'
           | (a', Raise e) => (a', Raise e)
           end.
Definition lift {A} (r : result A) : M A := fun a => (a, r).
Definition modify (f : acc -> acc) : M unit := fun a => (f a, Ok tt).

#[global] Instance M_ret : MRet M := @ret.
#[global] Instance M_bind : MBind M := fun A B k m => bind m k.

Definition incr_line_count (a : acc) : acc :=
  {| line_count := S (line_count a); all_response_times := all_response_times a;
     timeline_data := timeline_data a; error_count := error_count a;
     total_requests := total_requests a; endpoint_stats := endpoint_stats a;
     vus_timeline := vus_timeline a |}.

Definition append_vus (timestamp vus : json) (a : acc) : acc :=
  {| line_count := line_count a; all_response_times := all_response_times a;
     timeline_data := timeline_data a; error_count := error_count a;
     total_requests := total_requests a; endpoint_stats := endpoint_stats a;
     vus_timeline := vus_timeline a ++ [(timestamp, vus)] |}.

Definition append_response_time (value : Q) (a : acc) : acc :=
  {| line_count := line_count a;
     all_response_times := all_response_times a ++ [value];
     timeline_data := timeline_data a; error_count := error_count a;
     total_requests := total_requests a; endpoint_stats := endpoint_stats a;
     vus_timeline := vus_timeline a |}.

Definition incr_total_requests (a : acc) : acc :=
  {| line_count := line_count a; all_response_times := all_response_times a;
     timeline_data := timeline_data a; error_count := error_count a;
     total_requests := S (total_requests a); endpoint_stats := endpoint_stats a;
     vus_timeline := vus_timeline a |}.

Definition append_timeline (p : timeline_point) (a : acc) : acc :=
  {| line_count := line_count a; all_response_times := all_response_times a;
     timeline_data := timeline_data a ++ [p]; error_count := error_count a;
     total_requests := total_requests a; endpoint_stats := endpoint_stats a;
     vus_timeline := vus_timeline a |}.

Definition incr_error_count (a : acc) : acc :=
  {| line_count := line_count a; all_response_times := all_response_times a;
     timeline_data := timeline_data a; error_count := S (error_count a);
     total_requests := total_requests a; endpoint_stats := endpoint_stats a;
     vus_timeline := vus_timeline a |}.

Definition set_endpoint_stats (es : list (json * endpoint_data)) (a : acc) : acc :=
  {| line_count := line_count a; all_response_times := all_response_times a;
     timeline_data := timeline_data a; error_count := error_count a;
     total_requests := total_requests a; endpoint_stats := es;
     vus_timeline := vus_timeline a |}.

(** [endpoint_stats[k]] followed by an update of the entry: the entry of an
    equal key, or a fresh default entry behind the others. *)
Fixpoint update_entry (k : json) (f : endpoint_data -> endpoint_data)
    (es : list (json * endpoint_data)) : list (json * endpoint_data) :=
  match es with
  | [] => [(k, f default_entry)]
  | (k', d) :: r =>
      if Py.key_eqb k' k then (k', f d) :: r
      else (k', d) :: update_entry k f r
  end.

(** An update through [endpoint_stats[endpoint]]; hashing the key raises
    [TypeError] on a list or a dict. *)
Definition with_entry (endpoint : json) (f : endpoint_data -> endpoint_data) : M unit :=
  if Py.hashable endpoint
  then modify (fun a => set_endpoint_stats (update_entry endpoint f (endpoint_stats a)) a)
  else raise TypeError.

Definition add_response_time (value : Q) (d : endpoint_data) : endpoint_data :=
  {| response_times := response_times d ++ [value]; timeline := timeline d;
     errors := errors d; count := count d |}.

Definition add_timeline (timestamp : json) (value : Q) (d : endpoint_data) : endpoint_data :=
  {| response_times := response_times d;
     timeline := timeline d ++ [(timestamp, value)];
     errors := errors d; count := count d |}.

Definition incr_count (d : endpoint_data) : endpoint_data :=
  {| response_times := response_times d; timeline := timeline d;
     errors := errors d; count := S (count d) |}.

Definition incr_errors (d : endpoint_data) : endpoint_data :=
  {| response_times := response_times d; timeline := timeline d;
     errors := S (errors d); count := count d |}.

Section Interpreter.

(** Python's [str(v)] for a value that is not a string, which an f-string
    applies to what it interpolates; it belongs to the interpreter. *)
Variable py_str : json -> string.

Definition format_value (v : json) : string :=
  match v with
  | JStr s => s
  | _ => py_str v
  end.

(** The [if route_tag: ... else: endpoint = 'unknown'] chain. *)
Definition resolve_endpoint (config : list endpoint_cfg)
    (url method name_tag route_tag : json) : result json :=
  if Py.truthy route_tag then Ok route_tag
  else
    match get_endpoint_info_from_config url method config with
    | Raise e => Raise e
    | Ok endpoint_name =>
        if match endpoint_name with
           | Some n => negb (String.eqb n "")
           | None => false
           end
        then Ok (JStr (default "" endpoint_name))
        else if Py.truthy name_tag then Ok name_tag
        else if Py.truthy url then
          match url with
          | JStr u =>
              let endpoint_parts := PyStr.split "/" u in
              Ok (JStr (format_value method +:+ " " +:+
                        match endpoint_parts with
                        | [] => "unknown"
                        | _ => List.last endpoint_parts ""
                        end))
          | _ => Raise AttributeError
          end
        else Ok (JStr "unknown")
    end.

(** The body of [for line in f], for one line. *)
Definition process_line (config : list endpoint_cfg) (line : option json) : M unit :=
  modify incr_line_count;;
  data ← lift (match line with Some v => Ok v | None => Raise JSONDecodeError end);
  match data with
  | JObj d =>
      if Py.eq_str (Py.get d "type" JNull) "Point"
         && Py.eq_str (Py.get d "metric" JNull) "vus"
      then
        point_data ← lift (Py.subscript d "data");
        timestamp ← lift (Py.attr_get point_data "time" (JStr ""));
        vus_count ← lift (Py.attr_get point_data "value" (JNum 0));
        modify (append_vus timestamp vus_count)
      else if Py.eq_str (Py.get d "type" JNull) "Point"
              && Py.eq_str (Py.get d "metric" JNull) "http_req_duration"
      then
        point_data ← lift (Py.subscript d "data");
        value ← lift (Py.attr_get point_data "value" (JNum 0));
        timestamp ← lift (Py.attr_get point_data "time" (JStr ""));
        v ← lift (match Py.num_of value with
                   | Some q => Ok q
                   | None => Raise TypeError
                   end);
        if Py.Qltb 0 v then
          modify (append_response_time v);;
          modify incr_total_requests;;
          tags0 ← lift (Py.attr_get point_data "tags" (JObj []));
          modify (append_timeline
                    {| tp_timestamp := timestamp; tp_response_time := v;
                       tp_tags := tags0 |});;
          tags ← lift (Py.attr_get point_data "tags" (JObj []));
          url ← lift (Py.attr_get tags "url" (JStr ""));
          status ← lift (Py.attr_get tags "status" (JStr "200"));
          method ← lift (Py.attr_get tags "method" (JStr "GET"));
          name_tag ← lift (Py.attr_get tags "name" (JStr ""));
          route_tag ← lift (Py.attr_get tags "route" (JStr ""));
          endpoint ← lift (resolve_endpoint config url method name_tag route_tag);
          with_entry endpoint (add_response_time v);;
          with_entry endpoint (add_timeline timestamp v);;
          with_entry endpoint incr_count;;
          code ← lift (Py.int status);
          if (400 <=? code)%Z then
            modify incr_error_count;;
            with_entry endpoint incr_errors
          else ret tt
        else ret tt
      else ret tt
  | _ => ret tt
  end.

(** [except (json.JSONDecodeError, ValueError, TypeError): continue] *)
Definition caught (e : exn) : bool :=
  match e with
  | JSONDecodeError | ValueError | TypeError => true
  | KeyError | AttributeError => false
  end.

(** The loop over the lines of the file. *)
Fixpoint collect (config : list endpoint_cfg) (lines : list (option json))
    (a : acc) : result acc :=
  match lines with
  | [] => Ok a
  | line :: rest =>
      match process_line config line a with
      | (a', Ok _) => collect config rest a'
      | (a', Raise e) => if caught e then collect config rest a' else Raise e
      end
  end.

End Interpreter.

(** *** Finalization: the statistics and the thresholds *)

(** The fallback defaults, by the endpoint's name. *)
Definition default_threshold (endpoint_name : string) : Q :=
  let lowered := PyStr.lower endpoint_name in
  if PyStr.contains "dashboard" lowered then 1500%Q
  else if PyStr.contains "student" lowered && PyStr.contains "list" lowered then 2500%Q
  else if PyStr.contains "student" lowered && PyStr.contains "details" lowered then 1500%Q
  else if PyStr.contains "course" lowered then 5000%Q
  else 2000%Q.

(** What one configured endpoint stores in [thresholds]:
    [if threshold_ms:] is false on [None] and on zero. *)
Definition threshold_for (endpoint : endpoint_cfg) : Q :=
  match ec_threshold_ms endpoint with
  | Some t => if Qeq_bool t 0 then default_threshold (ec_name endpoint) else t
  | None => default_threshold (ec_name endpoint)
  end.

(** The [thresholds] dict, filled in the order of the configuration. *)
Definition thresholds_of (config : list endpoint_cfg) : gmap string Q :=
  fold_left (fun th endpoint => <[ec_name endpoint := threshold_for endpoint]> th)
            config ∅.

(** [endpoint in thresholds] and [thresholds[endpoint]]: the keys of
    [thresholds] are strings, which only a string equals. *)
Definition lookup_threshold (endpoint : json) (thresholds : gmap string Q) : option Q :=
  match endpoint with
  | JStr s => thresholds !! s
  | _ => None
  end.

(** [quantiles(l, n=20)[18] if len(l) >= 20 else max(l)] *)
Definition p95_of (l : list Q) : Q :=
  if 20 <=? length l then nth 18 (Statistics.quantiles 20 l) 0%Q else Py.max l.

(** [quantiles(l, n=100)[98] if len(l) >= 100 else max(l)] *)
Definition p99_of (l : list Q) : Q :=
  if 100 <=? length l then nth 98 (Statistics.quantiles 100 l) 0%Q else Py.max l.

(** An entry of [endpoint_stats] after the last loop of the analyzer, which
    adds the keys [p95], [threshold] and [threshold_passed] to every entry. *)
Record endpoint_final : Type := {
  ef_data : endpoint_data;
  ef_p95 : Q;
  ef_threshold : option Q;
  ef_threshold_passed : bool
}.

Definition finalize_entry (thresholds : gmap string Q)
    (endpoint : json) (data : endpoint_data) : endpoint_final :=
  match response_times data with
  | _ :: _ =>
      let p95 := p95_of (response_times data) in
      match lookup_threshold endpoint thresholds with
      | Some t =>
          {| ef_data := data; ef_p95 := p95; ef_threshold := Some t;
             ef_threshold_passed := Qle_bool p95 t |}
      | None =>
          {| ef_data := data; ef_p95 := p95; ef_threshold := None;
             ef_threshold_passed := true |}
      end
  | [] =>
      {| ef_data := data; ef_p95 := 0%Q; ef_threshold := None;
         ef_threshold_passed := true |}
  end.

(** The [stats] dict. *)
Record stats : Type := {
  st_total_requests : nat;
  st_error_count : nat;
  st_error_rate : Q;
  st_avg_response_time : Q;
  st_min_response_time : Q;
  st_max_response_time : Q;
  st_p50_response_time : Q;
  st_p95_response_time : Q;
  st_p99_response_time : Q;
  st_endpoint_stats : list (json * endpoint_final);
  st_timeline_data : list timeline_point;
  st_vus_timeline : list (json * json)
}.

Definition Q_of_nat (n : nat) : Q := inject_Z (Z.of_nat n).

(** The part of the analyzer behind the loop, on non-empty [response_times].
    The numbers are exact here.  In the source [statistics.mean] and
    [statistics.median] return floats and raise [OverflowError] on integers
    beyond the range of a float; that exception is not followed, so what is
    proved of the statistics holds of the runs in which the source returns
    them. *)
Definition finalize (config : list endpoint_cfg) (a : acc) : stats :=
  let thresholds := thresholds_of config in
  {| st_total_requests := total_requests a;
     st_error_count := error_count a;
     st_error_rate :=
       if 0 <? total_requests a
       then (Q_of_nat (error_count a) / Q_of_nat (total_requests a) * 100)%Q
       else 0%Q;
     st_avg_response_time := Statistics.mean (all_response_times a);
     st_min_response_time := Py.min (all_response_times a);
     st_max_response_time := Py.max (all_response_times a);
     st_p50_response_time := Statistics.median (all_response_times a);
     st_p95_response_time := p95_of (all_response_times a);
     st_p99_response_time := p99_of (all_response_times a);
     st_endpoint_stats :=
       map (fun kd => (fst kd, finalize_entry thresholds (fst kd) (snd kd)))
           (endpoint_stats a);
     st_timeline_data := timeline_data a;
     st_vus_timeline := vus_timeline a |}.

Inductive outcome : Type :=
| Raised (e : exn)
| NoStats
| Stats (s : stats).

(** [analyze_k6_json_with_timeline]: [file] is [None] when the file is not
    found, and the parsed lines otherwise. *)
Definition analyze_k6_json_with_timeline (py_str : json -> string)
    (config : list endpoint_cfg) (file : option (list (option json))) : outcome :=
  match file with
  | None => NoStats
  | Some lines =>
      match collect py_str config lines init with
      | Raise e => Raised e
      | Ok a =>
          match all_response_times a with
          | [] => NoStats
          | _ :: _ => Stats (finalize config a)
          end
      end
  end.

(** *** [generate_html_report_with_charts]: the endpoint rows *)

Inductive status_label : Type := Excellent | Good | NeedsAttention.

Definition status_class (s : status_label) : string :=
  match s with
  | Excellent => "success"
  | Good => "warning"
  | NeedsAttention => "danger"
  end.

(** The words of [status_text], behind its pictogram. *)
Definition status_text (s : status_label) : string :=
  match s with
  | Excellent => "Excellent"
  | Good => "Good"
  | NeedsAttention => "Needs Attention"
  end.

(** [((data['count'] - data['errors']) / data['count']) * 100] *)
Definition success_rate (data : endpoint_data) : Q :=
  (inject_Z (Z.of_nat (count data) - Z.of_nat (errors data))
   / Q_of_nat (count data) * 100)%Q.

Definition classify (success_rate : Q) (threshold_passed : bool) : status_label :=
  if Qle_bool 95 success_rate && threshold_passed then Excellent
  else if Qle_bool 90 success_rate && threshold_passed then Good
  else NeedsAttention.

(** [f"{threshold}ms" if threshold else "N/A"] *)
Definition threshold_display (py_str : json -> string) (threshold : option Q) : string :=
  match threshold with
  | Some t => if Qeq_bool t 0 then "N/A" else py_str (JNum t) +:+ "ms"
  | None => "N/A"
  end.

Record row : Type := {
  row_endpoint : json;
  row_count : nat;
  row_p95 : Q;
  row_threshold_display : string;
  row_success_rate : Q;
  row_status : status_label
}.

Definition endpoint_row (py_str : json -> string) (kd : json * endpoint_final) : row :=
  let data := snd kd in
  {| row_endpoint := fst kd;
     row_count := count (ef_data data);
     row_p95 := ef_p95 data;
     row_threshold_display := threshold_display py_str (ef_threshold data);
     row_success_rate := success_rate (ef_data data);
     row_status := classify (success_rate (ef_data data)) (ef_threshold_passed data) |}.

(** The rows of the endpoint table: one for each entry with [count > 0]. *)
Definition endpoint_rows (py_str : json -> string) (s : stats) : list row :=
  map (endpoint_row py_str)
      (List.filter (fun kd => 0 <? count (ef_data (snd kd))) (st_endpoint_stats s)).

(** *** [generate_html_report_with_charts]: the error rates of the timeline *)

(** The key of the sort; the sort and the label that [datetime] makes of a
    sampled timestamp are followed on string timestamps. *)
Definition timestamp_string (p : timeline_point) : option string :=
  match tp_timestamp p with
  | JStr s => Some s
  | _ => None
  end.

Definition timestamp_ltb (p q : timeline_point) : bool :=
  match timestamp_string p, timestamp_string q with
  | Some s, Some t => String.ltb s t
  | _, _ => false
  end.

(** [sorted(stats['timeline_data'], key=lambda x: x['timestamp'])];
    [None] when a timestamp is not a string. *)
Definition sorted_timeline (tl : list timeline_point) : option (list timeline_point) :=
  if forallb (fun p => match timestamp_string p with Some _ => true | None => false end) tl
  then Some (Py.sorted_by timestamp_ltb tl)
  else None.

(** [d.get('tags', {}).get('status', '200').startswith(('4', '5'))];
    [None] when it raises: the tags are not a dict or the status is not a
    string. *)
Definition is_error_point (d : timeline_point) : option bool :=
  match tp_tags d with
  | JObj kv =>
      match Py.get kv "status" (JStr "200") with
      | JStr s => Some (PyStr.startswith "4" s || PyStr.startswith "5" s)
      | _ => None
      end
  | _ => None
  end.

(** [sum(1 for d in window_data if ...)] *)
Fixpoint count_errors (window_data : list timeline_point) : option nat :=
  match window_data with
  | [] => Some 0
  | d :: rest =>
      match is_error_point d with
      | None => None
      | Some b =>
          match count_errors rest with
          | None => None
          | Some n => Some (if b then S n else n)
          end
      end
  end.

(** [l[start:stop]] for two indices that are not negative. *)
Definition slice {A : Type} (start stop : nat) (l : list A) : list A :=
  firstn (stop - start) (skipn start l).

Definition window_size : nat := 50.

(** The error rate appended for the sampled index [i]; the subtraction on
    [nat] stops at zero, as [max(0, i - window_size // 2)] does. *)
Definition window_error_rate (sorted_tl : list timeline_point) (i : nat) : option Q :=
  let start_idx := Nat.max 0 (i - window_size / 2) in
  let end_idx := Nat.min (length sorted_tl) (i + window_size / 2) in
  let window_data := slice start_idx end_idx sorted_tl in
  let total_in_window := length window_data in
  match count_errors window_data with
  | None => None
  | Some errors_in_window =>
      let error_rate :=
        if 0 <? total_in_window
        then (Q_of_nat errors_in_window / Q_of_nat total_in_window * 100)%Q
        else 0%Q in
      Some (Py.round2 error_rate)
  end.

(** The loop [for i, point in enumerate(sorted_timeline)], from index [i] on
    the remaining points [rest]: the list of what is appended to
    [error_rates]. *)
Fixpoint error_rates_from (sorted_tl : list timeline_point) (i : nat)
    (rest : list timeline_point) : option (list Q) :=
  match rest with
  | [] => Some []
  | _ :: rest' =>
      if i mod 5 =? 0 then
        match window_error_rate sorted_tl i with
        | None => None
        | Some r =>
            match error_rates_from sorted_tl (S i) rest' with
            | None => None
            | Some rs => Some (r :: rs)
            end
        end
      else error_rates_from sorted_tl (S i) rest'
  end.

(** [error_rates] of a report; [None] when the computation raises. *)
Definition error_rates (tl : list timeline_point) : option (list Q) :=
  match sorted_timeline tl with
  | None => None
  | Some sorted_tl => error_rates_from sorted_tl 0 sorted_tl
  end.

(** *** [sanitize_filename] *)

(** The class [[^\w\s-]] is removed: what stays is [\w], [\s] and the
    dash. *)
Definition kept_char (c : ascii) : bool :=
  PyStr.is_word c || PyStr.is_space c || Ascii.eqb c "-"%char.

(** The class [[-\s]]. *)
Definition dash_or_space (c : ascii) : bool :=
  Ascii.eqb c "-"%char || PyStr.is_space c.

(** [re.sub(r'[-\s]+', '-', s)]: every maximal run of dashes and whitespace
    becomes one dash; [in_run] tells that the character before belongs to
    the run that is being replaced. *)
Fixpoint collapse_runs (in_run : bool) (s : string) : string :=
  match s with
  | EmptyString => EmptyString
  | String a t =>
      if dash_or_space a
      then if in_run then collapse_runs true t
           else String "-"%char (collapse_runs true t)
      else String a (collapse_runs false t)
  end.

(** [sanitize_filename], on a title of ASCII characters. *)
Definition sanitize_filename (title : string) : string :=
  let safe_name := PyStr.filter_chars kept_char title in
  let safe_name := collapse_runs false safe_name in
  PyStr.lower (PyStr.strip_char "-" safe_name).

End Report.

(** ** [src/web/app.py] *)

Module WebApp.

(** A value stored under a key of [test_status[test_id]]. *)
Inductive val : Type :=
| VStr (s : string)
| VInt (n : Z)
| VBool (b : bool).

(** [test_status[test_id][key] = value] *)
Definition write : Type := string * val.

Definition apply_write (entry : gmap string val) (w : write) : gmap string val :=
  <[fst w := snd w]> entry.

Definition apply_writes (entry : gmap string val) (ws : list write) : gmap string val :=
  fold_left apply_write ws entry.

(** One item of [custom_stages]. *)
Record stage : Type := { duration : string; target : Z }.

(** [len(custom_stages) if custom_stages else 5] *)
Definition total_stages_of (custom_stages : option (list stage)) : N :=
  match custom_stages with
  | Some ((_ :: _) as l) => N.of_nat (length l)
  | _ => 5%N
  end.

(** *** The patterns of the output loop *)

(** [pattern.search(s)]: the match at the leftmost position that has one. *)
Fixpoint search {A : Type} (m : string -> option A) (s : string) : option A :=
  match m s with
  | Some x => Some x
  | None =>
      match s with
      | EmptyString => None
      | String _ t => search m t
      end
  end.

Definition strip_prefix (p s : string) : option string :=
  if PyStr.startswith p s
  then Some (String.substring (String.length p) (String.length s - String.length p) s)
  else None.

Definition is_empty (s : string) : bool :=
  match s with EmptyString => true | _ => false end.

(** One or more digits at the head of [s]: their value and the rest. *)
Definition digits1 (s : string) : option (N * string) :=
  let '(d, rest) := PyStr.span PyStr.is_digit s in
  if is_empty d then None else Some (PyStr.nat_of_digits d 0%N, rest).

(** One or more whitespace characters at the head of [s]: the rest. *)
Definition spaces1 (s : string) : option string :=
  let '(w, rest) := PyStr.span PyStr.is_space s in
  if is_empty w then None else Some rest.

(** A match of [(\d+)/(\d+)\s+VUs] at the head of [s]: the two numbers. *)
Definition match_vus (s : string) : option (N * N) :=
  match digits1 s with
  | Some (a, String "/"%char r1) =>
      match digits1 r1 with
      | Some (b, r2) =>
          match spaces1 r2 with
          | Some r3 => if PyStr.startswith "VUs" r3 then Some (a, b) else None
          | None => None
          end
      | None => None
      end
  | _ => None
  end.

(** A match of [(\d+)\s+VUs] at the head of [s]. *)
Definition match_simple_vus (s : string) : option N :=
  match digits1 s with
  | Some (a, r1) =>
      match spaces1 r1 with
      | Some r2 => if PyStr.startswith "VUs" r2 then Some a else None
      | None => None
      end
  | None => None
  end.

(** A match of [(\d+)%] at the head of [s]. *)
Definition match_progress (s : string) : option N :=
  match digits1 s with
  | Some (a, String "%"%char _) => Some a
  | _ => None
  end.

(** What follows an opening parenthesis in the two stage patterns:
    [\(([^)]+)\)]. *)
Definition match_parenthesized (s : string) : option string :=
  match s with
  | String "("%char r =>
      let '(g, rest) := PyStr.span (fun c => negb (Ascii.eqb c ")"%char)) r in
      match rest with
      | String ")"%char _ => if is_empty g then None else Some g
      | _ => None
      end
  | _ => None
  end.

(** A match of [running\s+\(([^)]+)\)] at the head of [s], of [run_k6_test]. *)
Definition match_stage (s : string) : option string :=
  match strip_prefix "running" s with
  | Some r1 =>
      match spaces1 r1 with
      | Some r2 => match_parenthesized r2
      | None => None
      end
  | None => None
  end.

(** A match of [running \(([^)]+)\)] at the head of [s], of
    [run_simple_rate_control_test]. *)
Definition match_stage_rate (s : string) : option string :=
  match strip_prefix "running " s with
  | Some r1 => match_parenthesized r1
  | None => None
  end.

(** *** The output loop of [run_k6_test] *)

(** The local variables of the loop. *)
Record tracker : Type := {
  current_stage : N;
  current_vus : N;
  target_vus : N;
  progress_percent : N;
  last_lines : list string
}.

Definition tracker_init : tracker :=
  {| current_stage := 1; current_vus := 0; target_vus := 0;
     progress_percent := 0; last_lines := [] |}.

(** [last_lines.append(line)] on a [deque(maxlen=10)] *)
Definition push_line (line : string) (l : list string) : list string :=
  if 10 <=? length l then skipn 1 l ++ [line] else l ++ [line].

Definition stage_text (current total : N) (what : string) : string :=
  "Stage " +:+ PyStr.of_N current +:+ "/" +:+ PyStr.of_N total +:+ ": " +:+ what.

(** The body of [for line in proc.stdout] for one line: the local variables
    behind it and the writes it makes to the entry, in their order.  [int]
    of a matched run of digits is its value; an interpreter that limits the
    digits of [int] raises [ValueError] on a run of more than 4300, which
    is not followed. *)
Definition line_step (total_stages : N) (t : tracker) (line : string)
    : tracker * list write :=
  let lines := push_line line (last_lines t) in
  let line_stripped := PyStr.strip line in
  let vus_match := search match_vus line in
  let '(cur, tgt, w_vus) :=
    match vus_match with
    | Some (a, b) =>
        (a, b, [("vus", VInt (Z.of_N a)); ("target_vus", VInt (Z.of_N b))])
    | None =>
        match search match_simple_vus line with
        | Some a =>
            if PyStr.contains "VUs" line
            then (a, target_vus t, [("vus", VInt (Z.of_N a))])
            else (current_vus t, target_vus t, [])
        | None => (current_vus t, target_vus t, [])
        end
    end in
  let '(prog, w_prog) :=
    match search match_progress line with
    | Some p => (p, [("progress_percent", VInt (Z.of_N p))])
    | None => (progress_percent t, [])
    end in
  let w_time :=
    match search match_stage line with
    | Some running_time =>
        [("running_time", VStr running_time);
         ("stage", VStr ("Running for " +:+ running_time))]
    | None => []
    end in
  let lowered := PyStr.lower line_stripped in
  let '(stg, w_stage) :=
    if PyStr.contains "ramping up" lowered then
      let next := (current_stage t + 1)%N in
      (next,
       [("current_stage", VInt (Z.of_N next));
        ("total_stages", VInt (Z.of_N total_stages));
        ("stage", VStr (stage_text next total_stages "Ramping up"))])
    else if PyStr.contains "ramping down" lowered then
      (current_stage t,
       [("stage", VStr (stage_text (current_stage t) total_stages "Ramping down"))])
    else if PyStr.contains "staying at" lowered then
      (current_stage t,
       [("stage", VStr (stage_text (current_stage t) total_stages "Steady state"))])
    else (current_stage t, []) in
  ({| current_stage := stg; current_vus := cur; target_vus := tgt;
      progress_percent := prog; last_lines := lines |},
   w_vus ++ w_prog ++ w_time ++ w_stage).

(** The whole loop. *)
Fixpoint output_loop (total_stages : N) (t : tracker) (lines : list string)
    : tracker * list write :=
  match lines with
  | [] => (t, [])
  | line :: rest =>
      let '(t1, w1) := line_step total_stages t line in
      let '(t2, w2) := output_loop total_stages t1 rest in
      (t2, w1 ++ w2)
  end.

(** *** The two runners, as the writes they make to the entry *)

(** What a step outside the process does: the copies, the subprocess, the
    directory listings.  [Throws msg] is an exception [e] with
    [str(e) = msg]; [TimesOut msg] is [subprocess.TimeoutExpired]. *)
Inductive outcome (A : Type) : Type :=
| Returns (a : A)
| Throws (msg : string)
| TimesOut (msg : string).
Arguments Returns {A} a.
Arguments Throws {A} msg.
Arguments TimesOut {A} msg.

(** How the [try] block of a runner is left early. *)
Inductive stop : Type :=
| Returned
| Threw (msg : string)
| TimedOut.

(** The writes made so far, and the value or the early exit. *)
Definition W (A : Type) : Type := list write * (stop + A).

Definition w_ret {A} (x : A) : W A := ([], inr x).
Definition w_bind {A B} (m : W A) (k : A -> W B) : W B :=
  match m with
  | (ws, inl s) => (ws, inl s)
  | (ws, inr x) => let '(ws', r) := k x in (ws ++ ws', r)
  end.
#[global] Instance W_ret : MRet W := @w_ret.
#[global] Instance W_bind : MBind W := fun A B k m => w_bind m k.

Definition put (key : string) (v : val) : W unit := ([(key, v)], inr tt).
Definition emit (ws : list write) : W unit := (ws, inr tt).
Definition returned {A} : W A := ([], inl Returned).
Definition call {A} (o : outcome A) : W A :=
  match o with
  | Returns a => ([], inr a)
  | Throws msg => ([], inl (Threw msg))
  | TimesOut _ => ([], inl TimedOut)
  end.

Definition newline : string := String (ascii_of_N 10) EmptyString.

Definition report_failed_text (stdout stderr : string) : string :=
  "Report generation failed: " +:+ stderr +:+ newline +:+ "STDOUT: " +:+ stdout.

Definition no_report_text (all_files reports_files stdout : string) : string :=
  "No HTML report was generated. Files in test directory: " +:+ all_files
  +:+ ". Files in reports directory: " +:+ reports_files
  +:+ ". Report generation output: " +:+ stdout.

(** What happens around one run of [run_k6_test]. *)
Record k6_env : Type := {
  (** the copies, the executor and the configuration: [test_name] *)
  k6_prepare : outcome string;
  (** [subprocess.Popen(k6_cmd, ...)] *)
  k6_popen : outcome unit;
  (** the lines of [proc.stdout] *)
  k6_output : list string;
  (** [proc.wait(timeout=300)]: the exit code *)
  k6_wait : outcome Z;
  (** [subprocess.run(report_cmd, ...)]: [returncode], [stdout], [stderr] *)
  k6_report : outcome (Z * string * string);
  (** the listings behind it: [html_files], and the texts of [all_files]
      and [reports_files] *)
  k6_listing : outcome (list string * string * string);
  (** the [shutil.move] of the result files *)
  k6_move : outcome unit
}.

(** The [try] block of [run_k6_test]. *)
Definition k6_body (custom_stages : option (list stage)) (env : k6_env) : W unit :=
  put "status" (VStr "running");;
  put "stage" (VStr "Preparing test environment");;
  test_name ← call (k6_prepare env);
  put "stage" (VStr "Running K6 load test");;
  call (k6_popen env);;
  let '(t, ws) := output_loop (total_stages_of custom_stages) tracker_init (k6_output env) in
  emit ws;;
  exit_code ← call (k6_wait env);
  if negb (exit_code =? 0)%Z && negb (exit_code =? 99)%Z then
    put "status" (VStr "failed");;
    put "error" (VStr ("K6 test failed. Last output: " +:+ String.concat "" (last_lines t)));;
    returned
  else
    (if (exit_code =? 99)%Z then
       put "thresholds_crossed" (VBool true);;
       put "warning" (VStr "Some performance thresholds were exceeded during the test")
     else put "thresholds_crossed" (VBool false));;
    put "stage" (VStr "Generating HTML report");;
    result ← call (k6_report env);
    let '(returncode, stdout, stderr) := result in
    if negb (returncode =? 0)%Z then
      put "status" (VStr "failed");;
      put "error" (VStr (report_failed_text stdout stderr));;
      returned
    else
      listing ← call (k6_listing env);
      let '(html_files, all_files, reports_files) := listing in
      match html_files with
      | [] =>
          put "status" (VStr "failed");;
          put "error" (VStr (no_report_text all_files reports_files stdout));;
          returned
      | final_report_name :: _ =>
          put "status" (VStr "completed");;
          put "report_file" (VStr final_report_name);;
          put "summary_file" (VStr (test_name +:+ "_summary.json"));;
          put "detailed_file" (VStr (test_name +:+ "_detailed.json"));;
          call (k6_move env)
      end.

(** The two [except] clauses of a runner. *)
Definition handlers (timeout_text : string) (r : stop + unit) : list write :=
  match r with
  | inr _ | inl Returned => []
  | inl TimedOut => [("status", VStr "failed"); ("error", VStr timeout_text)]
  | inl (Threw msg) =>
      [("status", VStr "failed"); ("error", VStr ("Unexpected error: " +:+ msg))]
  end.

(** [run_k6_test]: every write to [test_status[test_id]], in order. *)
Definition run_k6_test (custom_stages : option (list stage)) (env : k6_env) : list write :=
  let '(ws, r) := k6_body custom_stages env in
  ws ++ handlers "Test timed out" r.

(** [rate_config], read with the defaults of its [get]s. *)
Record rate_config : Type := { rate_type : string; target_rate : N }.

Record rate_env : Type := {
  rate_prepare : outcome unit;
  rate_popen : outcome unit;
  rate_output : list string;
  rate_wait : outcome Z;
  rate_report : outcome (Z * string * string);
  rate_listing : outcome (list string * string * string);
  rate_move : outcome unit
}.

(** The output loop of [run_simple_rate_control_test], for one line. *)
Definition rate_line_step (cfg : rate_config) (line : string) : list write :=
  match search match_vus line with
  | Some (a, b) => [("vus", VInt (Z.of_N a)); ("target_vus", VInt (Z.of_N b))]
  | None => []
  end
  ++ match search match_progress line with
     | Some p => [("progress_percent", VInt (Z.of_N p))]
     | None => []
     end
  ++ match search match_stage_rate line with
     | Some running_time =>
         [("running_time", VStr running_time);
          ("stage", VStr (PyStr.upper (rate_type cfg) +:+ " Rate Control ("
                          +:+ PyStr.of_N (target_rate cfg) +:+ " RPS) - "
                          +:+ running_time))]
     | None => []
     end.

(** The inner [try] of the rate-control runner: the report. *)
Definition rate_report_writes (env : rate_env) : list write :=
  match rate_report env with
  | Throws msg | TimesOut msg => [("report_error", VStr msg)]
  | Returns (returncode, stdout, stderr) =>
      if negb (returncode =? 0)%Z
      then [("report_error", VStr (report_failed_text stdout stderr))]
      else
        match rate_listing env with
        | Throws msg | TimesOut msg => [("report_error", VStr msg)]
        | Returns (final_report_name :: _, _, _) =>
            [("report_file", VStr final_report_name)]
        | Returns ([], all_files, reports_files) =>
            [("report_error", VStr (no_report_text all_files reports_files stdout))]
        end
  end.

(** The [try] block of [run_simple_rate_control_test]. *)
Definition rate_body (cfg : rate_config) (env : rate_env) : W unit :=
  put "status" (VStr "running");;
  put "stage" (VStr "Preparing simple rate control test");;
  call (rate_prepare env);;
  put "stage" (VStr "Configuring rate control parameters");;
  put "stage" (VStr ("Running " +:+ rate_type cfg +:+ " rate control test at "
                     +:+ PyStr.of_N (target_rate cfg) +:+ " RPS"));;
  call (rate_popen env);;
  emit (concat (map (rate_line_step cfg) (rate_output env)));;
  exit_code ← call (rate_wait env);
  if (exit_code =? 0)%Z || (exit_code =? 99)%Z then
    put "status" (VStr "completed");;
    put "stage" (VStr "Generating rate control report");;
    emit (rate_report_writes env);;
    call (rate_move env)
  else
    put "status" (VStr "failed");;
    put "error" (VStr ("Simple rate control test failed with exit code "
                       +:+ pretty exit_code)).

(** [run_simple_rate_control_test]: every write to the entry, in order. *)
Definition run_simple_rate_control_test (cfg : rate_config) (env : rate_env) : list write :=
  let '(ws, r) := rate_body cfg env in
  ws ++ handlers "Simple rate control test timed out" r.

(** The entry that the upload handlers create. *)
Definition queued_entry (stage_text filename upload_time : string) : gmap string val :=
  {[ "status" := VStr "queued"; "stage" := VStr stage_text;
     "filename" := VStr filename; "upload_time" := VStr upload_time ]}.

(** What a reader of the entry can see during a run: the entry after any
    number of the run's writes. *)
Definition observable (entry0 : gmap string val) (run : list write)
    (entry : gmap string val) : Prop :=
  exists n, entry = apply_writes entry0 (firstn n run).

(** *** The routes that read an entry *)

Inductive folder : Type := ReportsFolder | ResultsFolder.

(** What a route does.  [SendFile directory path as_attachment]: the view
    reaches [send_from_directory(directory, path, ...)] and returns what it
    gives, the file or [NotFound] when the directory does not hold it; the
    content of the directories is not followed.  [Fails e]: the view raises
    [e] before that. *)
Inductive response : Type :=
| NotFound
| Json (entry : gmap string val)
| ToIndex (flash : string)
| ToStatusPage (flash : string)
| SendFile (directory : folder) (path : val) (as_attachment : bool)
| Fails (e : exn).

(** [entry['status'] != 'completed'], negated. *)
Definition completed (entry : gmap string val) : result bool :=
  match entry !! "status" with
  | None => Raise KeyError
  | Some (VStr s) => Ok (String.eqb s "completed")
  | Some _ => Ok false
  end.

(** What an f-string makes of a value. *)
Definition val_str (v : val) : string :=
  match v with
  | VStr s => s
  | VInt n => pretty n
  | VBool b => if b then "True" else "False"
  end.

(** [get_test_status] *)
Definition get_test_status (test_status : gmap string (gmap string val))
    (test_id : string) : response :=
  match test_status !! test_id with
  | None => NotFound
  | Some entry => Json entry
  end.

(** [download_report] *)
Definition download_report (test_status : gmap string (gmap string val))
    (test_id : string) : response :=
  match test_status !! test_id with
  | None => ToIndex "Report not available"
  | Some entry =>
      match completed entry with
      | Raise e => Fails e
      | Ok false => ToIndex "Report not available"
      | Ok true =>
          match entry !! "report_file" with
          | None => Fails KeyError
          | Some report_file => SendFile ReportsFolder report_file true
          end
      end
  end.

(** [view_report] *)
Definition view_report (test_status : gmap string (gmap string val))
    (test_id : string) : response :=
  match test_status !! test_id with
  | None => ToIndex "Report not available"
  | Some entry =>
      match completed entry with
      | Raise e => Fails e
      | Ok false => ToIndex "Report not available"
      | Ok true =>
          match entry !! "report_file" with
          | None => ToStatusPage "HTML report was not generated for this test"
          | Some report_file => SendFile ReportsFolder report_file false
          end
      end
  end.

(** [download_results] *)
Definition download_results (test_status : gmap string (gmap string val))
    (test_id file_type : string) : response :=
  match test_status !! test_id with
  | None => ToIndex "Results not available"
  | Some entry =>
      match completed entry with
      | Raise e => Fails e
      | Ok false => ToIndex "Results not available"
      | Ok true =>
          if String.eqb file_type "summary" then
            match entry !! "summary_file" with
            | None => Fails KeyError
            | Some f => SendFile ResultsFolder (VStr (test_id +:+ "_" +:+ val_str f)) true
            end
          else if String.eqb file_type "detailed" then
            match entry !! "detailed_file" with
            | None => Fails KeyError
            | Some f => SendFile ResultsFolder (VStr (test_id +:+ "_" +:+ val_str f)) true
            end
          else ToIndex "Invalid file type"
      end
  end.

(** *** The checks of an upload *)

(** [allowed_file]; behind the test ['.' in filename] the split has two
    parts. *)
Definition allowed_file (filename : string) : bool :=
  PyStr.contains "." filename
  && match PyStr.after_last "." filename with
     | Some extension => String.eqb (PyStr.lower extension) "json"
     | None => false
     end.

(** What [validate_endpoints_json] returns: [Valid] stands for
    [(True, "Valid endpoints JSON file")], every other verdict for [False]
    and the message of its line. *)
Inductive verdict : Type :=
| Valid
| MissingField (field : string)
| EndpointsNotArray
| NoEndpoint
| EndpointMissingField (i : nat) (field : string)
| InvalidJSON
| ErrorValidating (e : exn).

Definition is_valid (v : verdict) : bool :=
  match v with Valid => true | _ => false end.

(** The message; [str_e] is [str(e)] of the exception caught. *)
Definition message (str_e : string) (v : verdict) : string :=
  match v with
  | Valid => "Valid endpoints JSON file"
  | MissingField field => "Missing required field: " +:+ field
  | EndpointsNotArray => "endpoints must be an array"
  | NoEndpoint => "At least one endpoint is required"
  | EndpointMissingField i field =>
      "Endpoint " +:+ pretty i +:+ " missing required field: " +:+ field
  | InvalidJSON => "Invalid JSON format: " +:+ str_e
  | ErrorValidating _ => "Error validating file: " +:+ str_e
  end.

(** [for field in fields: if field not in v: return ...]: the first field
    that is not in [v]. *)
Fixpoint first_missing (fields : list string) (v : json) : result (option string) :=
  match fields with
  | [] => Ok None
  | field :: rest =>
      match Py.str_in field v with
      | Raise e => Raise e
      | Ok false => Ok (Some field)
      | Ok true => first_missing rest v
      end
  end.

(** [data[key]] for a string [key]: a list and a string take integers. *)
Definition subscript_str (data : json) (key : string) : result json :=
  match data with
  | JObj kv => Py.subscript kv key
  | _ => Raise TypeError
  end.

(** The loop over [enumerate(data['endpoints'])], from the endpoint of
    number [i] on. *)
Fixpoint check_endpoints (i : nat) (endpoints : list json) : result verdict :=
  match endpoints with
  | [] => Ok Valid
  | endpoint :: rest =>
      match first_missing ["name"; "method"; "url"] endpoint with
      | Raise e => Raise e
      | Ok (Some field) => Ok (EndpointMissingField i field)
      | Ok None => check_endpoints (S i) rest
      end
  end.

(** [validate_endpoints_json] on the content of the file: [None] when it is
    not JSON. *)
Definition validate_endpoints_json (file : option json) : verdict :=
  match file with
  | None => InvalidJSON
  | Some data =>
      match first_missing ["base_url"; "endpoints"] data with
      | Raise e => ErrorValidating e
      | Ok (Some field) => MissingField field
      | Ok None =>
          match subscript_str data "endpoints" with
          | Raise e => ErrorValidating e
          | Ok (JArr endpoints) =>
              match endpoints with
              | [] => NoEndpoint
              | _ :: _ =>
                  match check_endpoints 1 endpoints with
                  | Raise e => ErrorValidating e
                  | Ok v => v
                  end
              end
          | Ok _ => EndpointsNotArray
          end
      end
  end.

(** *** The stages of an upload *)



(** *** The names of the result files *)

(** [os.path.basename] *)
Definition basename (path : string) : string :=
  List.last (PyStr.split "/" path) "".

(** The names under which [run_k6_test] moves the result files of
    [test_name] to the results folder. *)
Definition moved_result_names (test_name : string) : list string :=
  map basename [test_name +:+ "_summary.json"; test_name +:+ "_detailed.json"].

End WebApp.

(** ** Specification vocabulary *)

Module Spec.

(** [m] is the largest element of [l]. *)
Definition is_max_of (m : Q) (l : list Q) : Prop :=
  In m l /\ Forall (fun x => (x <= m)%Q) l.

(** The examples of this development interpolate strings only, so they
    never consult the interpreter's [str]; this one fills its place. *)
Definition py_str_unused : json -> string := fun _ => "".

(** A duration record as k6 writes it, with a route tag. *)
Definition duration_line (value : Q) (status route : string) : option json :=
  Some (JObj [("type", JStr "Point"); ("metric", JStr "http_req_duration");
              ("data", JObj [("time", JStr "2024-05-01T10:00:00Z");
                             ("value", JNum value);
                             ("tags", JObj [("status", JStr status);
                                            ("route", JStr route)])])]).

(** Scenario A of the specification: five requests on endpoint X, the
    fourth with status 500. *)
Definition scenario_a : list (option json) :=
  [duration_line 100 "200" "X"; duration_line 120 "200" "X";
   duration_line 110 "200" "X"; duration_line 5000 "500" "X";
   duration_line 130 "200" "X"].

(** The entry of endpoint X at the end of scenario A. *)
Definition scenario_a_entry : Report.endpoint_final :=
  {| Report.ef_data :=
       {| Report.response_times := [100; 120; 110; 5000; 130]%Q;
          Report.timeline :=
            map (fun v => (JStr "2024-05-01T10:00:00Z", v)) [100; 120; 110; 5000; 130]%Q;
          Report.errors := 1;
          Report.count := 5 |};
     Report.ef_p95 := 5000%Q;
     Report.ef_threshold := None;
     Report.ef_threshold_passed := true |}.

(** Scenario B of the specification: an endpoint named "Student List API"
    without [threshold_ms], and one request that resolves to it. *)
Definition scenario_b_config : list Report.endpoint_cfg :=
  [{| Report.ec_name := "Student List API"; Report.ec_method := "GET";
      Report.ec_url := "/api/students"; Report.ec_threshold_ms := None |}].

Definition scenario_b_lines : list (option json) :=
  [Some (JObj [("type", JStr "Point"); ("metric", JStr "http_req_duration");
               ("data", JObj [("time", JStr "2024-05-01T10:00:00Z");
                              ("value", JNum 3000);
                              ("tags", JObj [("status", JStr "200");
                                             ("method", JStr "GET");
                                             ("url", JStr "https://host/api/students")])])])].

(** A configuration whose only endpoint gives zero as its threshold. *)
Definition zero_threshold_config : list Report.endpoint_cfg :=
  [{| Report.ec_name := "Orders"; Report.ec_method := "GET";
      Report.ec_url := "/api/students"; Report.ec_threshold_ms := Some 0%Q |}].

(** *** The resolution of the endpoint label, in the words of the
    specification *)

(** The string under a key of the tags, when there is one. *)
Definition tag (tags : list (string * json)) (key : string) : option string :=
  match Py.lookup_item key tags with
  | Some (JStr s) => Some s
  | _ => None
  end.

(** Every tag is a string, as k6 writes them. *)
Definition string_tags (tags : list (string * json)) : bool :=
  forallb (fun kx => match snd kx with JStr _ => true | _ => false end) tags.

(** A tag is present and not empty. *)
Definition present (t : option string) : bool :=
  match t with
  | Some s => negb (String.eqb s "")
  | None => false
  end.

(** The configured url, its leading slashes stripped, is a substring of the
    url tag, and the methods agree up to case.  An absent url tag counts as
    the empty string and an absent method as GET, the defaults under which
    the analyzer reads them. *)
Definition endpoint_matches (url method : option string) (endpoint : Report.endpoint_cfg) : bool :=
  PyStr.contains (PyStr.lstrip_char "/" (Report.ec_url endpoint)) (default "" url)
  && String.eqb (PyStr.upper (Report.ec_method endpoint))
                (PyStr.upper (default "GET" method)).

Definition fallback_label (url method : option string) : string :=
  default "GET" method +:+ " " +:+ List.last (PyStr.split "/" (default "" url)) "".

(** The five rules as the specification words them: rule 2 gives the name of
    the first matching endpoint, rule 4 applies when a url tag exists. *)
Definition label_as_stated (config : list Report.endpoint_cfg)
    (route url method name : option string) : string :=
  if present route then default "" route
  else
    match List.find (endpoint_matches url method) config with
    | Some endpoint => Report.ec_name endpoint
    | None =>
        if present name then default "" name
        else
          match url with
          | Some _ => fallback_label url method
          | None => "unknown"
          end
    end.

(** The five rules as the analyzer applies them: rule 2 needs the name of
    the first matching endpoint to be non-empty, and rule 4 needs a
    non-empty url tag. *)
Definition label (config : list Report.endpoint_cfg)
    (route url method name : option string) : string :=
  if present route then default "" route
  else if present (Report.ec_name <$> List.find (endpoint_matches url method) config)
  then default "" (Report.ec_name <$> List.find (endpoint_matches url method) config)
  else if present name then default "" name
  else if present url then fallback_label url method
  else "unknown".

(** A configuration whose endpoint has an empty name. *)
Definition unnamed_endpoint_config : list Report.endpoint_cfg :=
  [{| Report.ec_name := ""; Report.ec_method := "GET";
      Report.ec_url := "/api/students"; Report.ec_threshold_ms := None |}].

Definition students_tags : list (string * json) :=
  [("url", JStr "https://host/api/students"); ("method", JStr "GET");
   ("name", JStr "students"); ("status", JStr "200")].

Definition students_data : list (string * json) :=
  [("time", JStr "2024-05-01T10:00:00Z"); ("value", JNum 3000);
   ("tags", JObj students_tags)].

Definition students_record : list (string * json) :=
  [("type", JStr "Point"); ("metric", JStr "http_req_duration");
   ("data", JObj students_data)].

Definition empty_url_tags : list (string * json) :=
  [("url", JStr ""); ("method", JStr "GET"); ("status", JStr "200")].

(** *** Lines that the analyzer drops, and lines on which it stumbles *)

Definition is_point (d : list (string * json)) (metric : string) : bool :=
  Py.eq_str (Py.get d "type" JNull) "Point"
  && Py.eq_str (Py.get d "metric" JNull) metric.


(** A line whose tags, if it is a duration point, are a dict of strings. *)
Definition string_tagged (line : option json) : bool :=
  match line with
  | Some (JObj d) =>
      if is_point d "vus" then true
      else if is_point d "http_req_duration" then
        match Py.lookup_item "data" d with
        | Some (JObj pd) =>
            match Py.get pd "tags" (JObj []) with
            | JObj tags => string_tags tags
            | _ => false
            end
        | _ => true
        end
      else true
  | _ => true
  end.

(** A vus point without [data]. *)
Definition vus_without_data : option json :=
  Some (JObj [("type", JStr "Point"); ("metric", JStr "vus")]).

(** A duration point whose route tag is a list. *)
Definition list_route_line : option json :=
  Some (JObj [("type", JStr "Point"); ("metric", JStr "http_req_duration");
              ("data", JObj [("time", JStr "2024-05-01T10:00:00Z");
                             ("value", JNum 250);
                             ("tags", JObj [("status", JStr "200");
                                            ("route", JArr [JStr "a"])])])]).

(** *** The error rates of the timeline *)

(** A point of the timeline with a status tag. *)
Definition tpoint (timestamp status : string) : Report.timeline_point :=
  {| Report.tp_timestamp := JStr timestamp; Report.tp_response_time := 100%Q;
     Report.tp_tags := JObj [("status", JStr status)] |}.

(** The status tag, ['200'] when absent, begins with 4 or 5. *)
Definition starts_with_4_or_5 (p : Report.timeline_point) : bool :=
  match Report.is_error_point p with
  | Some b => b
  | None => false
  end.




(** The window of the analyzer around index [i]: the points at the indices
    from [i - 25], or 0, up to but without [i + 25], or the length. *)
Definition window (l : list Report.timeline_point) (i : nat) : list Report.timeline_point :=
  Report.slice (i - 25) (Nat.min (length l) (i + 25)) l.




(** Three points, one of them an error. *)
Definition one_in_three_timeline : list Report.timeline_point :=
  [tpoint "2024-05-01T10:00:00Z" "500"; tpoint "2024-05-01T10:00:01Z" "200";
   tpoint "2024-05-01T10:00:02Z" "200"].

(** *** The live status *)

(** The test of the output loop for a ramping-up line. *)
Definition ramping_up_line (line : string) : bool :=
  PyStr.contains "ramping up" (PyStr.lower (PyStr.strip line)).

(** The line holds "ramping up" in some mix of upper and lower case. *)
Definition holds_ramping_up (line : string) : bool :=
  PyStr.contains "ramping up" (PyStr.lower line).

Fixpoint all_space (s : string) : bool :=
  match s with
  | EmptyString => true
  | String a t => PyStr.is_space a && all_space t
  end.

(** The string is not empty and its last character is not whitespace. *)
Fixpoint ends_nonspace (s : string) : bool :=
  match s with
  | EmptyString => false
  | String a EmptyString => negb (PyStr.is_space a)
  | String _ t => ends_nonspace t
  end.

(** The string is not empty and its first character is not whitespace. *)
Definition starts_nonspace (s : string) : bool :=
  match s with
  | EmptyString => false
  | String a _ => negb (PyStr.is_space a)
  end.

(** The last value written under [key], if any. *)
Fixpoint last_write (key : string) (ws : list WebApp.write) : option WebApp.val :=
  match ws with
  | [] => None
  | w :: rest =>
      match last_write key rest with
      | Some v => Some v
      | None => if String.eqb (fst w) key then Some (snd w) else None
      end
  end.

(** The keys that the output loops write. *)
Definition loop_key (key : string) : bool :=
  existsb (String.eqb key)
    ["vus"; "target_vus"; "progress_percent"; "running_time"; "stage";
     "current_stage"; "total_stages"].

Definition loop_writes (ws : list WebApp.write) : Prop :=
  Forall (fun w => loop_key (fst w) = true) ws.

(** A run of [run_k6_test] in which everything succeeds. *)
Definition smooth_k6_env : WebApp.k6_env :=
  {| WebApp.k6_prepare := WebApp.Returns "load-20240501-100000";
     WebApp.k6_popen := WebApp.Returns tt;
     WebApp.k6_output := ["     running (0m10s), 05/10 VUs"; "ramping up"];
     WebApp.k6_wait := WebApp.Returns 0%Z;
     WebApp.k6_report := WebApp.Returns (0%Z, "", "");
     WebApp.k6_listing := WebApp.Returns (["load.html"], "[]", "[]");
     WebApp.k6_move := WebApp.Returns tt |}.

(** A rate-control run whose report generator fails. *)
Definition failed_report_env : WebApp.rate_env :=
  {| WebApp.rate_prepare := WebApp.Returns tt;
     WebApp.rate_popen := WebApp.Returns tt;
     WebApp.rate_output := ["running (0m10s), 05/10 VUs"];
     WebApp.rate_wait := WebApp.Returns 0%Z;
     WebApp.rate_report := WebApp.Returns (1%Z, "", "no data");
     WebApp.rate_listing := WebApp.Returns ([], "[]", "[]");
     WebApp.rate_move := WebApp.Returns tt |}.

(** The entry of a run when its thread starts. *)
Definition fresh_entry : gmap string WebApp.val :=
  WebApp.queued_entry "Initializing" "endpoints.json" "2024-05-01T10:00:00".

Definition constant_rate : WebApp.rate_config :=
  {| WebApp.rate_type := "constant"; WebApp.target_rate := 50 |}.

(** What one line can do to the local variables of the analyzer, besides
    counting it in [line_count]. *)
Inductive effect : Type :=
| Skipped
| VusAppended (timestamp vus : json)
| GlobalOnly (v : Q) (p : Report.timeline_point)
| Counted (v : Q) (p : Report.timeline_point) (k : json)
| CountedError (v : Q) (p : Report.timeline_point) (k : json).

(** The request is counted in the global variables. *)
Definition record_global (v : Q) (p : Report.timeline_point) (a : Report.acc) : Report.acc :=
  Report.append_timeline p (Report.incr_total_requests (Report.append_response_time v a)).

(** The request is counted in the entry of endpoint [k]. *)
Definition record_entry (v : Q) (p : Report.timeline_point) (k : json)
    (a : Report.acc) : Report.acc :=
  Report.set_endpoint_stats
    (Report.update_entry k Report.incr_count
       (Report.update_entry k (Report.add_timeline (Report.tp_timestamp p) v)
          (Report.update_entry k (Report.add_response_time v)
             (Report.endpoint_stats a)))) a.

Definition apply_effect (eff : effect) (a : Report.acc) : Report.acc :=
  match eff with
  | Skipped => a
  | VusAppended t v => Report.append_vus t v a
  | GlobalOnly v p => record_global v p a
  | Counted v p k => record_entry v p k (record_global v p a)
  | CountedError v p k =>
      let a1 := Report.incr_error_count (record_entry v p k (record_global v p a)) in
      Report.set_endpoint_stats
        (Report.update_entry k Report.incr_errors (Report.endpoint_stats a1)) a1
  end.

Definition effect_ok (eff : effect) : Prop :=
  match eff with
  | Counted v p k | CountedError v p k => Py.hashable k = true
  | _ => True
  end.

(** The request, if any, reached the entry of its endpoint. *)
Definition counted_effect (eff : effect) : Prop :=
  match eff with
  | GlobalOnly _ _ => False
  | _ => True
  end.

(** The sum over all endpoints of the per-endpoint count, and of the
    per-endpoint errors. *)
Definition sum_counts (es : list (json * Report.endpoint_data)) : nat :=
  list_sum (map (fun kd => Report.count (snd kd)) es).

Definition sum_errors (es : list (json * Report.endpoint_data)) : nat :=
  list_sum (map (fun kd => Report.errors (snd kd)) es).

(** An entry holds at least one response time, and counts them. *)
Definition entry_ok (d : Report.endpoint_data) : Prop :=
  Report.response_times d <> []
  /\ Report.count d = length (Report.response_times d).

(** The three updates of a counted request, as one. *)
Definition count_request (timestamp : json) (v : Q) (d : Report.endpoint_data)
    : Report.endpoint_data :=
  Report.incr_count (Report.add_timeline timestamp v (Report.add_response_time v d)).

(** The state properties that every line preserves. *)
Record acc_ok (a : Report.acc) : Prop := {
  ok_entries : Forall (fun kd => entry_ok (snd kd)) (Report.endpoint_stats a);
  ok_errors : Report.error_count a = sum_errors (Report.endpoint_stats a);
  ok_counts : sum_counts (Report.endpoint_stats a) <= Report.total_requests a;
  ok_total : Report.total_requests a = length (Report.all_response_times a)
}.

(** The configured endpoint that decides the threshold of [name]: the last
    one of that name. *)
Fixpoint last_named (name : string) (config : list Report.endpoint_cfg)
    : option Report.endpoint_cfg :=
  match config with
  | [] => None
  | endpoint :: rest =>
      match last_named name rest with
      | Some e => Some e
      | None =>
          if String.eqb (Report.ec_name endpoint) name then Some endpoint else None
      end
  end.

(** *** Vocabulary for the further properties *)

Definition is_dict (v : json) : bool :=
  match v with JObj _ => true | _ => false end.

(** What is known of the effect of a line after which the loop goes on. *)
Definition effect_sound (eff : effect) : Prop :=
  match eff with
  | Skipped | VusAppended _ _ => True
  | GlobalOnly v p =>
      (0 < v)%Q /\ Report.tp_response_time p = v /\ is_dict (Report.tp_tags p) = true
  | Counted v p k | CountedError v p k =>
      (0 < v)%Q /\ Report.tp_response_time p = v /\ is_dict (Report.tp_tags p) = true
      /\ Py.hashable k = true /\ Py.truthy k = true
  end.

(** The loop goes on after this outcome of a line. *)
Definition goes_on (r : result unit) : Prop :=
  match r with
  | Ok _ => True
  | Raise e => Report.caught e = true
  end.

(** The entries of the statistics, without what the finalization adds. *)
Definition stats_entries (s : Report.stats) : list (json * Report.endpoint_data) :=
  map (fun kd => (fst kd, Report.ef_data (snd kd))) (Report.st_endpoint_stats s).

(** No key of the list equals a later one. *)
Fixpoint distinct_keys (es : list (json * Report.endpoint_data)) : Prop :=
  match es with
  | [] => True
  | (k, _) :: rest =>
      Forall (fun kd => Py.key_eqb k (fst kd) = false) rest /\ distinct_keys rest
  end.

(** What holds of an entry of [endpoint_stats] and of its key. *)
Definition entry_sound (kd : json * Report.endpoint_data) : Prop :=
  Py.hashable (fst kd) = true
  /\ Py.truthy (fst kd) = true
  /\ Report.count (snd kd) = length (Report.response_times (snd kd))
  /\ Report.count (snd kd) = length (Report.timeline (snd kd))
  /\ 1 <= Report.count (snd kd)
  /\ Report.errors (snd kd) <= Report.count (snd kd)
  /\ Forall (fun v => (0 < v)%Q) (Report.response_times (snd kd)).

(** What holds of the local variables of the analyzer between two lines. *)
Record acc_sound (a : Report.acc) : Prop := {
  sound_entries : Forall entry_sound (Report.endpoint_stats a);
  sound_distinct : distinct_keys (Report.endpoint_stats a);
  sound_times : Forall (fun v => (0 < v)%Q) (Report.all_response_times a);
  sound_timeline : length (Report.timeline_data a) = Report.total_requests a;
  sound_points :
    Forall (fun p => is_dict (Report.tp_tags p) = true
                     /\ (0 < Report.tp_response_time p)%Q)
           (Report.timeline_data a)
}.

(** A vus point as k6 writes it. *)
Definition vus_line (vus : Q) : option json :=
  Some (JObj [("type", JStr "Point"); ("metric", JStr "vus");
              ("data", JObj [("time", JStr "2024-05-01T10:00:00Z");
                             ("value", JNum vus)])]).

(** A stream with a line that is not JSON, a vus point, a number, a point
    whose route tag is a list, and requests of two endpoints. *)
Definition mixed_stream : list (option json) :=
  [None; vus_line 5; duration_line 100 "200" "X"; list_route_line;
   duration_line 300 "500" "Y"; Some (JNum 3); duration_line 200 "404" "X";
   duration_line 150 "abc" "Y"].


(** A stream of k6 lines in which a line that is not JSON, a vus point and
    text stand between the requests. *)
Definition k6_stream : list (option json) :=
  [None; vus_line 5; duration_line 100 "200" "X"; Some (JStr "note");
   duration_line 300 "500" "Y"; duration_line 200 "404" "X";
   duration_line 150 "abc" "Y"].

(** *** Vocabulary for the runs and the routes *)

(** Everything around a run of [run_k6_test] succeeds: the preparation and
    the start of the process, an exit code 0 or 99, a report generator that
    returns 0, an HTML file in the listing, and the move of the results. *)
Definition k6_succeeds (env : WebApp.k6_env) : bool :=
  match WebApp.k6_prepare env, WebApp.k6_popen env, WebApp.k6_wait env,
        WebApp.k6_report env, WebApp.k6_listing env, WebApp.k6_move env with
  | WebApp.Returns _, WebApp.Returns _, WebApp.Returns code,
    WebApp.Returns (returncode, _, _), WebApp.Returns (_ :: _, _, _),
    WebApp.Returns _ =>
      ((code =? 0)%Z || (code =? 99)%Z) && (returncode =? 0)%Z
  | _, _, _, _, _, _ => false
  end.

(** The process of a rate-control run starts, exits with code 0 or 99, and
    the results are moved; the report does not count. *)
Definition rate_succeeds (env : WebApp.rate_env) : bool :=
  match WebApp.rate_prepare env, WebApp.rate_popen env, WebApp.rate_wait env,
        WebApp.rate_move env with
  | WebApp.Returns _, WebApp.Returns _, WebApp.Returns code, WebApp.Returns _ =>
      (code =? 0)%Z || (code =? 99)%Z
  | _, _, _, _ => false
  end.





(** The report that a rate-control run registers: the first HTML file of
    the listing, when the report generator returns 0. *)
Definition rate_reports (env : WebApp.rate_env) : option string :=
  match WebApp.rate_report env with
  | WebApp.Returns (returncode, _, _) =>
      if (returncode =? 0)%Z then
        match WebApp.rate_listing env with
        | WebApp.Returns (final_report_name :: _, _, _) => Some final_report_name
        | _ => None
        end
      else None
  | _ => None
  end.

(** The report and the name of the result files that a run of
    [run_k6_test] registers when everything succeeds. *)
Definition k6_reports (env : WebApp.k6_env) : option (string * string) :=
  match WebApp.k6_prepare env, WebApp.k6_listing env with
  | WebApp.Returns test_name, WebApp.Returns (final_report_name :: _, _, _) =>
      if k6_succeeds env then Some (final_report_name, test_name) else None
  | _, _ => None
  end.

(** *** Vocabulary for the checks of an upload and for the file names *)

(** An endpoint in which [validate_endpoints_json] finds the three fields. *)
Definition complete_endpoint (endpoint : json) : Prop :=
  Forall (fun field => Py.str_in field endpoint = Ok true) ["name"; "method"; "url"].

(** A file whose only endpoint is a string. *)
Definition string_endpoints : option json :=
  Some (JObj [("base_url", JStr "https://host");
              ("endpoints", JArr [JStr "name method url"])]).

(** A file whose second endpoint has no url. *)
Definition url_missing : option json :=
  Some (JObj [("base_url", JStr "https://host");
              ("endpoints",
               JArr [JObj [("name", JStr "a"); ("method", JStr "GET");
                           ("url", JStr "/a")];
                     JObj [("name", JStr "b"); ("method", JStr "GET")]])]).

Fixpoint all_chars (p : ascii -> bool) (s : string) : bool :=
  match s with
  | EmptyString => true
  | String a t => p a && all_chars p t
  end.

Fixpoint last_char (s : string) : option ascii :=
  match s with
  | EmptyString => None
  | String a t =>
      match last_char t with
      | Some c => Some c
      | None => Some a
      end
  end.

Definition ascii_only (s : string) : bool :=
  all_chars (fun c => (PyStr.code c <? 128)%N) s.

(** A lower-case letter, a digit, the underscore or the dash. *)
Definition name_char (c : ascii) : bool :=
  PyStr.is_digit c
  || ((97 <=? PyStr.code c)%N && (PyStr.code c <=? 122)%N)
  || Ascii.eqb c "_"%char
  || Ascii.eqb c "-"%char.

(** A name of such characters, without a dash at either end and without
    two dashes in a row. *)
Definition clean_name (s : string) : Prop :=
  all_chars name_char s = true
  /\ PyStr.startswith "-" s = false
  /\ last_char s <> Some "-"%char
  /\ PyStr.contains "--" s = false.


(** The last [n] elements of a list, as a [deque(maxlen=n)] keeps them. *)
Definition last_n {A : Type} (n : nat) (l : list A) : list A :=
  skipn (length l - n) l.

(** A run whose process prints twelve lines and exits with code 1. *)
Definition crashed_k6_env : WebApp.k6_env :=
  {| WebApp.k6_prepare := WebApp.Returns "load-20240501-100000";
     WebApp.k6_popen := WebApp.Returns tt;
     WebApp.k6_output := ["a"; "b"; "c"; "d"; "e"; "f"; "g"; "h"; "i"; "j"; "k"; "l"];
     WebApp.k6_wait := WebApp.Returns 1%Z;
     WebApp.k6_report := WebApp.Returns (0%Z, "", "");
     WebApp.k6_listing := WebApp.Returns ([], "[]", "[]");
     WebApp.k6_move := WebApp.Returns tt |}.

End Spec.

(** * Properties *)

Import Report.

(** ** Lists, maxima and quantiles *)

Section ListFacts.

Context {A : Type} (lt : A -> A -> bool).

Lemma insert_by_length (x : A) (l : list A) :
  length (Py.insert_by lt x l) = S (length l).
Proof.
  induction l as [|y t IH]; simpl; [reflexivity|].
  destruct (lt x y); simpl; [reflexivity|]. now rewrite IH.
Qed.

Lemma sorted_by_length_acc (l acc : list A) :
  length (fold_left (fun acc x => Py.insert_by lt x acc) l acc)
  = length l + length acc.
Proof.
  revert acc. induction l as [|x t IH]; intros acc; simpl; [reflexivity|].
  rewrite IH, insert_by_length. lia.
Qed.

Lemma sorted_by_length (l : list A) : length (Py.sorted_by lt l) = length l.
Proof. unfold Py.sorted_by. rewrite sorted_by_length_acc. simpl. lia. Qed.

End ListFacts.

Lemma Qltb_false_le (a b : Q) : Py.Qltb a b = false -> (b <= a)%Q.
Proof.
  unfold Py.Qltb. intros H. apply negb_false_iff in H. now apply Qle_bool_iff.
Qed.

Lemma Qltb_true_lt (a b : Q) : Py.Qltb a b = true -> (a < b)%Q.
Proof.
  unfold Py.Qltb. intros H. apply negb_true_iff in H.
  apply Qnot_le_lt. intros Hle. apply Qle_bool_iff in Hle. congruence.
Qed.

(** The running maximum of [Py.max]: it is the start value or an element, and
    it bounds both. *)
Lemma fold_max_spec (t : list Q) (x : Q) :
  let m := fold_left (fun m y => if Py.Qltb m y then y else m) t x in
  (m = x \/ In m t) /\ (x <= m)%Q /\ Forall (fun y => (y <= m)%Q) t.
Proof.
  revert x. induction t as [|y t IH]; intros x; simpl.
  - split; [now left|]. split; [apply Qle_refl|constructor].
  - destruct (IH (if Py.Qltb x y then y else x)) as (Hin & Hle & Hall).
    destruct (Py.Qltb x y) eqn:E.
    + apply Qltb_true_lt in E. split; [|split].
      * destruct Hin as [->|Hin]; [right; now left|right; now right].
      * eapply Qle_trans; [apply Qlt_le_weak, E|exact Hle].
      * constructor; assumption.
    + apply Qltb_false_le in E. split; [|split].
      * destruct Hin as [->|Hin]; [now left|right; now right].
      * exact Hle.
      * constructor; [eapply Qle_trans; eassumption|assumption].
Qed.

Lemma py_max_is_max (l : list Q) : l <> [] -> Spec.is_max_of (Py.max l) l.
Proof.
  destruct l as [|x t]; [congruence|]. intros _.
  destruct (fold_max_spec t x) as (Hin & Hle & Hall).
  unfold Spec.is_max_of, Py.max. split.
  - destruct Hin as [->|Hin]; [now left|now right].
  - constructor; assumption.
Qed.

Lemma quantiles_length (n : nat) (l : list Q) :
  2 <= length l -> length (Statistics.quantiles n l) = n - 1.
Proof.
  intros H. unfold Statistics.quantiles, Py.sorted.
  rewrite sorted_by_length.
  destruct (Nat.ltb_spec (length l) 2) as [Hlt|_]; [lia|].
  now rewrite length_map, length_seq.
Qed.

Lemma quantiles_nth (n i : nat) (l : list Q) :
  2 <= length l -> i < n - 1 ->
  nth_error (Statistics.quantiles n l) i = Some (nth i (Statistics.quantiles n l) 0%Q).
Proof.
  intros Hl Hi. apply nth_error_nth'. rewrite quantiles_length; assumption.
Qed.

Lemma p95_small (l : list Q) : length l < 20 -> p95_of l = Py.max l.
Proof.
  intros H. unfold p95_of.
  destruct (Nat.leb_spec 20 (length l)); [lia|reflexivity].
Qed.

Lemma p99_small (l : list Q) : length l < 100 -> p99_of l = Py.max l.
Proof.
  intros H. unfold p99_of.
  destruct (Nat.leb_spec 100 (length l)); [lia|reflexivity].
Qed.

Lemma p95_large (l : list Q) :
  20 <= length l -> nth_error (Statistics.quantiles 20 l) 18 = Some (p95_of l).
Proof.
  intros H. unfold p95_of.
  destruct (Nat.leb_spec 20 (length l)); [|lia].
  apply quantiles_nth; lia.
Qed.

Lemma p99_large (l : list Q) :
  100 <= length l -> nth_error (Statistics.quantiles 100 l) 98 = Some (p99_of l).
Proof.
  intros H. unfold p99_of.
  destruct (Nat.leb_spec 100 (length l)); [|lia].
  apply quantiles_nth; lia.
Qed.

(** ** The percentiles of the analyzer *)

Lemma finalize_entry_p95 (th : gmap string Q) (k : json) (d : endpoint_data) :
  response_times d <> [] ->
  ef_p95 (finalize_entry th k d) = p95_of (response_times d)
  /\ ef_data (finalize_entry th k d) = d.
Proof.
  intros Hne. unfold finalize_entry.
  destruct (response_times d) as [|x t] eqn:E; [congruence|].
  destruct (lookup_threshold k th); simpl; rewrite ?E; split; reflexivity.
Qed.

Lemma finalize_entry_data (th : gmap string Q) (k : json) (d : endpoint_data) :
  ef_data (finalize_entry th k d) = d.
Proof.
  unfold finalize_entry.
  destruct (response_times d); [reflexivity|].
  destruct (lookup_threshold k th); reflexivity.
Qed.

(** ** What one line does to the analyzer *)

Section LineEffects.

Variable py_str : json -> string.
Variable config : list endpoint_cfg.

Ltac effect_case e :=
  exists e; split; [first [exact I | eassumption]|reflexivity].

Lemma process_line_effect (line : option json) (a : acc) :
  exists eff, Spec.effect_ok eff
    /\ fst (process_line py_str config line a)
       = Spec.apply_effect eff (incr_line_count a).
Proof.
  unfold process_line, with_entry, mbind, M_bind, bind, lift, modify,
    mret, M_ret, ret, raise.
  destruct line as [data|]; [|effect_case Spec.Skipped].
  destruct data; try effect_case Spec.Skipped.
  cbn beta iota.
  repeat case_match; simplify_eq; cbn [fst];
    try match goal with
        | H : Py.attr_get ?x _ _ = Ok _, H' : Py.attr_get ?x _ _ = Raise _ |- _ =>
            destruct x; simpl in H, H'; congruence
        end;
    first [ effect_case Spec.Skipped
          | match goal with
            | |- context [append_vus ?t ?v _] => effect_case (Spec.VusAppended t v)
            end
          | match goal with
            | |- context [append_timeline ?p _] =>
                first [ effect_case (Spec.GlobalOnly (tp_response_time p) p)
                      | match goal with
                        | H : Py.hashable ?k = true |- _ =>
                            first [ effect_case (Spec.Counted (tp_response_time p) p k)
                                  | effect_case (Spec.CountedError (tp_response_time p) p k) ]
                        end ]
            end ].
Qed.

End LineEffects.

(** ** Entries of [endpoint_stats] *)

Lemma key_eqb_refl (k : json) : Py.hashable k = true -> Py.key_eqb k k = true.
Proof.
  destruct k as [| b | q | s | l | kv]; simpl; try discriminate; intros _.
  - reflexivity.
  - apply Qeq_bool_iff. reflexivity.
  - apply Qeq_bool_iff. reflexivity.
  - apply String.eqb_refl.
Qed.

Lemma update_entry_twice (k : json) (f g : endpoint_data -> endpoint_data)
    (es : list (json * endpoint_data)) :
  Py.hashable k = true ->
  update_entry k g (update_entry k f es) = update_entry k (fun d => g (f d)) es.
Proof.
  intros Hk. induction es as [|[k' d] r IH]; simpl.
  - now rewrite key_eqb_refl.
  - destruct (Py.key_eqb k' k) eqn:E; simpl; rewrite E; [reflexivity|].
    now rewrite IH.
Qed.

Lemma update_entry_Forall (Q : endpoint_data -> Prop) (k : json)
    (f : endpoint_data -> endpoint_data) (es : list (json * endpoint_data)) :
  (forall d, Q d -> Q (f d)) -> Q (f default_entry) ->
  Forall (fun kd => Q (snd kd)) es ->
  Forall (fun kd => Q (snd kd)) (update_entry k f es).
Proof.
  intros Hf Hd. induction 1 as [|[k' d] r Hx Hr IH]; simpl.
  - constructor; [exact Hd|constructor].
  - destruct (Py.key_eqb k' k); constructor; simpl in *; auto.
Qed.

Lemma update_entry_sum (g : endpoint_data -> nat) (c : nat) (k : json)
    (f : endpoint_data -> endpoint_data) (es : list (json * endpoint_data)) :
  (forall d, g (f d) = g d + c) -> g default_entry = 0 ->
  list_sum (map (fun kd => g (snd kd)) (update_entry k f es))
  = list_sum (map (fun kd => g (snd kd)) es) + c.
Proof.
  intros Hf Hd. induction es as [|[k' d] r IH]; simpl.
  - rewrite Hf, Hd. lia.
  - destruct (Py.key_eqb k' k); simpl; [rewrite Hf|rewrite IH]; lia.
Qed.

Lemma record_entry_stats (v : Q) (p : timeline_point) (k : json) (a : acc) :
  Py.hashable k = true ->
  endpoint_stats (Spec.record_entry v p k a)
  = update_entry k (Spec.count_request (tp_timestamp p) v) (endpoint_stats a).
Proof.
  intros Hk. unfold Spec.record_entry. simpl.
  now rewrite !update_entry_twice by assumption.
Qed.

Lemma count_request_ok (timestamp : json) (v : Q) (d : endpoint_data) :
  Spec.entry_ok d \/ d = default_entry -> Spec.entry_ok (Spec.count_request timestamp v d).
Proof.
  unfold Spec.entry_ok, Spec.count_request. simpl. intros [[Hne Hc]| ->]; simpl.
  - split; [now destruct (response_times d)|]. rewrite length_app. simpl. lia.
  - split; [discriminate|reflexivity].
Qed.

Lemma incr_errors_ok (d : endpoint_data) :
  Spec.entry_ok d -> Spec.entry_ok (incr_errors d).
Proof. unfold Spec.entry_ok. simpl. tauto. Qed.

Lemma init_ok : Spec.acc_ok init.
Proof. split; simpl; auto. Qed.

Lemma apply_effect_ok (eff : Spec.effect) (a : acc) :
  Spec.effect_ok eff -> Spec.acc_ok a -> Spec.acc_ok (Spec.apply_effect eff (incr_line_count a)).
Proof.
  intros Heff [He Hs Hc Ht].
  destruct eff as [| t v | v p | v p k | v p k]; simpl in Heff.
  - split; assumption.
  - split; assumption.
  - split; simpl; try assumption; [lia|].
    rewrite length_app. simpl. lia.
  - cbn [Spec.apply_effect]. split.
    + rewrite record_entry_stats by assumption. simpl.
      apply update_entry_Forall; [| |assumption].
      * intros d Hd. apply count_request_ok. now left.
      * apply count_request_ok. now right.
    + rewrite record_entry_stats by assumption. simpl.
      unfold Spec.sum_errors in *.
      rewrite (update_entry_sum errors 0) by (intros; simpl; lia). lia.
    + rewrite record_entry_stats by assumption. simpl.
      unfold Spec.sum_counts in *.
      rewrite (update_entry_sum count 1) by (intros; simpl; lia). lia.
    + simpl. rewrite length_app. simpl. lia.
  - cbn [Spec.apply_effect]. split; cbn [endpoint_stats set_endpoint_stats
      incr_error_count error_count total_requests all_response_times].
    + rewrite record_entry_stats by assumption. simpl.
      rewrite update_entry_twice by assumption.
      apply update_entry_Forall; [| |assumption].
      * intros d Hd. apply incr_errors_ok, count_request_ok. now left.
      * apply incr_errors_ok, count_request_ok. now right.
    + rewrite record_entry_stats by assumption. simpl.
      rewrite update_entry_twice by assumption.
      unfold Spec.sum_errors in *.
      rewrite (update_entry_sum errors 1) by (intros; simpl; lia). lia.
    + rewrite record_entry_stats by assumption. simpl.
      rewrite update_entry_twice by assumption.
      unfold Spec.sum_counts in *.
      rewrite (update_entry_sum count 1) by (intros; simpl; lia). lia.
    + simpl. rewrite length_app. simpl. lia.
Qed.

Lemma collect_ok (py_str : json -> string) (config : list endpoint_cfg)
    (lines : list (option json)) (a0 a : acc) :
  Spec.acc_ok a0 -> collect py_str config lines a0 = Ok a -> Spec.acc_ok a.
Proof.
  revert a0. induction lines as [|line rest IH]; intros a0 H0 Hc; simpl in Hc.
  - now injection Hc as <-.
  - destruct (process_line_effect py_str config line a0) as (eff & Heff & Hfst).
    destruct (process_line py_str config line a0) as [a' r] eqn:Hp.
    simpl in Hfst. subst a'.
    assert (Hok := apply_effect_ok eff a0 Heff H0).
    destruct r as [[]|e]; [now apply IH in Hc|].
    destruct (caught e); [now apply IH in Hc|discriminate].
Qed.

Lemma analyze_stats_inv (py_str : json -> string) (config : list endpoint_cfg)
    (lines : list (option json)) (s : stats) :
  analyze_k6_json_with_timeline py_str config (Some lines) = Stats s ->
  exists a, collect py_str config lines init = Ok a
            /\ Spec.acc_ok a /\ s = finalize config a.
Proof.
  unfold analyze_k6_json_with_timeline. intros H.
  destruct (collect py_str config lines init) as [a|e] eqn:Hc; [|discriminate].
  destruct (all_response_times a); [discriminate|].
  injection H as <-. exists a. split; [reflexivity|]. split; [|reflexivity].
  eapply collect_ok; [apply init_ok|exact Hc].
Qed.

(** Every entry of the statistics the analyzer returns is a finalized entry
    that holds at least one request. *)
Lemma stats_entry_inv (py_str : json -> string) (config : list endpoint_cfg)
    (lines : list (option json)) (s : stats) (k : json) (e : endpoint_final) :
  analyze_k6_json_with_timeline py_str config (Some lines) = Stats s ->
  In (k, e) (st_endpoint_stats s) ->
  Spec.entry_ok (ef_data e)
  /\ e = finalize_entry (thresholds_of config) k (ef_data e).
Proof.
  intros Ha Hin.
  destruct (analyze_stats_inv _ _ _ _ Ha) as (a & _ & [Hok _ _ _] & ->).
  simpl in Hin. apply in_map_iff in Hin as ([k' d] & Heq & Hin).
  simpl in Heq. injection Heq as -> <-.
  rewrite finalize_entry_data. split; [|reflexivity].
  rewrite List.Forall_forall in Hok. exact (Hok _ Hin).
Qed.

Lemma entry_ok_count (d : endpoint_data) : Spec.entry_ok d -> 0 < count d.
Proof.
  intros [Hne Hc]. rewrite Hc. destruct (response_times d); [congruence|simpl; lia].
Qed.

(** ** Thresholds *)

Lemma thresholds_fold_lookup (config : list endpoint_cfg) (th : gmap string Q)
    (name : string) :
  fold_left (fun th endpoint => <[ec_name endpoint := threshold_for endpoint]> th)
            config th !! name
  = match Spec.last_named name config with
    | Some ep => Some (threshold_for ep)
    | None => th !! name
    end.
Proof.
  revert th. induction config as [|ep rest IH]; intros th; simpl; [reflexivity|].
  rewrite IH. destruct (Spec.last_named name rest); [reflexivity|].
  destruct (String.eqb_spec (ec_name ep) name) as [->|Hne].
  - apply lookup_insert_eq.
  - now apply lookup_insert_ne.
Qed.

Lemma thresholds_of_lookup (config : list endpoint_cfg) (name : string) :
  thresholds_of config !! name = threshold_for <$> Spec.last_named name config.
Proof.
  unfold thresholds_of. rewrite thresholds_fold_lookup.
  destruct (Spec.last_named name config); reflexivity.
Qed.

Lemma last_named_none (name : string) (config : list endpoint_cfg) :
  (forall ep, In ep config -> ec_name ep <> name) ->
  Spec.last_named name config = None.
Proof.
  induction config as [|ep rest IH]; intros H; simpl; [reflexivity|].
  rewrite IH by (intros; apply H; now right).
  destruct (String.eqb_spec (ec_name ep) name) as [Heq|_]; [|reflexivity].
  exfalso. apply (H ep); [now left|exact Heq].
Qed.

Lemma last_named_some (name : string) (config : list endpoint_cfg) (ep : endpoint_cfg) :
  Spec.last_named name config = Some ep -> In ep config /\ ec_name ep = name.
Proof.
  induction config as [|x rest IH]; simpl; [discriminate|].
  destruct (Spec.last_named name rest) as [e|].
  - intros H. injection H as ->. destruct IH as [Hin Hn]; [reflexivity|].
    split; [now right|exact Hn].
  - destruct (String.eqb_spec (ec_name x) name) as [Heq|_]; [|discriminate].
    intros H. injection H as <-. split; [now left|exact Heq].
Qed.

Lemma lookup_threshold_unconfigured (config : list endpoint_cfg) (k : json) :
  (forall ep, In ep config -> k <> JStr (ec_name ep)) ->
  lookup_threshold k (thresholds_of config) = None.
Proof.
  intros H. destruct k as [| | |name| |]; try reflexivity. simpl.
  rewrite thresholds_of_lookup, last_named_none; [reflexivity|].
  intros ep Hin Heq. apply (H ep Hin). now rewrite Heq.
Qed.

Lemma classify_excellent (rate : Q) (passed : bool) :
  (95 <= rate)%Q -> passed = true -> classify rate passed = Excellent.
Proof.
  intros Hr ->. unfold classify.
  apply Qle_bool_iff in Hr. now rewrite Hr.
Qed.



Lemma endpoint_row_in (py_str : json -> string) (s : stats) (k : json)
    (e : endpoint_final) :
  In (k, e) (st_endpoint_stats s) -> 0 < count (ef_data e) ->
  In (endpoint_row py_str (k, e)) (endpoint_rows py_str s).
Proof.
  intros Hin Hc. unfold endpoint_rows. apply in_map, filter_In.
  split; [exact Hin|]. simpl. now apply Nat.ltb_lt.
Qed.

(** ** The status of an endpoint row *)



(** C10.  When the label of an endpoint is not the name of a configured
    endpoint, its entry has no threshold, its threshold-passed flag is
    [True] whatever its p95, the threshold column shows N/A, and its row is
    Excellent as soon as its success rate is at least 95. *)
Theorem unconfigured_label_has_no_threshold
    (py_str : json -> string) (config : list endpoint_cfg)
    (lines : list (option json)) (s : stats) (k : json) (e : endpoint_final) :
  analyze_k6_json_with_timeline py_str config (Some lines) = Stats s ->
  In (k, e) (st_endpoint_stats s) ->
  (forall ep, In ep config -> k <> JStr (ec_name ep)) ->
  ef_threshold e = None
  /\ ef_threshold_passed e = true
  /\ threshold_display py_str (ef_threshold e) = "N/A"
  /\ In (endpoint_row py_str (k, e)) (endpoint_rows py_str s)
  /\ ((95 <= success_rate (ef_data e))%Q ->
      row_status (endpoint_row py_str (k, e)) = Excellent).
Proof.
  intros Ha Hin Hun.
  destruct (stats_entry_inv _ _ _ _ _ _ Ha Hin) as [Hok He].
  assert (Hth : ef_threshold e = None /\ ef_threshold_passed e = true).
  { rewrite He. unfold finalize_entry.
    rewrite (lookup_threshold_unconfigured _ _ Hun).
    destruct (response_times (ef_data e)); split; reflexivity. }
  destruct Hth as [Ht Hp]. rewrite Ht.
  split; [reflexivity|]. split; [exact Hp|]. split; [reflexivity|].
  split; [apply endpoint_row_in; [exact Hin|now apply entry_ok_count]|].
  intros Hr. cbn [endpoint_row row_status snd]. now apply classify_excellent.
Qed.

Lemma unconfigured_label_has_no_threshold_witness :
  exists s,
    analyze_k6_json_with_timeline Spec.py_str_unused [] (Some Spec.scenario_a) = Stats s
    /\ In (JStr "X", Spec.scenario_a_entry) (st_endpoint_stats s)
    /\ ef_threshold Spec.scenario_a_entry = None
    /\ ef_threshold_passed Spec.scenario_a_entry = true.
Proof.
  assert (H : exists s,
             analyze_k6_json_with_timeline Spec.py_str_unused []
               (Some Spec.scenario_a) = Stats s
             /\ In (JStr "X", Spec.scenario_a_entry) (st_endpoint_stats s)).
  { eexists. split; [vm_compute; reflexivity|]. left. reflexivity. }
  destruct H as (s & Ha & Hin). exists s.
  split; [exact Ha|]. split; [exact Hin|].
  destruct (unconfigured_label_has_no_threshold _ _ _ _ _ _ Ha Hin) as (Ht & Hp & _).
  - intros ep [].
  - split; assumption.
Defined.

(** ** The threshold of a configured endpoint *)

Lemma threshold_for_explicit (ep : endpoint_cfg) (t : Q) :
  ec_threshold_ms ep = Some t -> ~ (t == 0)%Q -> threshold_for ep = t.
Proof.
  intros Ht Hnz. unfold threshold_for. rewrite Ht.
  destruct (Qeq_bool t 0) eqn:E; [|reflexivity].
  apply Qeq_bool_iff in E. contradiction.
Qed.

Lemma threshold_for_default (ep : endpoint_cfg) :
  ec_threshold_ms ep = None
  \/ (exists t, ec_threshold_ms ep = Some t /\ (t == 0)%Q) ->
  threshold_for ep = default_threshold (ec_name ep).
Proof.
  unfold threshold_for. intros [->|(t & -> & Hz)]; [reflexivity|].
  apply Qeq_bool_iff in Hz. now rewrite Hz.
Qed.

(** C5, as the code has it.  For every endpoint whose label is the name of
    a configured endpoint, the threshold compared against p95 is the
    [threshold_ms] of the last configured endpoint of that name when it is
    given and not zero, and otherwise the default derived from the name, by
    case-insensitive substring tests in this priority: "dashboard" gives
    1500; "student" and "list" give 2500; "student" and "details" give 1500;
    "course" gives 5000; anything else 2000.  The threshold-passed flag
    holds exactly when p95 <= threshold.  "Student List API" without an
    explicit threshold gets 2500. *)
Theorem threshold_of_configured_endpoint :
  (forall (py_str : json -> string) (config : list endpoint_cfg)
          (lines : list (option json)) (s : stats) (name : string)
          (e : endpoint_final) (ep : endpoint_cfg),
      analyze_k6_json_with_timeline py_str config (Some lines) = Stats s ->
      In (JStr name, e) (st_endpoint_stats s) ->
      Spec.last_named name config = Some ep ->
      let has := fun word => PyStr.contains word (PyStr.lower name) in
      ef_threshold e = Some (threshold_for ep)
      /\ (ef_threshold_passed e = true <-> (ef_p95 e <= threshold_for ep)%Q)
      /\ (forall t, ec_threshold_ms ep = Some t -> ~ (t == 0)%Q ->
          threshold_for ep = t)
      /\ (ec_threshold_ms ep = None
          \/ (exists t, ec_threshold_ms ep = Some t /\ (t == 0)%Q) ->
          threshold_for ep =
            if has "dashboard" then 1500%Q
            else if has "student" && has "list" then 2500%Q
            else if has "student" && has "details" then 1500%Q
            else if has "course" then 5000%Q
            else 2000%Q))
  /\ default_threshold "Student List API" = 2500%Q
  /\ (exists s e,
         analyze_k6_json_with_timeline Spec.py_str_unused Spec.scenario_b_config
           (Some Spec.scenario_b_lines) = Stats s
         /\ st_endpoint_stats s = [(JStr "Student List API", e)]
         /\ ef_threshold e = Some 2500%Q).
Proof.
  split; [|split].
  - intros py_str config lines s name e ep Ha Hin Hlast has.
    destruct (stats_entry_inv _ _ _ _ _ _ Ha Hin) as [[Hne _] He].
    destruct (last_named_some _ _ _ Hlast) as [_ Hname].
    assert (Hth : ef_threshold e = Some (threshold_for ep)
                  /\ ef_threshold_passed e = Qle_bool (ef_p95 e) (threshold_for ep)).
    { rewrite He. unfold finalize_entry. simpl lookup_threshold.
      rewrite thresholds_of_lookup, Hlast.
      destruct (response_times (ef_data e)); [congruence|].
      split; reflexivity. }
    destruct Hth as [Ht Hp]. split; [exact Ht|]. split; [|split].
    + rewrite Hp. apply Qle_bool_iff.
    + apply threshold_for_explicit.
    + intros Hd. rewrite (threshold_for_default _ Hd), Hname. reflexivity.
  - vm_compute. reflexivity.
  - do 2 eexists. split; [vm_compute; reflexivity|].
    split; reflexivity.
Qed.

Lemma threshold_of_configured_endpoint_witness :
  exists s e,
    analyze_k6_json_with_timeline Spec.py_str_unused Spec.scenario_b_config
      (Some Spec.scenario_b_lines) = Stats s
    /\ In (JStr "Student List API", e) (st_endpoint_stats s)
    /\ ef_threshold e = Some 2500%Q
    /\ ef_threshold_passed e = false.
Proof.
  assert (H : exists s e,
             analyze_k6_json_with_timeline Spec.py_str_unused Spec.scenario_b_config
               (Some Spec.scenario_b_lines) = Stats s
             /\ In (JStr "Student List API", e) (st_endpoint_stats s)
             /\ ef_threshold_passed e = false).
  { do 2 eexists. split; [vm_compute; reflexivity|].
    split; [left; reflexivity|reflexivity]. }
  destruct H as (s & e & Ha & Hin & Hp). exists s, e.
  split; [exact Ha|]. split; [exact Hin|].
  destruct threshold_of_configured_endpoint as [Hall _].
  destruct (Hall _ _ _ _ _ _ (hd {| ec_name := ""; ec_method := ""; ec_url := "";
                                     ec_threshold_ms := None |} Spec.scenario_b_config)
              Ha Hin eq_refl) as (Ht & _).
  split; [exact Ht|exact Hp].
Defined.

(** C5 as stated fails in two places.  In scenario A the endpoint X is not
    configured: the rule as stated gives it the default 2000 ms, which its
    p95 of 5000 exceeds, yet its entry has no threshold and its
    threshold-passed flag is set.  And an endpoint configured with the
    explicit threshold 0 is compared against the default 2000. *)
Lemma threshold_rule_counterexample :
  (exists s,
      analyze_k6_json_with_timeline Spec.py_str_unused [] (Some Spec.scenario_a)
      = Stats s
      /\ In (JStr "X", Spec.scenario_a_entry) (st_endpoint_stats s)
      /\ default_threshold "X" = 2000%Q
      /\ ~ (ef_p95 Spec.scenario_a_entry <= default_threshold "X")%Q
      /\ ef_threshold Spec.scenario_a_entry = None
      /\ ef_threshold_passed Spec.scenario_a_entry = true)
  /\ (exists s e,
         analyze_k6_json_with_timeline Spec.py_str_unused Spec.zero_threshold_config
           (Some Spec.scenario_b_lines) = Stats s
         /\ st_endpoint_stats s = [(JStr "Orders", e)]
         /\ map ec_threshold_ms Spec.zero_threshold_config = [Some 0%Q]
         /\ ef_threshold e = Some 2000%Q).
Proof.
  split.
  - eexists. split; [vm_compute; reflexivity|].
    split; [left; reflexivity|]. split; [vm_compute; reflexivity|].
    split; [apply Qlt_not_le; reflexivity|]. split; reflexivity.
  - do 2 eexists. split; [vm_compute; reflexivity|].
    split; [reflexivity|]. split; reflexivity.
Qed.

(** C1.  Whenever the analyzer returns statistics, the global sample is not
    empty and: with fewer than 20 observations the reported p95 is
    [max(sample)], with fewer than 100 the reported p99 is [max(sample)];
    with at least 20 (resp. 100) the p95 (resp. p99) is the value at index
    18 of [quantiles(sample, n=20)] (resp. index 98 of
    [quantiles(sample, n=100)]).  The same holds for the p95 of every
    endpoint, on the sample that the loop has collected for it: every entry
    of [endpoint_stats] at the end of the loop has a sample that is not
    empty and is returned with that sample and its p95, and the statistics
    hold no other entry. *)
Theorem percentile_small_sample_fallback
    (py_str : json -> string) (config : list endpoint_cfg)
    (lines : list (option json)) (s : stats) :
  analyze_k6_json_with_timeline py_str config (Some lines) = Stats s ->
  exists a,
    collect py_str config lines init = Ok a
    /\ all_response_times a <> []
    /\ (length (all_response_times a) < 20 ->
        st_p95_response_time s = Py.max (all_response_times a)
        /\ Spec.is_max_of (st_p95_response_time s) (all_response_times a))
    /\ (length (all_response_times a) < 100 ->
        st_p99_response_time s = Py.max (all_response_times a)
        /\ Spec.is_max_of (st_p99_response_time s) (all_response_times a))
    /\ (20 <= length (all_response_times a) ->
        nth_error (Statistics.quantiles 20 (all_response_times a)) 18
        = Some (st_p95_response_time s))
    /\ (100 <= length (all_response_times a) ->
        nth_error (Statistics.quantiles 100 (all_response_times a)) 98
        = Some (st_p99_response_time s))
    /\ map fst (st_endpoint_stats s) = map fst (endpoint_stats a)
    /\ map (fun ke => ef_data (snd ke)) (st_endpoint_stats s)
       = map snd (endpoint_stats a)
    /\ (forall k d, In (k, d) (endpoint_stats a) ->
        response_times d <> []
        /\ exists e,
             In (k, e) (st_endpoint_stats s)
             /\ ef_data e = d
             /\ (length (response_times d) < 20 ->
                 ef_p95 e = Py.max (response_times d)
                 /\ Spec.is_max_of (ef_p95 e) (response_times d))
             /\ (20 <= length (response_times d) ->
                 nth_error (Statistics.quantiles 20 (response_times d)) 18
                 = Some (ef_p95 e)))
    /\ (forall k e, In (k, e) (st_endpoint_stats s) ->
        In (k, ef_data e) (endpoint_stats a)
        /\ response_times (ef_data e) <> []
        /\ (length (response_times (ef_data e)) < 20 ->
            ef_p95 e = Py.max (response_times (ef_data e))
            /\ Spec.is_max_of (ef_p95 e) (response_times (ef_data e)))
        /\ (20 <= length (response_times (ef_data e)) ->
            nth_error (Statistics.quantiles 20 (response_times (ef_data e))) 18
            = Some (ef_p95 e))).
Proof.
  intros H.
  destruct (analyze_stats_inv _ _ _ _ H) as (a & Hc & [Hok _ _ _] & ->).
  unfold analyze_k6_json_with_timeline in H. rewrite Hc in H.
  destruct (all_response_times a) as [|x t] eqn:Hrt; [discriminate|]. clear H.
  exists a.
  assert (Hne : all_response_times a <> []) by (rewrite Hrt; discriminate).
  clear Hrt x t.
  assert (Hentry : forall k d, In (k, d) (endpoint_stats a) ->
            response_times d <> []
            /\ ef_data (finalize_entry (thresholds_of config) k d) = d
            /\ (length (response_times d) < 20 ->
                ef_p95 (finalize_entry (thresholds_of config) k d)
                = Py.max (response_times d)
                /\ Spec.is_max_of (ef_p95 (finalize_entry (thresholds_of config) k d))
                                  (response_times d))
            /\ (20 <= length (response_times d) ->
                nth_error (Statistics.quantiles 20 (response_times d)) 18
                = Some (ef_p95 (finalize_entry (thresholds_of config) k d)))).
  { intros k d Hin. rewrite List.Forall_forall in Hok.
    destruct (Hok _ Hin) as [Hd _]. cbn [snd] in Hd.
    destruct (finalize_entry_p95 (thresholds_of config) k d Hd) as [-> ->].
    split; [exact Hd|]. split; [reflexivity|]. split.
    - intros Hlen. rewrite (p95_small _ Hlen). split; [reflexivity|].
      now apply py_max_is_max.
    - apply p95_large. }
  split; [exact Hc|]. split; [exact Hne|].
  cbn [finalize st_p95_response_time st_p99_response_time st_endpoint_stats].
  split; [|split; [|split; [|split; [|split; [|split; [|split]]]]]].
  - intros Hlen. rewrite (p95_small _ Hlen). split; [reflexivity|].
    now apply py_max_is_max.
  - intros Hlen. rewrite (p99_small _ Hlen). split; [reflexivity|].
    now apply py_max_is_max.
  - apply p95_large.
  - apply p99_large.
  - rewrite map_map. apply map_ext. now intros [k d].
  - rewrite map_map. apply map_ext. intros [k d]. cbn [fst snd].
    apply finalize_entry_data.
  - intros k d Hin. destruct (Hentry k d Hin) as (Hd & He & Hs & Hl).
    split; [exact Hd|].
    exists (finalize_entry (thresholds_of config) k d).
    split; [|split; [exact He|split; assumption]].
    apply in_map_iff. exists (k, d). split; [reflexivity|exact Hin].
  - intros k e Hin. apply in_map_iff in Hin as ([k' d] & Heq & Hin).
    cbn [fst snd] in Heq. injection Heq as -> <-.
    destruct (Hentry k d Hin) as (Hd & He & Hs & Hl). rewrite He.
    split; [exact Hin|]. split; [exact Hd|]. split; assumption.
Qed.

Lemma percentile_small_sample_fallback_witness :
  exists s e,
    analyze_k6_json_with_timeline Spec.py_str_unused [] (Some Spec.scenario_a) = Stats s
    /\ st_p95_response_time s = 5000%Q
    /\ st_p99_response_time s = 5000%Q
    /\ Spec.is_max_of (st_p95_response_time s) [100; 120; 110; 5000; 130]%Q
    /\ In (JStr "X", e) (st_endpoint_stats s)
    /\ response_times (ef_data e) = [100; 120; 110; 5000; 130]%Q
    /\ Spec.is_max_of (ef_p95 e) [100; 120; 110; 5000; 130]%Q.
Proof.
  assert (H : exists s,
             analyze_k6_json_with_timeline Spec.py_str_unused []
               (Some Spec.scenario_a) = Stats s
             /\ st_p95_response_time s = 5000%Q
             /\ st_p99_response_time s = 5000%Q).
  { eexists. split; [vm_compute; reflexivity|]. split; reflexivity. }
  destruct H as (s & Ha & H95 & H99).
  destruct (percentile_small_sample_fallback _ _ _ _ Ha)
    as (a & Hc & _ & Hsmall & _ & _ & _ & _ & _ & Hentry & _).
  assert (Hst : all_response_times a = [100; 120; 110; 5000; 130]%Q
                /\ exists d, In (JStr "X", d) (endpoint_stats a)
                             /\ response_times d = [100; 120; 110; 5000; 130]%Q).
  { assert (Hc' : collect Spec.py_str_unused [] Spec.scenario_a init
                  = Ok a) by exact Hc.
    vm_compute in Hc'. injection Hc' as <-.
    split; [reflexivity|]. eexists. split; [left; reflexivity|reflexivity]. }
  destruct Hst as (Hrt & d & Hin & Hd).
  destruct (Hentry _ _ Hin) as (_ & e & Hine & Hed & Hp & _).
  exists s, e.
  split; [exact Ha|]. split; [exact H95|]. split; [exact H99|].
  split; [rewrite Hrt in Hsmall; apply Hsmall; simpl; lia|].
  split; [exact Hine|]. split; [now rewrite Hed|].
  rewrite Hd in Hp. apply Hp. simpl. lia.
Defined.

(** ** The resolution of the endpoint label *)

Lemma lookup_item_string (tags : list (string * json)) (key : string) (v : json) :
  Spec.string_tags tags = true -> Py.lookup_item key tags = Some v ->
  exists s, v = JStr s.
Proof.
  induction tags as [|[k x] r IH]; simpl; [discriminate|].
  intros Hs. apply andb_true_iff in Hs as [Hx Hr]. simpl in Hx.
  destruct (Py.lookup_item key r) as [y|] eqn:E.
  - intros H. injection H as ->. now apply IH.
  - destruct (String.eqb key k); [|discriminate].
    intros H. injection H as ->. destruct v; try discriminate. now eexists.
Qed.

Lemma get_string (tags : list (string * json)) (key dflt : string) :
  Spec.string_tags tags = true ->
  Py.get tags key (JStr dflt) = JStr (default dflt (Spec.tag tags key)).
Proof.
  intros Hs. unfold Py.get, Spec.tag.
  destruct (Py.lookup_item key tags) as [v|] eqn:E; [|reflexivity].
  destruct (lookup_item_string _ _ _ Hs E) as [s ->]. reflexivity.
Qed.

Lemma truthy_string (tags : list (string * json)) (key : string) :
  Spec.string_tags tags = true ->
  Py.truthy (Py.get tags key (JStr "")) = Spec.present (Spec.tag tags key).
Proof.
  intros Hs. rewrite (get_string _ _ _ Hs).
  destruct (Spec.tag tags key); reflexivity.
Qed.

Lemma get_endpoint_info_strings (config : list endpoint_cfg) (url method : option string) :
  get_endpoint_info_from_config (JStr (default "" url)) (JStr (default "GET" method)) config
  = Ok (ec_name <$> List.find (Spec.endpoint_matches url method) config).
Proof.
  induction config as [|ep rest IH]; simpl; [reflexivity|].
  unfold Spec.endpoint_matches at 1.
  destruct (PyStr.contains _ _); simpl; [|exact IH].
  destruct (String.eqb _ _); [reflexivity|exact IH].
Qed.

Lemma split_nonempty (sep : ascii) (s : string) : PyStr.split sep s <> [].
Proof.
  destruct s as [|a t]; simpl; [discriminate|].
  destruct (Ascii.eqb a sep); [discriminate|].
  destruct (PyStr.split sep t); discriminate.
Qed.

Lemma resolve_endpoint_strings
    (py_str : json -> string) (config : list endpoint_cfg)
    (tags : list (string * json)) :
  Spec.string_tags tags = true ->
  resolve_endpoint py_str config
    (Py.get tags "url" (JStr "")) (Py.get tags "method" (JStr "GET"))
    (Py.get tags "name" (JStr "")) (Py.get tags "route" (JStr ""))
  = Ok (JStr (Spec.label config (Spec.tag tags "route") (Spec.tag tags "url")
                (Spec.tag tags "method") (Spec.tag tags "name"))).
Proof.
  intros Hs. unfold resolve_endpoint, Spec.label.
  rewrite !(truthy_string _ _ Hs).
  rewrite !(get_string _ _ _ Hs).
  destruct (Spec.present (Spec.tag tags "route")); [reflexivity|].
  rewrite get_endpoint_info_strings.
  destruct (List.find _ config) as [ep|]; simpl.
  - destruct (negb (String.eqb (ec_name ep) "")); [reflexivity|].
    destruct (Spec.present (Spec.tag tags "name")); [reflexivity|].
    destruct (Spec.present (Spec.tag tags "url")) eqn:Eu; [|reflexivity].
    unfold Spec.fallback_label. simpl.
    destruct (PyStr.split "/" _) eqn:E; [|reflexivity].
    now apply split_nonempty in E.
  - destruct (Spec.present (Spec.tag tags "name")); [reflexivity|].
    destruct (Spec.present (Spec.tag tags "url")) eqn:Eu; [|reflexivity].
    unfold Spec.fallback_label. simpl.
    destruct (PyStr.split "/" _) eqn:E; [|reflexivity].
    now apply split_nonempty in E.
Qed.

Lemma eq_str_true (v : json) (s : string) : Py.eq_str v s = true -> v = JStr s.
Proof.
  destruct v; simpl; try discriminate. intros H.
  apply String.eqb_eq in H. now subst.
Qed.

Lemma Qlt_Qltb (a b : Q) : (a < b)%Q -> Py.Qltb a b = true.
Proof.
  intros H. unfold Py.Qltb. apply negb_true_iff.
  destruct (Qle_bool b a) eqn:E; [|reflexivity].
  apply Qle_bool_iff in E. exfalso. exact (Qlt_not_le _ _ H E).
Qed.

(** A duration record: a dict of type Point and metric http_req_duration,
    whose [data] is a dict with a positive number as [value] and a dict of
    string tags as [tags].  Its request is counted in the entry of its
    label, and as an error when its status is a number of at least 400. *)
Lemma process_duration_point
    (py_str : json -> string) (config : list endpoint_cfg)
    (d pd tags : list (string * json)) (v : Q) (a : acc) :
  Py.get d "type" JNull = JStr "Point" ->
  Py.get d "metric" JNull = JStr "http_req_duration" ->
  Py.lookup_item "data" d = Some (JObj pd) ->
  Py.num_of (Py.get pd "value" (JNum 0)) = Some v ->
  (0 < v)%Q ->
  Py.get pd "tags" (JObj []) = JObj tags ->
  Spec.string_tags tags = true ->
  let k := JStr (Spec.label config (Spec.tag tags "route") (Spec.tag tags "url")
                   (Spec.tag tags "method") (Spec.tag tags "name")) in
  let p := {| tp_timestamp := Py.get pd "time" (JStr "");
              tp_response_time := v; tp_tags := JObj tags |} in
  fst (process_line py_str config (Some (JObj d)) a)
  = Spec.apply_effect
      (match Py.int (Py.get tags "status" (JStr "200")) with
       | Ok code => if (400 <=? code)%Z then Spec.CountedError v p k
                    else Spec.Counted v p k
       | Raise _ => Spec.Counted v p k
       end)
      (incr_line_count a).
Proof.
  intros Htype Hmetric Hdata Hv Hpos Htags Hs k p.
  unfold process_line, with_entry, mbind, M_bind, bind, lift, modify,
    mret, M_ret, ret, raise.
  cbn beta iota. rewrite Htype, Hmetric. cbn [Py.eq_str String.eqb andb].
  change (String.eqb "Point" "Point") with true.
  change (String.eqb "http_req_duration" "vus") with false.
  change (String.eqb "http_req_duration" "http_req_duration") with true.
  cbn [andb]. unfold Py.subscript. rewrite Hdata.
  cbn [Py.attr_get]. rewrite Hv, (Qlt_Qltb _ _ Hpos), Htags.
  cbn [Py.attr_get]. rewrite (resolve_endpoint_strings py_str config tags Hs).
  cbn [Py.hashable]. fold k.
  destruct (Py.int (Py.get tags "status" (JStr "200"))) as [code|e];
    [destruct (400 <=? code)%Z|]; reflexivity.
Qed.

(** C2, as the code has it.  For a point whose tags are strings the label is
    given by the first rule that applies: (1) the route tag, if present and
    not empty; (2) the name of the first configured endpoint whose url, its
    leading slashes stripped, is a substring of the url tag and whose method
    equals the point's up to case, if that name is not empty; (3) the name
    tag, if present and not empty; (4) the method, a space and the last
    '/'-separated segment of the url tag, if the url tag is present and not
    empty; (5) "unknown".  The analyzer counts the request of the point in
    the entry of that label. *)
Theorem endpoint_label_resolution
    (py_str : json -> string) (config : list endpoint_cfg)
    (d pd tags : list (string * json)) (v : Q) (a : acc) :
  Py.get d "type" JNull = JStr "Point" ->
  Py.get d "metric" JNull = JStr "http_req_duration" ->
  Py.lookup_item "data" d = Some (JObj pd) ->
  Py.num_of (Py.get pd "value" (JNum 0)) = Some v ->
  (0 < v)%Q ->
  Py.get pd "tags" (JObj []) = JObj tags ->
  Spec.string_tags tags = true ->
  let k := JStr (Spec.label config (Spec.tag tags "route") (Spec.tag tags "url")
                   (Spec.tag tags "method") (Spec.tag tags "name")) in
  resolve_endpoint py_str config
    (Py.get tags "url" (JStr "")) (Py.get tags "method" (JStr "GET"))
    (Py.get tags "name" (JStr "")) (Py.get tags "route" (JStr "")) = Ok k
  /\ exists eff p,
       (eff = Spec.Counted v p k \/ eff = Spec.CountedError v p k)
       /\ fst (process_line py_str config (Some (JObj d)) a)
          = Spec.apply_effect eff (incr_line_count a).
Proof.
  intros Htype Hmetric Hdata Hv Hpos Htags Hs k.
  split; [now apply resolve_endpoint_strings|].
  pose proof (process_duration_point py_str config d pd tags v a
                Htype Hmetric Hdata Hv Hpos Htags Hs) as H.
  cbv zeta in H. fold k in H.
  destruct (Py.int (Py.get tags "status" (JStr "200"))) as [code|e];
    [destruct (400 <=? code)%Z|]; eauto.
Qed.

Lemma endpoint_label_resolution_witness :
  Spec.string_tags Spec.students_tags = true
  /\ resolve_endpoint Spec.py_str_unused Spec.scenario_b_config
       (Py.get Spec.students_tags "url" (JStr ""))
       (Py.get Spec.students_tags "method" (JStr "GET"))
       (Py.get Spec.students_tags "name" (JStr ""))
       (Py.get Spec.students_tags "route" (JStr ""))
     = Ok (JStr "Student List API").
Proof.
  split; [reflexivity|].
  refine (proj1 (endpoint_label_resolution Spec.py_str_unused Spec.scenario_b_config
                   Spec.students_record Spec.students_data Spec.students_tags
                   3000%Q init _ _ _ _ _ _ _)); reflexivity.
Defined.

(** C2 as stated fails in two places.  When the first matching endpoint has
    an empty name, rule 2 as stated gives the empty label, and the analyzer
    goes on to the name tag.  When the url tag is present and empty, rule 4
    as stated gives "GET " and the analyzer gives "unknown". *)
Lemma endpoint_label_counterexample :
  (resolve_endpoint Spec.py_str_unused Spec.unnamed_endpoint_config
     (Py.get Spec.students_tags "url" (JStr ""))
     (Py.get Spec.students_tags "method" (JStr "GET"))
     (Py.get Spec.students_tags "name" (JStr ""))
     (Py.get Spec.students_tags "route" (JStr ""))
   = Ok (JStr "students")
   /\ Spec.label_as_stated Spec.unnamed_endpoint_config
        (Spec.tag Spec.students_tags "route") (Spec.tag Spec.students_tags "url")
        (Spec.tag Spec.students_tags "method") (Spec.tag Spec.students_tags "name")
      = "")
  /\ (resolve_endpoint Spec.py_str_unused []
        (Py.get Spec.empty_url_tags "url" (JStr ""))
        (Py.get Spec.empty_url_tags "method" (JStr "GET"))
        (Py.get Spec.empty_url_tags "name" (JStr ""))
        (Py.get Spec.empty_url_tags "route" (JStr ""))
      = Ok (JStr "unknown")
      /\ Spec.label_as_stated []
           (Spec.tag Spec.empty_url_tags "route") (Spec.tag Spec.empty_url_tags "url")
           (Spec.tag Spec.empty_url_tags "method") (Spec.tag Spec.empty_url_tags "name")
         = "GET ").
Proof. repeat split; vm_compute; reflexivity. Qed.

(** ** Lines that are dropped *)





(** ** The totals of the analyzer *)

(** On every stream the global error count is the sum of the per-endpoint
    errors, and the per-endpoint counts add up to at most the global
    total. *)
Lemma analyzer_sums (py_str : json -> string) (config : list endpoint_cfg)
    (lines : list (option json)) (a : acc) :
  collect py_str config lines init = Ok a ->
  error_count a = Spec.sum_errors (endpoint_stats a)
  /\ Spec.sum_counts (endpoint_stats a) <= total_requests a.
Proof.
  intros Hc. destruct (collect_ok _ _ _ _ _ init_ok Hc) as [_ He Hs _].
  split; assumption.
Qed.

Section StringTagged.

Variable py_str : json -> string.
Variable config : list endpoint_cfg.

Ltac counted_case e :=
  exists e; split; [first [exact I | eassumption | reflexivity]|];
  split; [exact I|reflexivity].

Lemma process_string_tagged (line : option json) (a : acc) :
  Spec.string_tagged line = true ->
  exists eff, Spec.effect_ok eff /\ Spec.counted_effect eff
    /\ fst (process_line py_str config line a)
       = Spec.apply_effect eff (incr_line_count a).
Proof.
  intros Hst.
  destruct line as [data|]; [|counted_case Spec.Skipped].
  destruct data as [| | | | |d]; try counted_case Spec.Skipped.
  unfold Spec.string_tagged, Spec.is_point in Hst.
  destruct (Py.eq_str (Py.get d "type" JNull) "Point"
            && Py.eq_str (Py.get d "metric" JNull) "vus") eqn:Evus.
  { unfold process_line, with_entry, mbind, M_bind, bind, lift,
      modify, mret, M_ret, ret, raise. cbn beta iota. rewrite Evus.
    repeat case_match; simplify_eq; cbn [fst];
      first [ counted_case Spec.Skipped
            | match goal with
              | |- context [append_vus ?t ?v _] => counted_case (Spec.VusAppended t v)
              end ]. }
  destruct (Py.eq_str (Py.get d "type" JNull) "Point"
            && Py.eq_str (Py.get d "metric" JNull) "http_req_duration") eqn:Edur.
  2:{ unfold process_line, with_entry, mbind, M_bind, bind, lift,
        modify, mret, M_ret, ret, raise. cbn beta iota. rewrite Evus, Edur.
      counted_case Spec.Skipped. }
  apply andb_true_iff in Edur as [Et Em].
  apply eq_str_true in Et, Em.
  destruct (Py.lookup_item "data" d) as [pd|] eqn:Edata.
  2:{ unfold process_line, with_entry, mbind, M_bind, bind, lift,
        modify, mret, M_ret, ret, raise, Py.subscript. cbn beta iota.
      rewrite Evus, Et, Em, Edata. counted_case Spec.Skipped. }
  destruct pd as [| | | | |pd];
    try (unfold process_line, with_entry, mbind, M_bind, bind, lift,
           modify, mret, M_ret, ret, raise, Py.subscript; cbn beta iota;
         rewrite Evus, Et, Em, Edata; counted_case Spec.Skipped).
  destruct (Py.get pd "tags" (JObj [])) as [| | | | |tags] eqn:Etags;
    try discriminate.
  destruct (Py.num_of (Py.get pd "value" (JNum 0))) as [v|] eqn:Ev.
  2:{ unfold process_line, with_entry, mbind, M_bind, bind, lift,
        modify, mret, M_ret, ret, raise, Py.subscript. cbn beta iota.
      rewrite Evus, Et, Em, Edata. cbn. rewrite Ev. counted_case Spec.Skipped. }
  destruct (Py.Qltb 0 v) eqn:Epos.
  2:{ unfold process_line, with_entry, mbind, M_bind, bind, lift,
        modify, mret, M_ret, ret, raise, Py.subscript. cbn beta iota.
      rewrite Evus, Et, Em, Edata. cbn. rewrite Ev, Epos.
      counted_case Spec.Skipped. }
  apply Qltb_true_lt in Epos.
  rewrite (process_duration_point py_str config d pd tags v a
             Et Em Edata Ev Epos Etags Hst).
  destruct (Py.int (Py.get tags "status" (JStr "200"))) as [code|e];
    [destruct (400 <=? code)%Z|]; eexists; (split; [|split; [|reflexivity]]);
    first [exact I | reflexivity].
Qed.

End StringTagged.

Lemma apply_effect_total (eff : Spec.effect) (a : acc) :
  Spec.effect_ok eff -> Spec.counted_effect eff ->
  total_requests a = Spec.sum_counts (endpoint_stats a) ->
  total_requests (Spec.apply_effect eff (incr_line_count a))
  = Spec.sum_counts (endpoint_stats (Spec.apply_effect eff (incr_line_count a))).
Proof.
  intros Hok Hc Ht.
  destruct eff as [| t v | v p | v p k | v p k]; simpl in Hok, Hc;
    try contradiction; cbn [Spec.apply_effect]; try exact Ht.
  - rewrite record_entry_stats by assumption. simpl.
    unfold Spec.sum_counts in *.
    rewrite (update_entry_sum count 1) by (intros; simpl; lia). lia.
  - cbn [endpoint_stats set_endpoint_stats incr_error_count total_requests].
    rewrite record_entry_stats by assumption. simpl.
    rewrite update_entry_twice by assumption.
    unfold Spec.sum_counts in *.
    rewrite (update_entry_sum count 1) by (intros; simpl; lia). lia.
Qed.

(** On a stream whose duration points carry a dict of string tags, the
    global total is the sum of the per-endpoint counts. *)
Lemma totals_agree_on_string_tags (py_str : json -> string)
    (config : list endpoint_cfg) (lines : list (option json)) (a0 a : acc) :
  forallb Spec.string_tagged lines = true ->
  total_requests a0 = Spec.sum_counts (endpoint_stats a0) ->
  collect py_str config lines a0 = Ok a ->
  total_requests a = Spec.sum_counts (endpoint_stats a).
Proof.
  revert a0. induction lines as [|line rest IH]; intros a0 Hs H0 Hc; simpl in Hc.
  - now injection Hc as <-.
  - simpl in Hs. apply andb_true_iff in Hs as [Hl Hs].
    destruct (process_string_tagged py_str config line a0 Hl)
      as (eff & Hok & Hcnt & Hfst).
    destruct (process_line py_str config line a0) as [a' r] eqn:Hp.
    simpl in Hfst. subst a'.
    pose proof (apply_effect_total eff a0 Hok Hcnt H0) as H1.
    destruct r as [[]|e]; [now apply (IH _ Hs H1)|].
    destruct (caught e); [now apply (IH _ Hs H1)|discriminate].
Qed.

(** C3.  A duration point whose route tag is a list is counted in
    [total_requests] before the analyzer looks up its entry; the lookup
    raises [TypeError], which the loop swallows.  Whatever the
    configuration, the analyzer then reports one request in total and no
    endpoint at all. *)
Theorem list_route_breaks_request_total
    (py_str : json -> string) (config : list endpoint_cfg) :
  exists a s,
    collect py_str config [Spec.list_route_line] init = Ok a
    /\ analyze_k6_json_with_timeline py_str config (Some [Spec.list_route_line])
       = Stats s
    /\ st_total_requests s = 1
    /\ st_endpoint_stats s = []
    /\ Spec.sum_counts (endpoint_stats a) = 0
    /\ st_total_requests s <> Spec.sum_counts (endpoint_stats a).
Proof.
  do 2 eexists. split; [reflexivity|].
  split; [reflexivity|].
  split; [reflexivity|]. split; [reflexivity|]. split; [reflexivity|].
  simpl. discriminate.
Qed.

(** ** The error rates of the timeline *)

Lemma slice_length {A : Type} (start stop : nat) (l : list A) :
  stop <= length l -> length (slice start stop l) = stop - start.
Proof.
  intros H. unfold slice. rewrite length_firstn, length_skipn. lia.
Qed.


Lemma count_errors_filter (w : list timeline_point) (n : nat) :
  count_errors w = Some n -> n = length (List.filter Spec.starts_with_4_or_5 w).
Proof.
  revert n. induction w as [|d rest IH]; simpl; intros n H.
  - now injection H as <-.
  - unfold Spec.starts_with_4_or_5.
    destruct (is_error_point d) as [b|]; [|discriminate].
    destruct (count_errors rest) as [m|]; [|discriminate].
    injection H as <-. specialize (IH m eq_refl). subst m.
    destruct b; reflexivity.
Qed.

Lemma window_length (l : list timeline_point) (i : nat) :
  i < length l ->
  length (Spec.window l i) = Nat.min (length l) (i + 25) - (i - 25)
  /\ 0 < length (Spec.window l i).
Proof.
  intros H. unfold Spec.window. rewrite slice_length by lia. lia.
Qed.

Lemma window_error_rate_spec (l : list timeline_point) (i : nat) (r : Q) :
  i < length l -> window_error_rate l i = Some r ->
  r = Py.round2 (Q_of_nat (length (List.filter Spec.starts_with_4_or_5 (Spec.window l i)))
                 / Q_of_nat (length (Spec.window l i)) * 100).
Proof.
  intros Hi. unfold window_error_rate.
  change (window_size / 2) with 25. change (Nat.max 0 (i - 25)) with (i - 25).
  fold (Spec.window l i).
  destruct (count_errors (Spec.window l i)) as [n|] eqn:E; [|discriminate].
  apply count_errors_filter in E. subst n.
  destruct (window_length l i Hi) as [_ Hpos].
  destruct (Nat.ltb_spec 0 (length (Spec.window l i))) as [_|Hle]; [|lia].
  intros H. now injection H as <-.
Qed.

Ltac Zify.zify_post_hook ::= Z.div_mod_to_equations.

Lemma error_rates_from_index (full rest : list timeline_point) (i : nat) (rs : list Q) :
  error_rates_from full i rest = Some rs ->
  length rs = (i + length rest + 4) / 5 - (i + 4) / 5
  /\ forall j, i <= j -> j < i + length rest -> j mod 5 = 0 ->
       exists r, window_error_rate full j = Some r
                 /\ nth_error rs (j / 5 - (i + 4) / 5) = Some r.
Proof.
  revert i rs. induction rest as [|p rest IH]; intros i rs H;
    cbn [error_rates_from] in H.
  - injection H as <-. cbn [length]. split; [lia|]. intros j Hij Hj. lia.
  - destruct (Nat.eqb_spec (i mod 5) 0) as [Hm|Hm].
    + destruct (window_error_rate full i) as [r|] eqn:Er; [|discriminate].
      destruct (error_rates_from full (S i) rest) as [rs'|] eqn:E; [|discriminate].
      injection H as <-. destruct (IH _ _ E) as [Hlen Hidx]. simpl length.
      split; [lia|]. intros j Hij Hj Hjm.
      destruct (Nat.eq_dec j i) as [->|Hne].
      * exists r. split; [exact Er|].
        replace (i / 5 - (i + 4) / 5) with 0 by lia. reflexivity.
      * destruct (Hidx j) as (r' & Hr' & Hn); [lia|lia|exact Hjm|].
        exists r'. split; [exact Hr'|].
        replace (j / 5 - (i + 4) / 5) with (S (j / 5 - (S i + 4) / 5)) by lia.
        exact Hn.
    + destruct (IH _ _ H) as [Hlen Hidx]. simpl length.
      split; [lia|]. intros j Hij Hj Hjm.
      destruct (Hidx j) as (r' & Hr' & Hn); [|lia|exact Hjm|].
      * destruct (Nat.eq_dec j i) as [->|Hne]; [contradiction|lia].
      * exists r'. split; [exact Hr'|].
        replace (j / 5 - (i + 4) / 5) with (j / 5 - (S i + 4) / 5) by lia.
        exact Hn.
Qed.

Section SortedBy.

Context {A : Type} (lt : A -> A -> bool).
Hypothesis lt_asym : forall x y, lt x y = true -> lt y x = false.

Lemma insert_by_perm (x : A) (l : list A) : Permutation (x :: l) (Py.insert_by lt x l).
Proof.
  induction l as [|y t IH]; simpl; [reflexivity|].
  destruct (lt x y); [reflexivity|].
  rewrite perm_swap. now apply perm_skip.
Qed.

Lemma sorted_by_perm_acc (l acc : list A) :
  Permutation (l ++ acc) (fold_left (fun acc x => Py.insert_by lt x acc) l acc).
Proof.
  revert acc. induction l as [|x t IH]; intros acc; simpl; [reflexivity|].
  rewrite <- IH. rewrite <- insert_by_perm. apply Permutation_middle.
Qed.

Lemma sorted_by_perm (l : list A) : Permutation l (Py.sorted_by lt l).
Proof.
  unfold Py.sorted_by. rewrite <- sorted_by_perm_acc. now rewrite app_nil_r.
Qed.

Lemma insert_by_sorted (x : A) (l : list A) :
  Sorted (fun p q => lt q p = false) l ->
  Sorted (fun p q => lt q p = false) (Py.insert_by lt x l).
Proof.
  induction 1 as [|y t Ht IH Hhd]; simpl.
  - repeat constructor.
  - destruct (lt x y) eqn:E.
    + constructor; [now constructor|]. constructor. now apply lt_asym.
    + constructor; [exact IH|].
      destruct t as [|z t']; simpl.
      * constructor. exact E.
      * destruct (lt x z); constructor; [exact E|].
        now inversion Hhd.
Qed.

Lemma sorted_by_sorted (l : list A) :
  Sorted (fun p q => lt q p = false) (Py.sorted_by lt l).
Proof.
  unfold Py.sorted_by.
  assert (H : forall acc, Sorted (fun p q => lt q p = false) acc ->
            Sorted (fun p q => lt q p = false)
                   (fold_left (fun acc x => Py.insert_by lt x acc) l acc)).
  { induction l as [|x t IH]; intros acc Hacc; simpl; [exact Hacc|].
    apply IH. now apply insert_by_sorted. }
  apply H. constructor.
Qed.

End SortedBy.















(** * The live status tracker *)

Import WebApp.

Lemma apply_writes_app (entry : gmap string val) (ws1 ws2 : list write) :
  apply_writes entry (ws1 ++ ws2) = apply_writes (apply_writes entry ws1) ws2.
Proof. unfold apply_writes. apply fold_left_app. Qed.

(** *** Stripping a line does not change what it holds *)

Lemma is_space_lower_char (a : ascii) :
  PyStr.is_space (PyStr.lower_char a) = PyStr.is_space a.
Proof. destruct a as [[] [] [] [] [] [] [] []]; reflexivity. Qed.

Lemma lower_lstrip (s : string) : PyStr.lower (PyStr.lstrip s) = PyStr.lstrip (PyStr.lower s).
Proof.
  induction s as [|a t IH]; [reflexivity|].
  cbn [PyStr.lstrip PyStr.lower PyStr.map_chars].
  rewrite is_space_lower_char. destruct (PyStr.is_space a); [exact IH|reflexivity].
Qed.

Lemma lower_rstrip (s : string) : PyStr.lower (PyStr.rstrip s) = PyStr.rstrip (PyStr.lower s).
Proof.
  induction s as [|a t IH]; [reflexivity|].
  cbn [PyStr.rstrip PyStr.lower PyStr.map_chars].
  fold (PyStr.lower t). rewrite <- IH, is_space_lower_char.
  destruct (PyStr.rstrip t) as [|b r]; [|reflexivity].
  cbn [PyStr.lower PyStr.map_chars].
  destruct (PyStr.is_space a); reflexivity.
Qed.

Lemma lower_strip (s : string) : PyStr.lower (PyStr.strip s) = PyStr.strip (PyStr.lower s).
Proof. unfold PyStr.strip. now rewrite lower_rstrip, lower_lstrip. Qed.

Lemma startswith_all_space (n w : string) :
  PyStr.startswith n w = true -> Spec.all_space w = true -> Spec.ends_nonspace n = false.
Proof.
  revert w. induction n as [|c n' IH]; intros w Hs Hw; [reflexivity|].
  destruct w as [|a w']; [discriminate|]. simpl in Hs, Hw.
  apply andb_true_iff in Hs as [Hc Hs]. apply andb_true_iff in Hw as [Ha Hw].
  apply Ascii.eqb_eq in Hc. subst a.
  destruct n' as [|d n'']; [simpl; now rewrite Ha|].
  exact (IH w' Hs Hw).
Qed.

Lemma startswith_app_space (n r w : string) :
  Spec.ends_nonspace n = true -> Spec.all_space w = true ->
  PyStr.startswith n (r +:+ w) = PyStr.startswith n r.
Proof.
  revert r. induction n as [|c n' IH]; intros r Hn Hw; [discriminate|].
  destruct r as [|b r'].
  - change (EmptyString +:+ w) with w.
    destruct (PyStr.startswith (String c n') w) eqn:E; [|reflexivity].
    apply startswith_all_space in E; [congruence|exact Hw].
  - change (String b r' +:+ w) with (String b (r' +:+ w)).
    cbn [PyStr.startswith].
    destruct n' as [|d n'']; [reflexivity|].
    now rewrite (IH r' Hn Hw).
Qed.

Lemma contains_all_space (n w : string) :
  Spec.ends_nonspace n = true -> Spec.all_space w = true -> PyStr.contains n w = false.
Proof.
  intros Hn. induction w as [|a w' IH]; intros Hw.
  - destruct n; [discriminate|reflexivity].
  - cbn [PyStr.contains]. simpl in Hw. apply andb_true_iff in Hw as [Ha Hw].
    rewrite (IH Hw), orb_false_r.
    destruct (PyStr.startswith n (String a w')) eqn:E; [|reflexivity].
    apply startswith_all_space in E; [congruence|].
    simpl. now rewrite Ha, Hw.
Qed.

Lemma contains_app_space (n r w : string) :
  Spec.ends_nonspace n = true -> Spec.all_space w = true ->
  PyStr.contains n (r +:+ w) = PyStr.contains n r.
Proof.
  intros Hn Hw. induction r as [|b r' IH].
  - change (EmptyString +:+ w) with w. rewrite (contains_all_space n w Hn Hw).
    destruct n; [discriminate|reflexivity].
  - change (String b r' +:+ w) with (String b (r' +:+ w)).
    cbn [PyStr.contains]. rewrite IH.
    change (String b (r' +:+ w)) with (String b r' +:+ w).
    now rewrite (startswith_app_space n (String b r') w Hn Hw).
Qed.

Lemma rstrip_split (u : string) :
  exists w, u = PyStr.rstrip u +:+ w /\ Spec.all_space w = true.
Proof.
  induction u as [|a t (w & Ht & Hw)].
  - exists EmptyString. split; reflexivity.
  - cbn [PyStr.rstrip]. destruct (PyStr.rstrip t) as [|b r] eqn:E.
    + change (EmptyString +:+ w) with w in Ht. subst t.
      destruct (PyStr.is_space a) eqn:Ea.
      * exists (String a w). split; [reflexivity|].
        cbn [Spec.all_space]. now rewrite Ea, Hw.
      * exists w. split; [reflexivity|exact Hw].
    + exists w. split; [|exact Hw].
      change (String a (String b r) +:+ w) with (String a (String b r +:+ w)).
      now rewrite <- Ht.
Qed.

Lemma contains_rstrip (n u : string) :
  Spec.ends_nonspace n = true -> PyStr.contains n (PyStr.rstrip u) = PyStr.contains n u.
Proof.
  intros Hn. destruct (rstrip_split u) as (w & Hu & Hw).
  rewrite Hu at 2. symmetry. now apply contains_app_space.
Qed.

Lemma contains_lstrip (n u : string) :
  Spec.starts_nonspace n = true -> PyStr.contains n (PyStr.lstrip u) = PyStr.contains n u.
Proof.
  intros Hn. induction u as [|a t IH]; [reflexivity|].
  cbn [PyStr.lstrip]. destruct (PyStr.is_space a) eqn:Ea; [|reflexivity].
  rewrite IH. cbn [PyStr.contains].
  destruct n as [|c n']; [discriminate|]. cbn [PyStr.startswith].
  destruct (Ascii.eqb_spec c a) as [->|_]; [|reflexivity].
  simpl in Hn. now rewrite Ea in Hn.
Qed.

Lemma contains_strip (n u : string) :
  Spec.starts_nonspace n = true -> Spec.ends_nonspace n = true ->
  PyStr.contains n (PyStr.strip u) = PyStr.contains n u.
Proof.
  intros H1 H2. unfold PyStr.strip.
  now rewrite contains_rstrip, contains_lstrip.
Qed.

(** The test of the loop on the stripped line is the test on the line. *)
Lemma ramping_up_line_holds (line : string) :
  Spec.ramping_up_line line = Spec.holds_ramping_up line.
Proof.
  unfold Spec.ramping_up_line, Spec.holds_ramping_up.
  rewrite lower_strip. now apply contains_strip.
Qed.

Lemma line_step_ramping_up (total : N) (t : tracker) (line : string) :
  Spec.ramping_up_line line = true ->
  exists pre,
    line_step total t line
    = ({| current_stage := current_stage t + 1;
          current_vus := current_vus (fst (line_step total t line));
          target_vus := target_vus (fst (line_step total t line));
          progress_percent := progress_percent (fst (line_step total t line));
          last_lines := push_line line (last_lines t) |},
       pre ++ [("current_stage", VInt (Z.of_N (current_stage t + 1)));
               ("total_stages", VInt (Z.of_N total));
               ("stage", VStr (stage_text (current_stage t + 1) total "Ramping up"))]).
Proof.
  unfold Spec.ramping_up_line. intros H. unfold line_step. rewrite H.
  destruct (search match_vus line) as [[a b]|];
    [|destruct (search match_simple_vus line);
      [destruct (PyStr.contains "VUs" line)|]];
    destruct (search match_progress line);
    destruct (search match_stage line);
    cbn [fst current_vus target_vus progress_percent];
    eexists; rewrite ?app_assoc; reflexivity.
Qed.

Lemma line_step_other (total : N) (t : tracker) (line : string) :
  Spec.ramping_up_line line = false ->
  current_stage (fst (line_step total t line)) = current_stage t.
Proof.
  unfold Spec.ramping_up_line. intros H. unfold line_step. rewrite H.
  destruct (search match_vus line) as [[a b]|];
    [|destruct (search match_simple_vus line);
      [destruct (PyStr.contains "VUs" line)|]];
    destruct (search match_progress line);
    destruct (search match_stage line);
    destruct (PyStr.contains "ramping down" _);
    try destruct (PyStr.contains "staying at" _); reflexivity.
Qed.

Lemma output_loop_stage (total : N) (lines : list string) (t : tracker) :
  current_stage (fst (output_loop total t lines))
  = (current_stage t + N.of_nat (length (List.filter Spec.ramping_up_line lines)))%N.
Proof.
  revert t. induction lines as [|line rest IH]; intros t; simpl.
  - lia.
  - destruct (line_step total t line) as [t1 w1] eqn:E1.
    specialize (IH t1).
    destruct (output_loop total t1 rest) as [t2 w2] eqn:E2. simpl in *.
    rewrite IH. destruct (Spec.ramping_up_line line) eqn:Er.
    + destruct (line_step_ramping_up total t line Er) as [pre Hp].
      rewrite E1 in Hp. injection Hp as -> _. simpl. lia.
    + pose proof (line_step_other total t line Er) as Ho.
      rewrite E1 in Ho. simpl in Ho. rewrite Ho. lia.
Qed.

(** C6.  The stage index starts at 1.  On every line of the output of
    [run_k6_test] that holds "ramping up" in any mix of upper and lower
    case, it goes up by exactly one, and the entry gets the new index, the
    number of stages and the phase label "Stage {index}/{total}: Ramping
    up", where the total is the number of custom stages when custom stages
    were supplied and 5 otherwise.  After any lines the index is 1 plus the
    number of such lines among them: every one of them counts, not only
    the first. *)
Theorem ramping_up_increments_stage
    (custom_stages : option (list stage)) (before : list string) (line : string)
    (entry : gmap string val) :
  Spec.holds_ramping_up line = true ->
  let total := total_stages_of custom_stages in
  let t0 := fst (output_loop total tracker_init before) in
  let t1 := fst (line_step total t0 line) in
  let entry1 := apply_writes entry (snd (line_step total t0 line)) in
  current_stage tracker_init = 1%N
  /\ current_stage t0
     = (1 + N.of_nat (length (List.filter Spec.holds_ramping_up before)))%N
  /\ current_stage t1 = (current_stage t0 + 1)%N
  /\ entry1 !! "current_stage" = Some (VInt (Z.of_N (current_stage t1)))
  /\ entry1 !! "total_stages" = Some (VInt (Z.of_N total))
  /\ entry1 !! "stage"
     = Some (VStr ("Stage " +:+ PyStr.of_N (current_stage t1) +:+ "/"
                   +:+ PyStr.of_N total +:+ ": Ramping up"))
  /\ total = match custom_stages with
             | Some [] | None => 5%N
             | Some l => N.of_nat (length l)
             end.
Proof.
  intros Hr total t0 t1 entry1. rewrite <- ramping_up_line_holds in Hr.
  destruct (line_step_ramping_up total t0 line Hr) as [pre Hp].
  assert (Ht1 : current_stage t1 = (current_stage t0 + 1)%N)
    by (subst t1; rewrite Hp; reflexivity).
  split; [reflexivity|].
  split.
  { subst t0. rewrite output_loop_stage.
    rewrite (filter_ext _ _ ramping_up_line_holds). reflexivity. }
  split; [exact Ht1|].
  subst entry1. rewrite Hp. cbn [snd]. rewrite apply_writes_app, Ht1.
  generalize (apply_writes entry pre). intros e.
  unfold apply_writes, apply_write. cbn [fold_left fst snd].
  split; [|split; [|split]].
  - rewrite !lookup_insert_ne by discriminate. apply lookup_insert_eq.
  - rewrite lookup_insert_ne by discriminate. apply lookup_insert_eq.
  - apply lookup_insert_eq.
  - subst total. unfold total_stages_of.
    destruct custom_stages as [[|x l]|]; reflexivity.
Qed.

Lemma ramping_up_increments_stage_witness :
  Spec.holds_ramping_up "  Ramping Up to 50 VUs" = true
  /\ current_stage (fst (line_step 5 tracker_init "  Ramping Up to 50 VUs")) = 2%N.
Proof.
  split; [reflexivity|].
  exact (proj1 (proj2 (proj2
           (ramping_up_increments_stage None [] "  Ramping Up to 50 VUs"
              (∅ : gmap string val) eq_refl)))).
Defined.

(** ** The writes of a run *)

Lemma apply_writes_lookup (ws : list write) (entry : gmap string val) (key : string) :
  apply_writes entry ws !! key
  = match Spec.last_write key ws with
    | Some v => Some v
    | None => entry !! key
    end.
Proof.
  revert entry. induction ws as [|[k v] rest IH]; intros entry; [reflexivity|].
  change (apply_writes entry ((k, v) :: rest))
    with (apply_writes (<[k:=v]> entry) rest).
  rewrite IH. simpl. destruct (Spec.last_write key rest); [reflexivity|].
  destruct (String.eqb_spec k key) as [->|Hne].
  - apply lookup_insert_eq.
  - now apply lookup_insert_ne.
Qed.

Lemma last_write_app (key : string) (ws1 ws2 : list write) :
  Spec.last_write key (ws1 ++ ws2)
  = match Spec.last_write key ws2 with
    | Some v => Some v
    | None => Spec.last_write key ws1
    end.
Proof.
  induction ws1 as [|w rest IH]; simpl.
  - now destruct (Spec.last_write key ws2).
  - rewrite IH. now destruct (Spec.last_write key ws2).
Qed.

Lemma loop_writes_last (key : string) (ws : list write) :
  Spec.loop_writes ws -> Spec.loop_key key = false -> Spec.last_write key ws = None.
Proof.
  intros Hw Hk. induction Hw as [|[k v] rest Hx _ IH]; simpl; [reflexivity|].
  rewrite IH. destruct (String.eqb_spec k key) as [->|_]; [|reflexivity].
  simpl in Hx. congruence.
Qed.

Lemma line_step_loop_writes (total : N) (t : tracker) (line : string) :
  Spec.loop_writes (snd (line_step total t line)).
Proof.
  unfold line_step, Spec.loop_writes.
  destruct (search match_vus line) as [[a b]|];
    [|destruct (search match_simple_vus line);
      [destruct (PyStr.contains "VUs" line)|]];
    destruct (search match_progress line);
    destruct (search match_stage line);
    destruct (PyStr.contains "ramping up" _);
    try destruct (PyStr.contains "ramping down" _);
    try destruct (PyStr.contains "staying at" _);
    cbn [snd app]; repeat constructor.
Qed.

Lemma output_loop_loop_writes (total : N) (lines : list string) (t : tracker) :
  Spec.loop_writes (snd (output_loop total t lines)).
Proof.
  revert t. induction lines as [|line rest IH]; intros t; simpl; [constructor|].
  pose proof (line_step_loop_writes total t line) as H1.
  destruct (line_step total t line) as [t1 w1].
  specialize (IH t1). destruct (output_loop total t1 rest) as [t2 w2].
  simpl in *. apply Forall_app. split; assumption.
Qed.

Lemma rate_loop_writes (cfg : rate_config) (lines : list string) :
  Spec.loop_writes (concat (map (rate_line_step cfg) lines)).
Proof.
  induction lines as [|line rest IH]; simpl; [constructor|].
  apply Forall_app. split; [|exact IH].
  unfold rate_line_step.
  destruct (search match_vus line) as [[a b]|];
    destruct (search match_progress line);
    destruct (search match_stage_rate line);
    cbn [app]; repeat constructor.
Qed.

Ltac run_cases :=
  repeat (cbn;
          match goal with
          | |- context [match ?o with Returns _ => _ | Throws _ => _ | TimesOut _ => _ end] =>
              is_var o; destruct o
          | |- context [let '(_, _) := ?p in _] => is_var p; destruct p
          | |- context [if ?b then _ else _] => destruct b
          | |- context [match ?l with [] => _ | _ :: _ => _ end] => is_var l; destruct l
          end).

Lemma k6_completed_has_report (custom_stages : option (list stage)) (env : k6_env) :
  Spec.last_write "status" (run_k6_test custom_stages env) = Some (VStr "completed") ->
  is_Some (Spec.last_write "report_file" (run_k6_test custom_stages env))
  /\ is_Some (Spec.last_write "summary_file" (run_k6_test custom_stages env))
  /\ is_Some (Spec.last_write "detailed_file" (run_k6_test custom_stages env)).
Proof.
  unfold run_k6_test, k6_body.
  pose proof (output_loop_loop_writes (total_stages_of custom_stages)
                (k6_output env) tracker_init) as Hl.
  destruct (output_loop _ _ _) as [t ws]. cbn [snd] in Hl.
  assert (Hs : Spec.last_write "status" ws = None)
    by (apply loop_writes_last; [exact Hl|reflexivity]).
  unfold mbind, W_bind, w_bind, put, emit, call, returned, handlers.
  destruct env as [prep popen out wait report listing move]. cbn.
  run_cases; cbn; rewrite ?last_write_app, ?Hs; cbn;
    try discriminate; intros _; repeat split; eexists; reflexivity.
Qed.

Lemma rate_completed_has_report_or_error (cfg : rate_config) (env : rate_env) :
  Spec.last_write "status" (run_simple_rate_control_test cfg env)
  = Some (VStr "completed") ->
  is_Some (Spec.last_write "report_file" (run_simple_rate_control_test cfg env))
  \/ is_Some (Spec.last_write "report_error" (run_simple_rate_control_test cfg env)).
Proof.
  unfold run_simple_rate_control_test, rate_body, rate_report_writes.
  pose proof (rate_loop_writes cfg (rate_output env)) as Hl.
  generalize dependent (concat (map (rate_line_step cfg) (rate_output env))).
  intros ws Hl.
  assert (Hs : Spec.last_write "status" ws = None)
    by (apply loop_writes_last; [exact Hl|reflexivity]).
  unfold mbind, W_bind, w_bind, put, emit, call, returned, handlers.
  destruct env as [prep popen out wait report listing move]. cbn.
  run_cases; cbn; rewrite ?last_write_app, ?Hs; cbn;
    try discriminate; intros _;
    first [left; eexists; reflexivity | right; eexists; reflexivity].
Qed.

Lemma put_bind {A : Type} (key : string) (v : val) (f : unit -> W A) :
  (put key v ≫= f) = ((key, v) :: fst (f tt), snd (f tt)).
Proof.
  unfold mbind, W_bind, w_bind, put. now destruct (f tt).
Qed.

Lemma last_write_head (key : string) (v : val) (rest : list write) :
  is_Some (Spec.last_write key ((key, v) :: rest)).
Proof.
  simpl. destruct (Spec.last_write key rest); [now eexists|].
  rewrite String.eqb_refl. now eexists.
Qed.

Lemma k6_writes_status (custom_stages : option (list stage)) (env : k6_env) :
  is_Some (Spec.last_write "status" (run_k6_test custom_stages env)).
Proof.
  unfold run_k6_test, k6_body. rewrite put_bind.
  lazy beta iota. rewrite <- app_comm_cons. apply last_write_head.
Qed.

Lemma rate_writes_status (cfg : rate_config) (env : rate_env) :
  is_Some (Spec.last_write "status" (run_simple_rate_control_test cfg env)).
Proof.
  unfold run_simple_rate_control_test, rate_body. rewrite put_bind.
  lazy beta iota. rewrite <- app_comm_cons. apply last_write_head.
Qed.

Lemma final_lookup_written (run : list write) (entry0 : gmap string val)
    (key : string) (v : val) :
  is_Some (Spec.last_write key run) ->
  apply_writes entry0 run !! key = Some v -> Spec.last_write key run = Some v.
Proof.
  intros [x Hx]. rewrite apply_writes_lookup, Hx. congruence.
Qed.

Lemma final_lookup_some (run : list write) (entry0 : gmap string val) (key : string) :
  is_Some (Spec.last_write key run) -> is_Some (apply_writes entry0 run !! key).
Proof.
  intros [x Hx]. rewrite apply_writes_lookup, Hx. now eexists.
Qed.

Lemma firstn_length_app {A : Type} (l1 l2 : list A) :
  firstn (length l1) (l1 ++ l2) = l1.
Proof.
  induction l1 as [|x t IH]; simpl; [now destruct l2|]. now rewrite IH.
Qed.

(** In the rate-control run, "completed" is written as soon as the process
    has exited with code 0 or 99, ahead of the report. *)
Lemma rate_completed_first (cfg : rate_config) (env : rate_env)
    (code : Z) (u1 u2 : unit) :
  rate_prepare env = Returns u1 -> rate_popen env = Returns u2 ->
  rate_wait env = Returns code -> code = 0%Z \/ code = 99%Z ->
  exists pre post,
    Spec.loop_writes pre
    /\ run_simple_rate_control_test cfg env
       = ([("status", VStr "running");
           ("stage", VStr "Preparing simple rate control test");
           ("stage", VStr "Configuring rate control parameters");
           ("stage", VStr ("Running " +:+ rate_type cfg +:+ " rate control test at "
                           +:+ PyStr.of_N (target_rate cfg) +:+ " RPS"))]
          ++ pre ++ [("status", VStr "completed")])
         ++ [("stage", VStr "Generating rate control report")]
         ++ rate_report_writes env ++ post.
Proof.
  intros Hp Ho Hw Hc. unfold run_simple_rate_control_test, rate_body.
  rewrite Hp, Ho, Hw.
  exists (concat (map (rate_line_step cfg) (rate_output env))).
  generalize (rate_loop_writes cfg (rate_output env)).
  generalize (concat (map (rate_line_step cfg) (rate_output env))).
  intros ws Hl.
  unfold mbind, W_bind, w_bind, put, emit, call, returned.
  destruct Hc; subst code; destruct (rate_move env); cbn;
    eexists; (split; [exact Hl|]);
    rewrite <- ?app_assoc; cbn; rewrite <- ?app_assoc; reflexivity.
Qed.

(** C7, as the code has it.  At the end of a run of [run_k6_test], an entry
    whose status is "completed" holds [report_file], [summary_file] and
    [detailed_file]; at the end of a run of [run_simple_rate_control_test]
    it holds [report_file] or [report_error].  In the rate-control run
    "completed" is written as soon as the process has exited with code 0 or
    99, ahead of the report: a reader of the entry can then see "completed"
    while [report_file] is absent. *)
Theorem completed_entry_and_report :
  (forall (custom_stages : option (list stage)) (env : k6_env)
          (entry0 : gmap string val),
      let final := apply_writes entry0 (run_k6_test custom_stages env) in
      final !! "status" = Some (VStr "completed") ->
      is_Some (final !! "report_file")
      /\ is_Some (final !! "summary_file")
      /\ is_Some (final !! "detailed_file"))
  /\ (forall (cfg : rate_config) (env : rate_env) (entry0 : gmap string val),
         let final := apply_writes entry0 (run_simple_rate_control_test cfg env) in
         final !! "status" = Some (VStr "completed") ->
         is_Some (final !! "report_file") \/ is_Some (final !! "report_error"))
  /\ (forall (cfg : rate_config) (env : rate_env) (entry0 : gmap string val)
             (code : Z) (u1 u2 : unit),
         rate_prepare env = Returns u1 -> rate_popen env = Returns u2 ->
         rate_wait env = Returns code -> code = 0%Z \/ code = 99%Z ->
         entry0 !! "report_file" = None ->
         exists entry,
           observable entry0 (run_simple_rate_control_test cfg env) entry
           /\ entry !! "status" = Some (VStr "completed")
           /\ entry !! "report_file" = None).
Proof.
  split; [|split].
  - intros cs env entry0 final Hs. subst final.
    apply final_lookup_written in Hs; [|apply k6_writes_status].
    destruct (k6_completed_has_report cs env Hs) as (H1 & H2 & H3).
    repeat split; now apply final_lookup_some.
  - intros cfg env entry0 final Hs. subst final.
    apply final_lookup_written in Hs; [|apply rate_writes_status].
    destruct (rate_completed_has_report_or_error cfg env Hs) as [H|H];
      [left|right]; now apply final_lookup_some.
  - intros cfg env entry0 code u1 u2 Hp Ho Hw Hc He.
    destruct (rate_completed_first cfg env code u1 u2 Hp Ho Hw Hc)
      as (pre & post & Hl & Hrun).
    rewrite Hrun.
    match goal with |- context [observable _ (?P ++ _)] => set (prefix := P) end.
    exists (apply_writes entry0 prefix). split; [|split].
    + exists (length prefix). now rewrite firstn_length_app.
    + rewrite apply_writes_lookup. subst prefix.
      rewrite !last_write_app. reflexivity.
    + rewrite apply_writes_lookup. subst prefix.
      rewrite !last_write_app.
      rewrite (loop_writes_last "report_file" pre Hl eq_refl). exact He.
Qed.

Lemma completed_entry_and_report_witness :
  exists entry,
    observable Spec.fresh_entry
      (run_simple_rate_control_test Spec.constant_rate Spec.failed_report_env) entry
    /\ entry !! "status" = Some (VStr "completed")
    /\ entry !! "report_file" = None.
Proof.
  exact (proj2 (proj2 completed_entry_and_report)
           Spec.constant_rate Spec.failed_report_env Spec.fresh_entry 0%Z tt tt
           eq_refl eq_refl eq_refl (or_introl eq_refl) eq_refl).
Defined.

(** C7 as stated fails in both runners.  In a run of [run_k6_test] in which
    everything succeeds, the entry after the first thirteen writes has the
    status "completed" and no [report_file] yet.  At the end of a
    rate-control run whose report generator fails, the entry has the status
    "completed" and no [report_file] at all. *)
Lemma completed_without_report_counterexample :
  (exists entry,
      observable Spec.fresh_entry (run_k6_test None Spec.smooth_k6_env) entry
      /\ entry !! "status" = Some (VStr "completed")
      /\ entry !! "report_file" = None)
  /\ (let final := apply_writes Spec.fresh_entry
                     (run_simple_rate_control_test Spec.constant_rate
                        Spec.failed_report_env) in
      final !! "status" = Some (VStr "completed")
      /\ final !! "report_file" = None
      /\ is_Some (final !! "report_error")).
Proof.
  split.
  - exists (apply_writes Spec.fresh_entry
              (firstn 13 (run_k6_test None Spec.smooth_k6_env))).
    split; [now exists 13|].
    rewrite !apply_writes_lookup. split; vm_compute; reflexivity.
  - cbv zeta. rewrite !apply_writes_lookup.
    split; [vm_compute; reflexivity|]. split; [vm_compute; reflexivity|].
    vm_compute. now eexists.
Qed.

(** ** The scenarios of the specification, run on the model *)

(** [statistics.quantiles(range(1, 11), n=4)] is [[2.75, 5.5, 8.25]]. *)
Example quantiles_of_one_to_ten :
  map Qred (Statistics.quantiles 4 [1; 2; 3; 4; 5; 6; 7; 8; 9; 10]%Q)
  = [11 # 4; 11 # 2; 33 # 4]%Q.
Proof. vm_compute. reflexivity. Qed.

(** Scenario C: the lines "342/500 VUs" and "running (1m30s)". *)
Example scenario_c :
  let '(t, ws) := output_loop 5 tracker_init ["342/500 VUs"; "running (1m30s)"] in
  let entry := apply_writes Spec.fresh_entry ws in
  current_vus t = 342%N /\ target_vus t = 500%N
  /\ entry !! "vus" = Some (VInt 342)
  /\ entry !! "target_vus" = Some (VInt 500)
  /\ entry !! "running_time" = Some (VStr "1m30s")
  /\ entry !! "stage" = Some (VStr "Running for 1m30s").
Proof. vm_compute. repeat split; reflexivity. Qed.

(** Scenario D: the exit code 99 ends in "completed" with the warning, the
    exit code 1 in "failed" with the last lines of the output. *)
Example scenario_d :
  let env code :=
    {| k6_prepare := Returns "load"; k6_popen := Returns tt;
       k6_output := ["starting"; "boom"]; k6_wait := Returns code;
       k6_report := Returns (0%Z, "", ""); k6_listing := Returns (["load.html"], "[]", "[]");
       k6_move := Returns tt |} in
  let final code := apply_writes Spec.fresh_entry (run_k6_test None (env code)) in
  final 99%Z !! "status" = Some (VStr "completed")
  /\ final 99%Z !! "thresholds_crossed" = Some (VBool true)
  /\ final 1%Z !! "status" = Some (VStr "failed")
  /\ final 1%Z !! "error" = Some (VStr "K6 test failed. Last output: startingboom").
Proof. vm_compute. repeat split; reflexivity. Qed.

(** * Further properties of the analyzer *)

(** A label that the chain resolves is never empty, nor otherwise false. *)
Lemma resolve_endpoint_truthy (py_str : json -> string) (config : list endpoint_cfg)
    (url method name_tag route_tag k : json) :
  resolve_endpoint py_str config url method name_tag route_tag = Ok k ->
  Py.truthy k = true.
Proof.
  unfold resolve_endpoint.
  destruct (Py.truthy route_tag) eqn:Er; [intros H; now injection H as <-|].
  destruct (get_endpoint_info_from_config url method config) as [[n|]|e];
    try discriminate.
  - destruct (negb (String.eqb n "")) eqn:En; [intros H; now injection H as <-|].
    destruct (Py.truthy name_tag) eqn:Ent; [intros H; now injection H as <-|].
    destruct (Py.truthy url); [|intros H; now injection H as <-].
    destruct url; try discriminate. intros H. injection H as <-.
    simpl. now destruct (format_value py_str method).
  - destruct (Py.truthy name_tag) eqn:Ent; [intros H; now injection H as <-|].
    destruct (Py.truthy url); [|intros H; now injection H as <-].
    destruct url; try discriminate. intros H. injection H as <-.
    simpl. now destruct (format_value py_str method).
Qed.

Section GoingOn.

Variable py_str : json -> string.
Variable config : list endpoint_cfg.

Ltac sound_case e :=
  exists e; split;
  [cbn [Spec.effect_sound tp_response_time tp_tags Spec.is_dict];
   repeat split;
   first [ exact I | reflexivity | assumption
         | apply Qltb_true_lt; assumption
         | eapply resolve_endpoint_truthy; eassumption ]
  |reflexivity].

Lemma process_line_goes_on (line : option json) (a : acc) :
  Spec.goes_on (snd (process_line py_str config line a)) ->
  exists eff, Spec.effect_sound eff
    /\ fst (process_line py_str config line a)
       = Spec.apply_effect eff (incr_line_count a).
Proof.
  unfold process_line, with_entry, mbind, M_bind, bind, lift, modify,
    mret, M_ret, ret, raise.
  destruct line as [data|]; [|intros _; sound_case Spec.Skipped].
  destruct data; try (intros _; sound_case Spec.Skipped).
  cbn beta iota.
  repeat case_match; simplify_eq; cbn [fst snd Spec.goes_on]; intros Hgo;
    try match goal with
        | H : Py.attr_get ?x _ _ = Ok _, H' : Py.attr_get ?x _ _ = Raise _ |- _ =>
            destruct x; simpl in H, H'; congruence
        end;
    try match goal with
        | H : Py.attr_get ?x _ _ = Raise ?e, Hc : caught ?e = true |- _ =>
            destruct x; simpl in H; simplify_eq; discriminate Hc
        end;
    repeat match goal with
           | H : Py.attr_get ?x _ _ = Ok _ |- _ =>
               is_var x; destruct x; try discriminate H
           end;
    first [ sound_case Spec.Skipped
          | match goal with
            | |- context [append_vus ?t ?v _] => sound_case (Spec.VusAppended t v)
            end
          | match goal with
            | |- context [append_timeline ?p _] =>
                first [ sound_case (Spec.GlobalOnly (tp_response_time p) p)
                      | match goal with
                        | H : Py.hashable ?k = true |- _ =>
                            first [ sound_case (Spec.Counted (tp_response_time p) p k)
                                  | sound_case (Spec.CountedError (tp_response_time p) p k) ]
                        end ]
            end ].
Qed.

End GoingOn.

(** ** What the loop keeps *)

Lemma update_entry_Forall_pair (P : json * endpoint_data -> Prop) (k : json)
    (f : endpoint_data -> endpoint_data) (es : list (json * endpoint_data)) :
  (forall k' d, P (k', d) -> P (k', f d)) -> P (k, f default_entry) ->
  Forall P es -> Forall P (update_entry k f es).
Proof.
  intros Hf Hd. induction 1 as [|[k' d] r Hx Hr IH]; simpl.
  - constructor; [exact Hd|constructor].
  - destruct (Py.key_eqb k' k); constructor; auto.
Qed.

Lemma update_entry_keys (R : json -> Prop) (k : json)
    (f : endpoint_data -> endpoint_data) (es : list (json * endpoint_data)) :
  R k -> Forall (fun kd => R (fst kd)) es ->
  Forall (fun kd => R (fst kd)) (update_entry k f es).
Proof.
  intros Hk. apply update_entry_Forall_pair; [auto|exact Hk].
Qed.

Lemma update_entry_distinct (k : json) (f : endpoint_data -> endpoint_data)
    (es : list (json * endpoint_data)) :
  Spec.distinct_keys es -> Spec.distinct_keys (update_entry k f es).
Proof.
  induction es as [|[k' d] r IH]; simpl.
  - intros _. split; [constructor|exact I].
  - intros [Hall Hr]. destruct (Py.key_eqb k' k) eqn:E; simpl.
    + split; assumption.
    + split; [|now apply IH].
      apply (update_entry_keys (fun x => Py.key_eqb k' x = false)); assumption.
Qed.

Lemma count_request_sound (timestamp : json) (v : Q) (k : json) (d : endpoint_data) :
  (0 < v)%Q -> Spec.entry_sound (k, d) ->
  Spec.entry_sound (k, Spec.count_request timestamp v d).
Proof.
  unfold Spec.entry_sound. simpl. intros Hv (Hh & Ht & Hc & Hl & H1 & He & Hp).
  rewrite !length_app. simpl. repeat split; try assumption; try lia.
  apply Forall_app. split; [exact Hp|]. constructor; [exact Hv|constructor].
Qed.

Lemma count_request_fresh (timestamp : json) (v : Q) (k : json) :
  (0 < v)%Q -> Py.hashable k = true -> Py.truthy k = true ->
  Spec.entry_sound (k, Spec.count_request timestamp v default_entry).
Proof.
  unfold Spec.entry_sound. simpl. intros Hv Hh Ht.
  repeat split; try assumption; try lia. constructor; [exact Hv|constructor].
Qed.

Lemma incr_errors_after_count (timestamp : json) (v : Q) (k : json) (d : endpoint_data) :
  Spec.entry_sound (k, d) ->
  Spec.entry_sound (k, Spec.count_request timestamp v d) ->
  Spec.entry_sound (k, incr_errors (Spec.count_request timestamp v d)).
Proof.
  unfold Spec.entry_sound. simpl.
  intros (_ & _ & _ & _ & _ & He & _) (Hh & Ht & Hc & Hl & H1 & _ & Hp).
  repeat split; try assumption. lia.
Qed.

Lemma init_sound : Spec.acc_sound init.
Proof. split; simpl; auto. Qed.

Lemma apply_effect_sound (eff : Spec.effect) (a : acc) :
  Spec.effect_sound eff -> Spec.acc_sound a ->
  Spec.acc_sound (Spec.apply_effect eff (incr_line_count a)).
Proof.
  intros Heff [He Hd Ht Hl Hp].
  destruct eff as [| t v | v p | v p k | v p k]; simpl in Heff.
  - split; assumption.
  - split; assumption.
  - destruct Heff as (Hv & Hrt & Hdict).
    split; simpl; try assumption.
    + apply Forall_app. split; [exact Ht|]. constructor; [exact Hv|constructor].
    + rewrite length_app. simpl. lia.
    + apply Forall_app. split; [exact Hp|].
      constructor; [|constructor]. split; [exact Hdict|]. now rewrite Hrt.
  - destruct Heff as (Hv & Hrt & Hdict & Hh & Htr).
    cbn [Spec.apply_effect]. split.
    + rewrite record_entry_stats by assumption. simpl.
      apply update_entry_Forall_pair; [| |exact He].
      * intros k' d. now apply count_request_sound.
      * now apply count_request_fresh.
    + rewrite record_entry_stats by assumption. simpl.
      now apply update_entry_distinct.
    + simpl. apply Forall_app. split; [exact Ht|]. constructor; [exact Hv|constructor].
    + simpl. rewrite length_app. simpl. lia.
    + simpl. apply Forall_app. split; [exact Hp|].
      constructor; [|constructor]. split; [exact Hdict|]. now rewrite Hrt.
  - destruct Heff as (Hv & Hrt & Hdict & Hh & Htr).
    cbn [Spec.apply_effect]. split;
      cbn [endpoint_stats set_endpoint_stats incr_error_count error_count
           total_requests all_response_times timeline_data].
    + rewrite record_entry_stats by assumption. simpl.
      rewrite update_entry_twice by assumption.
      apply update_entry_Forall_pair; [| |exact He].
      * intros k' d Hs. apply incr_errors_after_count; [exact Hs|].
        now apply count_request_sound.
      * unfold Spec.entry_sound. simpl. repeat split; try assumption; try lia.
        constructor; [exact Hv|constructor].
    + rewrite record_entry_stats by assumption. simpl.
      rewrite update_entry_twice by assumption.
      now apply update_entry_distinct.
    + simpl. apply Forall_app. split; [exact Ht|]. constructor; [exact Hv|constructor].
    + simpl. rewrite length_app. simpl. lia.
    + simpl. apply Forall_app. split; [exact Hp|].
      constructor; [|constructor]. split; [exact Hdict|]. now rewrite Hrt.
Qed.

Lemma collect_sound (py_str : json -> string) (config : list endpoint_cfg)
    (lines : list (option json)) (a0 a : acc) :
  Spec.acc_sound a0 -> collect py_str config lines a0 = Ok a -> Spec.acc_sound a.
Proof.
  revert a0. induction lines as [|line rest IH]; intros a0 H0 Hc; simpl in Hc.
  - now injection Hc as <-.
  - pose proof (process_line_goes_on py_str config line a0) as Hgo.
    destruct (process_line py_str config line a0) as [a' r] eqn:Hp.
    simpl in Hgo. destruct r as [[]|e].
    + destruct (Hgo I) as (eff & Heff & ->).
      apply (IH _ (apply_effect_sound eff a0 Heff H0) Hc).
    + destruct (caught e) eqn:Ec; [|discriminate].
      destruct (Hgo Ec) as (eff & Heff & ->).
      apply (IH _ (apply_effect_sound eff a0 Heff H0) Hc).
Qed.


Lemma stats_entries_finalize (config : list endpoint_cfg) (a : acc) :
  Spec.stats_entries (finalize config a) = endpoint_stats a.
Proof.
  unfold Spec.stats_entries, finalize. cbn [st_endpoint_stats].
  rewrite map_map. rewrite <- (map_id (endpoint_stats a)) at 2.
  apply map_ext. intros [k d]. cbn [fst snd]. now rewrite finalize_entry_data.
Qed.

Lemma analyze_stats_sound (py_str : json -> string) (config : list endpoint_cfg)
    (lines : list (option json)) (s : stats) :
  analyze_k6_json_with_timeline py_str config (Some lines) = Stats s ->
  exists a, collect py_str config lines init = Ok a
            /\ Spec.acc_ok a /\ Spec.acc_sound a
            /\ all_response_times a <> []
            /\ s = finalize config a.
Proof.
  unfold analyze_k6_json_with_timeline. intros H.
  destruct (collect py_str config lines init) as [a|e] eqn:Hc; [|discriminate].
  destruct (all_response_times a) eqn:Hr; [discriminate|].
  injection H as <-. exists a. split; [reflexivity|].
  split; [eapply collect_ok; [apply init_ok|exact Hc]|].
  split; [eapply collect_sound; [apply init_sound|exact Hc]|].
  split; [congruence|reflexivity].
Qed.

Lemma sum_errors_le_counts (es : list (json * endpoint_data)) :
  Forall Spec.entry_sound es -> Spec.sum_errors es <= Spec.sum_counts es.
Proof.
  unfold Spec.sum_errors, Spec.sum_counts.
  induction 1 as [|[k d] r (_ & _ & _ & _ & _ & He & _) Hr IH]; simpl in *; lia.
Qed.

Lemma ratio_bounds (x y : Z) :
  (0 <= x <= y)%Z -> (0 < y)%Z ->
  (0 <= inject_Z x / inject_Z y * 100 <= 100)%Q.
Proof.
  intros [H0 Hxy] Hy.
  assert (Q0 : (0 <= inject_Z x)%Q) by (unfold Qle; simpl; lia).
  assert (Qxy : (inject_Z x <= inject_Z y)%Q) by (unfold Qle; simpl; lia).
  assert (Qy : (0 < inject_Z y)%Q) by (unfold Qlt; simpl; lia).
  assert (Hlo : (0 <= inject_Z x / inject_Z y)%Q).
  { apply Qle_shift_div_l; [exact Qy|]. now rewrite Qmult_0_l. }
  assert (Hhi : (inject_Z x / inject_Z y <= 1)%Q).
  { apply Qle_shift_div_r; [exact Qy|]. now rewrite Qmult_1_l. }
  split; lra.
Qed.

Lemma success_rate_bounds (d : endpoint_data) :
  errors d <= count d -> 1 <= count d ->
  (0 <= success_rate d <= 100)%Q.
Proof.
  intros He Hc. unfold success_rate, Q_of_nat. apply ratio_bounds; lia.
Qed.

(** ** The statistics of every stream *)

(** X1.  Whatever the lines of the file, when the analyzer returns
    statistics their error count is the sum of the errors of the endpoints,
    the counts of the endpoints add up to at most the total of requests, and
    so the errors never exceed the requests. *)
Theorem error_count_is_sum_over_endpoints
    (py_str : json -> string) (config : list endpoint_cfg)
    (lines : list (option json)) (s : stats) :
  analyze_k6_json_with_timeline py_str config (Some lines) = Stats s ->
  st_error_count s = Spec.sum_errors (Spec.stats_entries s)
  /\ Spec.sum_counts (Spec.stats_entries s) <= st_total_requests s
  /\ st_error_count s <= st_total_requests s.
Proof.
  intros Ha.
  destruct (analyze_stats_sound _ _ _ _ Ha) as (a & _ & [_ He Hs _] & [Hes _ _ _ _] & _ & ->).
  rewrite stats_entries_finalize. cbn [finalize st_error_count st_total_requests].
  pose proof (sum_errors_le_counts _ Hes). repeat split; lia.
Qed.

Lemma error_count_is_sum_over_endpoints_witness :
  exists s,
    analyze_k6_json_with_timeline Spec.py_str_unused [] (Some Spec.mixed_stream) = Stats s
    /\ st_error_count s = 2
    /\ Spec.sum_errors (Spec.stats_entries s) = 2
    /\ Spec.sum_counts (Spec.stats_entries s) = 4
    /\ st_total_requests s = 5.
Proof.
  assert (H : exists s,
             analyze_k6_json_with_timeline Spec.py_str_unused []
               (Some Spec.mixed_stream) = Stats s
             /\ Spec.sum_errors (Spec.stats_entries s) = 2
             /\ Spec.sum_counts (Spec.stats_entries s) = 4
             /\ st_total_requests s = 5).
  { eexists. split; [vm_compute; reflexivity|]. repeat split. }
  destruct H as (s & Ha & He & Hc & Ht). exists s.
  destruct (error_count_is_sum_over_endpoints _ _ _ _ Ha) as (H1 & _ & _).
  split; [exact Ha|]. split; [now rewrite H1|]. repeat split; assumption.
Defined.

(** X2.  On a stream whose duration points carry a dict of string tags, as
    k6 writes them, the total of requests is the sum of the counts of the
    endpoints: every request is counted for exactly one endpoint. *)
Theorem request_total_is_sum_on_string_tags
    (py_str : json -> string) (config : list endpoint_cfg)
    (lines : list (option json)) (s : stats) :
  forallb Spec.string_tagged lines = true ->
  analyze_k6_json_with_timeline py_str config (Some lines) = Stats s ->
  st_total_requests s = Spec.sum_counts (Spec.stats_entries s).
Proof.
  intros Hs Ha.
  destruct (analyze_stats_sound _ _ _ _ Ha) as (a & Hc & _ & _ & _ & ->).
  rewrite stats_entries_finalize. cbn [finalize st_total_requests].
  apply (totals_agree_on_string_tags py_str config lines init a Hs); [reflexivity|exact Hc].
Qed.

Lemma request_total_is_sum_on_string_tags_witness :
  exists s,
    analyze_k6_json_with_timeline Spec.py_str_unused [] (Some Spec.k6_stream) = Stats s
    /\ st_total_requests s = 4
    /\ Spec.sum_counts (Spec.stats_entries s) = 4.
Proof.
  assert (H : exists s,
             analyze_k6_json_with_timeline Spec.py_str_unused []
               (Some Spec.k6_stream) = Stats s
             /\ st_total_requests s = 4).
  { eexists. split; [vm_compute; reflexivity|]. reflexivity. }
  destruct H as (s & Ha & Ht). exists s.
  split; [exact Ha|]. split; [exact Ht|].
  rewrite <- Ht. symmetry.
  apply (request_total_is_sum_on_string_tags Spec.py_str_unused [] Spec.k6_stream s);
    [reflexivity|exact Ha].
Defined.

(** X3.  Every endpoint of the statistics holds what it counts: its count is
    the number of its response times and of its timeline points and is at
    least one, its errors do not exceed its count, its response times are
    positive, and the success rate of its row lies between 0 and 100. *)
Theorem endpoint_entry_holds_what_it_counts
    (py_str : json -> string) (config : list endpoint_cfg)
    (lines : list (option json)) (s : stats) (k : json) (e : endpoint_final) :
  analyze_k6_json_with_timeline py_str config (Some lines) = Stats s ->
  In (k, e) (st_endpoint_stats s) ->
  count (ef_data e) = length (response_times (ef_data e))
  /\ count (ef_data e) = length (timeline (ef_data e))
  /\ 1 <= count (ef_data e)
  /\ errors (ef_data e) <= count (ef_data e)
  /\ Forall (fun v => (0 < v)%Q) (response_times (ef_data e))
  /\ (0 <= row_success_rate (endpoint_row py_str (k, e)) <= 100)%Q.
Proof.
  intros Ha Hin.
  destruct (analyze_stats_sound _ _ _ _ Ha) as (a & _ & _ & [Hes _ _ _ _] & _ & ->).
  cbn [finalize st_endpoint_stats] in Hin.
  apply in_map_iff in Hin as ([k' d] & Heq & Hin).
  cbn [fst snd] in Heq. injection Heq as -> <-.
  rewrite finalize_entry_data.
  rewrite List.Forall_forall in Hes.
  destruct (Hes _ Hin) as (_ & _ & Hc & Hl & H1 & He & Hp). cbn [fst snd] in *.
  repeat split; try assumption;
    cbn [endpoint_row row_success_rate snd]; rewrite finalize_entry_data;
    now apply success_rate_bounds.
Qed.

Lemma endpoint_entry_holds_what_it_counts_witness :
  exists s e,
    analyze_k6_json_with_timeline Spec.py_str_unused [] (Some Spec.mixed_stream) = Stats s
    /\ In (JStr "X", e) (st_endpoint_stats s)
    /\ count (ef_data e) = 2
    /\ length (response_times (ef_data e)) = 2
    /\ errors (ef_data e) <= 2.
Proof.
  assert (H : exists s e,
             analyze_k6_json_with_timeline Spec.py_str_unused []
               (Some Spec.mixed_stream) = Stats s
             /\ In (JStr "X", e) (st_endpoint_stats s)
             /\ count (ef_data e) = 2).
  { do 2 eexists. split; [vm_compute; reflexivity|]. split; [left; reflexivity|reflexivity]. }
  destruct H as (s & e & Ha & Hin & Hc). exists s, e.
  destruct (endpoint_entry_holds_what_it_counts _ _ _ _ _ _ Ha Hin)
    as (Hl & _ & _ & He & _).
  split; [exact Ha|]. split; [exact Hin|]. split; [exact Hc|].
  split; [now rewrite <- Hl|now rewrite <- Hc].
Defined.

(** X4.  The endpoints of the statistics are pairwise different as dict
    keys, and each is a hashable value that counts as true: no endpoint is
    listed twice, and none has an empty label. *)
Theorem endpoints_are_distinct_and_labelled
    (py_str : json -> string) (config : list endpoint_cfg)
    (lines : list (option json)) (s : stats) :
  analyze_k6_json_with_timeline py_str config (Some lines) = Stats s ->
  Spec.distinct_keys (Spec.stats_entries s)
  /\ Forall (fun kd => Py.hashable (fst kd) = true /\ Py.truthy (fst kd) = true)
            (st_endpoint_stats s).
Proof.
  intros Ha.
  destruct (analyze_stats_sound _ _ _ _ Ha) as (a & _ & _ & [Hes Hd _ _ _] & _ & ->).
  rewrite stats_entries_finalize. split; [exact Hd|].
  cbn [finalize st_endpoint_stats]. apply List.Forall_map.
  eapply List.Forall_impl; [|exact Hes].
  intros [k d] (Hh & Ht & _). split; assumption.
Qed.

Lemma endpoints_are_distinct_and_labelled_witness :
  exists s,
    analyze_k6_json_with_timeline Spec.py_str_unused [] (Some Spec.mixed_stream) = Stats s
    /\ map fst (st_endpoint_stats s) = [JStr "X"; JStr "Y"]
    /\ Spec.distinct_keys (Spec.stats_entries s).
Proof.
  assert (H : exists s,
             analyze_k6_json_with_timeline Spec.py_str_unused []
               (Some Spec.mixed_stream) = Stats s
             /\ map fst (st_endpoint_stats s) = [JStr "X"; JStr "Y"]).
  { eexists. split; [vm_compute; reflexivity|]. reflexivity. }
  destruct H as (s & Ha & Hk). exists s.
  split; [exact Ha|]. split; [exact Hk|].
  exact (proj1 (endpoints_are_distinct_and_labelled _ _ _ _ Ha)).
Defined.

(** X5.  The table of the report has one row for every endpoint of the
    statistics, in their order: the test [count > 0] never drops one. *)
Theorem every_endpoint_has_a_row
    (py_str : json -> string) (config : list endpoint_cfg)
    (lines : list (option json)) (s : stats) :
  analyze_k6_json_with_timeline py_str config (Some lines) = Stats s ->
  endpoint_rows py_str s = map (endpoint_row py_str) (st_endpoint_stats s).
Proof.
  intros Ha.
  destruct (analyze_stats_sound _ _ _ _ Ha) as (a & _ & _ & [Hes _ _ _ _] & _ & ->).
  unfold endpoint_rows. f_equal.
  cbn [finalize st_endpoint_stats].
  induction Hes as [|[k d] r (_ & _ & _ & _ & H1 & _) Hr IH]; [reflexivity|].
  cbn [map List.filter fst snd]. rewrite finalize_entry_data.
  cbn [fst snd] in H1.
  destruct (Nat.ltb_spec 0 (count d)) as [_|Hn]; [|lia].
  f_equal. exact IH.
Qed.

Lemma every_endpoint_has_a_row_witness :
  exists s,
    analyze_k6_json_with_timeline Spec.py_str_unused [] (Some Spec.mixed_stream) = Stats s
    /\ map row_endpoint (endpoint_rows Spec.py_str_unused s) = [JStr "X"; JStr "Y"].
Proof.
  assert (H : exists s,
             analyze_k6_json_with_timeline Spec.py_str_unused []
               (Some Spec.mixed_stream) = Stats s
             /\ map row_endpoint (map (endpoint_row Spec.py_str_unused) (st_endpoint_stats s))
                = [JStr "X"; JStr "Y"]).
  { eexists. split; [vm_compute; reflexivity|]. reflexivity. }
  destruct H as (s & Ha & Hk). exists s. split; [exact Ha|].
  now rewrite (every_endpoint_has_a_row _ _ _ _ Ha).
Defined.

(** X6.  The timeline of the statistics has one point for every request of
    the total, which is at least one; every point carries a dict of tags and
    a positive response time; and the error rate lies between 0 and 100. *)
Theorem timeline_has_a_point_per_request
    (py_str : json -> string) (config : list endpoint_cfg)
    (lines : list (option json)) (s : stats) :
  analyze_k6_json_with_timeline py_str config (Some lines) = Stats s ->
  length (st_timeline_data s) = st_total_requests s
  /\ 1 <= st_total_requests s
  /\ Forall (fun p => Spec.is_dict (tp_tags p) = true /\ (0 < tp_response_time p)%Q)
            (st_timeline_data s)
  /\ (0 <= st_error_rate s <= 100)%Q.
Proof.
  intros Ha.
  destruct (analyze_stats_sound _ _ _ _ Ha)
    as (a & _ & [_ He Hs Ht] & [Hes _ _ Hl Hp] & Hne & ->).
  cbn [finalize st_timeline_data st_total_requests st_error_rate].
  assert (H1 : 1 <= total_requests a).
  { rewrite Ht. destruct (all_response_times a); [congruence|simpl; lia]. }
  split; [exact Hl|]. split; [exact H1|]. split; [exact Hp|].
  destruct (Nat.ltb_spec 0 (total_requests a)) as [_|Hn]; [|lia].
  pose proof (sum_errors_le_counts _ Hes).
  unfold Q_of_nat. apply ratio_bounds; lia.
Qed.

Lemma timeline_has_a_point_per_request_witness :
  exists s,
    analyze_k6_json_with_timeline Spec.py_str_unused [] (Some Spec.mixed_stream) = Stats s
    /\ st_total_requests s = 5
    /\ length (st_timeline_data s) = 5.
Proof.
  assert (H : exists s,
             analyze_k6_json_with_timeline Spec.py_str_unused []
               (Some Spec.mixed_stream) = Stats s
             /\ st_total_requests s = 5).
  { eexists. split; [vm_compute; reflexivity|]. reflexivity. }
  destruct H as (s & Ha & Ht). exists s.
  split; [exact Ha|]. split; [exact Ht|].
  rewrite <- Ht. exact (proj1 (timeline_has_a_point_per_request _ _ _ _ Ha)).
Defined.

(** ** Streams on which the analyzer does not raise *)

Section K6Lines.

Variable py_str : json -> string.
Variable config : list endpoint_cfg.




End K6Lines.

Lemma collect_app (py_str : json -> string) (config : list endpoint_cfg)
    (l1 l2 : list (option json)) (a0 : acc) :
  collect py_str config (l1 ++ l2) a0
  = match collect py_str config l1 a0 with
    | Ok a => collect py_str config l2 a
    | Raise e => Raise e
    end.
Proof.
  revert a0. induction l1 as [|line rest IH]; intros a0; simpl; [reflexivity|].
  destruct (process_line py_str config line a0) as [a' [[]|e]]; [apply IH|].
  destruct (caught e); [apply IH|reflexivity].
Qed.



(** X8.  A vus or duration point without the key [data] ends the analysis
    with [KeyError], whatever the lines behind it are: when the lines before
    it raise nothing, the whole stream gives no statistics. *)
Theorem point_without_data_aborts
    (py_str : json -> string) (config : list endpoint_cfg)
    (before behind : list (option json)) (d : list (string * json)) (a : acc) :
  collect py_str config before init = Ok a ->
  Spec.is_point d "vus" || Spec.is_point d "http_req_duration" = true ->
  Py.lookup_item "data" d = None ->
  analyze_k6_json_with_timeline py_str config
    (Some (before ++ Some (JObj d) :: behind)) = Raised KeyError.
Proof.
  intros Hc Hp Hd. unfold analyze_k6_json_with_timeline.
  rewrite collect_app, Hc. cbn [collect].
  assert (Hs : snd (process_line py_str config (Some (JObj d)) a) = Raise KeyError).
  { unfold process_line, with_entry, mbind, M_bind, bind, lift,
      modify, mret, M_ret, ret, raise, Py.subscript. cbn beta iota.
    unfold Spec.is_point in Hp. rewrite Hd.
    destruct (Py.eq_str (Py.get d "type" JNull) "Point"
              && Py.eq_str (Py.get d "metric" JNull) "vus"); [reflexivity|].
    simpl in Hp. rewrite Hp. reflexivity. }
  destruct (process_line py_str config (Some (JObj d)) a) as [a' r].
  simpl in Hs. subst r. reflexivity.
Qed.

Lemma point_without_data_aborts_witness :
  analyze_k6_json_with_timeline Spec.py_str_unused []
    (Some (Spec.scenario_a ++ Spec.vus_without_data :: Spec.scenario_a))
  = Raised KeyError.
Proof.
  assert (H : exists a, collect Spec.py_str_unused [] Spec.scenario_a init = Ok a).
  { eexists. vm_compute. reflexivity. }
  destruct H as [a Hc].
  apply (point_without_data_aborts Spec.py_str_unused [] Spec.scenario_a
           Spec.scenario_a _ a Hc); reflexivity.
Defined.

(** ** The order of the statistics *)

Lemma fold_min_spec (t : list Q) (x : Q) :
  let m := fold_left (fun m y => if Py.Qltb y m then y else m) t x in
  (m = x \/ In m t) /\ (m <= x)%Q /\ Forall (fun y => (m <= y)%Q) t.
Proof.
  revert x. induction t as [|y t IH]; intros x; simpl.
  - split; [now left|]. split; [apply Qle_refl|constructor].
  - destruct (IH (if Py.Qltb y x then y else x)) as (Hin & Hle & Hall).
    destruct (Py.Qltb y x) eqn:E.
    + apply Qltb_true_lt in E. split; [|split].
      * destruct Hin as [->|Hin]; [right; now left|right; now right].
      * eapply Qle_trans; [exact Hle|apply Qlt_le_weak, E].
      * constructor; assumption.
    + apply Qltb_false_le in E. split; [|split].
      * destruct Hin as [->|Hin]; [now left|right; now right].
      * exact Hle.
      * constructor; [eapply Qle_trans; eassumption|assumption].
Qed.

Lemma py_min_is_min (l : list Q) :
  l <> [] -> In (Py.min l) l /\ Forall (fun x => (Py.min l <= x)%Q) l.
Proof.
  destruct l as [|x t]; [congruence|]. intros _.
  destruct (fold_min_spec t x) as (Hin & Hle & Hall).
  unfold Py.min. split.
  - destruct Hin as [->|Hin]; [now left|now right].
  - constructor; assumption.
Qed.

Lemma Qltb_asym (x y : Q) : Py.Qltb x y = true -> Py.Qltb y x = false.
Proof.
  intros H. apply Qltb_true_lt in H.
  destruct (Py.Qltb y x) eqn:E; [|reflexivity].
  apply Qltb_true_lt in E. exfalso.
  exact (Qlt_irrefl _ (Qlt_trans _ _ _ H E)).
Qed.

Lemma sorted_Qle (l : list Q) : StronglySorted Qle (Py.sorted l).
Proof.
  apply Sorted_StronglySorted; [intros x y z; apply Qle_trans|].
  pose proof (sorted_by_sorted Py.Qltb Qltb_asym l) as H.
  unfold Py.sorted. induction H as [|x t Ht IH Hhd]; constructor; [exact IH|].
  destruct Hhd as [|y t' Hxy]; constructor. now apply Qltb_false_le.
Qed.

Lemma StronglySorted_nth (l : list Q) :
  StronglySorted Qle l ->
  forall i j, i <= j -> j < length l -> (nth i l 0 <= nth j l 0)%Q.
Proof.
  induction 1 as [|x t Ht IH Hall]; intros i j Hij Hj; cbn [length] in Hj; [lia|].
  destruct i as [|i], j as [|j]; cbn [nth]; try lia.
  - apply Qle_refl.
  - rewrite List.Forall_forall in Hall. apply Hall. apply nth_In. lia.
  - apply IH; lia.
Qed.

Lemma sorted_nth_le (l : list Q) (i j : nat) :
  i <= j -> j < length l ->
  (nth i (Py.sorted l) 0 <= nth j (Py.sorted l) 0)%Q.
Proof.
  intros Hij Hj. apply StronglySorted_nth; [apply sorted_Qle|exact Hij|].
  unfold Py.sorted. now rewrite sorted_by_length.
Qed.

Lemma sorted_nth_in (l : list Q) (i : nat) :
  i < length l -> In (nth i (Py.sorted l) 0%Q) l.
Proof.
  intros Hi. eapply Permutation_in.
  - apply Permutation_sym. apply (sorted_by_perm Py.Qltb l).
  - apply nth_In. fold (Py.sorted l). unfold Py.sorted. now rewrite sorted_by_length.
Qed.

Lemma sorted_nth_bounds (l : list Q) (i : nat) :
  i < length l ->
  (Py.min l <= nth i (Py.sorted l) 0)%Q /\ (nth i (Py.sorted l) 0 <= Py.max l)%Q.
Proof.
  intros Hi. assert (Hne : l <> []) by (destruct l; [simpl in Hi; lia|discriminate]).
  pose proof (sorted_nth_in l i Hi) as Hin.
  destruct (py_min_is_min l Hne) as [_ Hmin].
  destruct (py_max_is_max l Hne) as [_ Hmax].
  rewrite List.Forall_forall in Hmin, Hmax. split; auto.
Qed.

Lemma median_bounds (l : list Q) :
  l <> [] ->
  (nth ((length l - 1) / 2) (Py.sorted l) 0 <= Statistics.median l)%Q
  /\ (Statistics.median l <= nth (length l / 2) (Py.sorted l) 0)%Q.
Proof.
  intros Hne. assert (Hl : 1 <= length l) by (destruct l; [congruence|simpl; lia]).
  unfold Statistics.median.
  assert (Hlen : length (Py.sorted l) = length l)
    by (unfold Py.sorted; apply sorted_by_length).
  rewrite Hlen.
  destruct (Nat.odd (length l)) eqn:Eo.
  - apply Nat.odd_spec in Eo. destruct Eo as [m Hm].
    replace ((length l - 1) / 2) with (length l / 2) by lia.
    split; apply Qle_refl.
  - assert (He : Nat.even (length l) = true)
      by (rewrite <- Nat.negb_odd, Eo; reflexivity).
    apply Nat.even_spec in He. destruct He as [m Hm].
    replace ((length l - 1) / 2) with (length l / 2 - 1) by lia.
    pose proof (sorted_nth_le l (length l / 2 - 1) (length l / 2)) as Hle.
    assert (H1 : length l / 2 - 1 <= length l / 2) by lia.
    assert (H2 : length l / 2 < length l) by lia.
    specialize (Hle H1 H2).
    set (x := nth (length l / 2 - 1) (Py.sorted l) 0%Q) in *.
    set (y := nth (length l / 2) (Py.sorted l) 0%Q) in *.
    split.
    + apply Qle_shift_div_l; [reflexivity|]. lra.
    + apply Qle_shift_div_r; [reflexivity|]. lra.
Qed.

Lemma sum_bounds (lo hi : Q) (l : list Q) (acc : Q) :
  Forall (fun x => (lo <= x)%Q /\ (x <= hi)%Q) l ->
  (acc + inject_Z (Z.of_nat (length l)) * lo <= fold_left Qplus l acc)%Q
  /\ (fold_left Qplus l acc <= acc + inject_Z (Z.of_nat (length l)) * hi)%Q.
Proof.
  intros H. revert acc. induction H as [|x t [Hlo Hhi] Ht IH]; intros acc.
  - cbn [fold_left length]. change (inject_Z (Z.of_nat 0)) with 0%Q. split; lra.
  - cbn [fold_left length]. destruct (IH (acc + x)%Q) as [I1 I2].
    rewrite Nat2Z.inj_succ. unfold Z.succ. rewrite inject_Z_plus.
    change (inject_Z 1) with 1%Q.
    split; [eapply Qle_trans; [|exact I1]|eapply Qle_trans; [exact I2|]]; lra.
Qed.

Lemma mean_bounds (l : list Q) :
  l <> [] ->
  (Py.min l <= Statistics.mean l)%Q /\ (Statistics.mean l <= Py.max l)%Q.
Proof.
  intros Hne. assert (Hl : 1 <= length l) by (destruct l; [congruence|simpl; lia]).
  destruct (py_min_is_min l Hne) as [_ Hmin].
  destruct (py_max_is_max l Hne) as [_ Hmax].
  assert (Hall : Forall (fun x => (Py.min l <= x)%Q /\ (x <= Py.max l)%Q) l).
  { rewrite List.Forall_forall in *. intros x Hx. split; auto. }
  destruct (sum_bounds _ _ l 0%Q Hall) as [S1 S2].
  assert (Qn : (0 < inject_Z (Z.of_nat (length l)))%Q) by (unfold Qlt; simpl; lia).
  unfold Statistics.mean, Py.sum. split.
  - apply Qle_shift_div_l; [exact Qn|]. lra.
  - apply Qle_shift_div_r; [exact Qn|]. lra.
Qed.

(** X9.  For response times up to 2^53, where every integer of the file is
    a float as well, the statistics of every stream are ordered: the
    minimum is positive, and the median and the average lie between the
    minimum and the maximum. *)
Theorem statistics_are_ordered
    (py_str : json -> string) (config : list endpoint_cfg)
    (lines : list (option json)) (s : stats) :
  analyze_k6_json_with_timeline py_str config (Some lines) = Stats s ->
  (st_max_response_time s <= 9007199254740992)%Q ->
  (0 < st_min_response_time s)%Q
  /\ (st_min_response_time s <= st_p50_response_time s)%Q
  /\ (st_p50_response_time s <= st_max_response_time s)%Q
  /\ (st_min_response_time s <= st_avg_response_time s)%Q
  /\ (st_avg_response_time s <= st_max_response_time s)%Q.
Proof.
  intros Ha _.
  destruct (analyze_stats_sound _ _ _ _ Ha) as (a & _ & _ & [_ _ Hpos _ _] & Hne & ->).
  cbn [finalize st_min_response_time st_p50_response_time
       st_max_response_time st_avg_response_time].
  set (l := all_response_times a) in *.
  assert (Hl : 1 <= length l) by (destruct l; [congruence|simpl; lia]).
  destruct (py_min_is_min l Hne) as [Hin _].
  destruct (median_bounds l Hne) as [Hm1 Hm2].
  destruct (mean_bounds l Hne) as [M1 M2].
  rewrite List.Forall_forall in Hpos.
  split; [now apply Hpos|].
  split; [eapply Qle_trans; [|exact Hm1]; apply sorted_nth_bounds; lia|].
  split; [eapply Qle_trans; [exact Hm2|]; apply sorted_nth_bounds; lia|].
  split; assumption.
Qed.

Lemma statistics_are_ordered_witness :
  exists s,
    analyze_k6_json_with_timeline Spec.py_str_unused [] (Some Spec.mixed_stream) = Stats s
    /\ (st_min_response_time s == 100)%Q
    /\ (st_max_response_time s == 300)%Q
    /\ (100 <= st_p50_response_time s)%Q
    /\ (st_avg_response_time s <= 300)%Q.
Proof.
  assert (H : exists s,
             analyze_k6_json_with_timeline Spec.py_str_unused []
               (Some Spec.mixed_stream) = Stats s
             /\ (st_min_response_time s == 100)%Q
             /\ (st_max_response_time s == 300)%Q).
  { eexists. split; [vm_compute; reflexivity|]. split; reflexivity. }
  destruct H as (s & Ha & Hmin & Hmax). exists s.
  assert (Hb : (st_max_response_time s <= 9007199254740992)%Q)
    by (rewrite Hmax; discriminate).
  destruct (statistics_are_ordered _ _ _ _ Ha Hb) as (_ & H1 & _ & _ & H4).
  split; [exact Ha|]. split; [exact Hmin|]. split; [exact Hmax|].
  split; [now rewrite <- Hmin|now rewrite <- Hmax].
Defined.

(** ** The range of the error rates of the timeline *)

Lemma round2_bounds (x : Q) :
  (0 <= x)%Q -> (x <= 100)%Q -> (0 <= Py.round2 x)%Q /\ (Py.round2 x <= 100)%Q.
Proof.
  intros H0 H100. unfold Py.round2.
  set (y := (x * 100)%Q).
  assert (Hy0 : (inject_Z 0 <= y)%Q) by (subst y; change (inject_Z 0) with 0%Q; lra).
  assert (Hy1 : (y <= inject_Z 10000)%Q)
    by (subst y; change (inject_Z 10000) with 10000%Q; lra).
  pose proof (Qfloor_resp_le _ _ Hy0) as F0. rewrite Qfloor_Z in F0.
  pose proof (Qfloor_resp_le _ _ Hy1) as F1. rewrite Qfloor_Z in F1.
  pose proof (Qfloor_le y) as Fle.
  set (f := Qfloor y) in *.
  assert (Hup : (0 < y - inject_Z f)%Q -> (f + 1 <= 10000)%Z).
  { intros Hfrac. destruct (Z.eq_dec f 10000%Z) as [E|E]; [|lia].
    exfalso. rewrite E in Hfrac. lra. }
  assert (Hz : forall z : Z, (0 <= z <= 10000)%Z ->
            (0 <= inject_Z z / 100)%Q /\ (inject_Z z / 100 <= 100)%Q).
  { intros z [Z0 Z1].
    assert (Q0 : (0 <= inject_Z z)%Q) by (unfold Qle; simpl; lia).
    assert (Q1 : (inject_Z z <= 10000)%Q) by (unfold Qle; simpl; lia).
    split; [apply Qle_shift_div_l|apply Qle_shift_div_r]; try reflexivity; lra. }
  apply Hz.
  destruct (Py.Qltb (1 # 2) (y - inject_Z f)) eqn:E1.
  - apply Qltb_true_lt in E1. split; [lia|]. apply Hup. lra.
  - destruct (Py.Qltb (y - inject_Z f) (1 # 2)) eqn:E2; [lia|].
    apply Qltb_false_le in E2.
    destruct (Z.odd f); [|lia]. split; [lia|]. apply Hup. lra.
Qed.

Lemma count_errors_le (w : list timeline_point) (n : nat) :
  count_errors w = Some n -> n <= length w.
Proof.
  revert n. induction w as [|d rest IH]; simpl; intros n H.
  - injection H as <-. lia.
  - destruct (is_error_point d) as [b|]; [|discriminate].
    destruct (count_errors rest) as [m|]; [|discriminate].
    injection H as <-. specialize (IH m eq_refl). destruct b; lia.
Qed.

Lemma window_error_rate_bounds (full : list timeline_point) (i : nat) (r : Q) :
  window_error_rate full i = Some r -> (0 <= r)%Q /\ (r <= 100)%Q.
Proof.
  unfold window_error_rate.
  set (w := slice _ _ full).
  destruct (count_errors w) as [n|] eqn:E; [|discriminate].
  apply count_errors_le in E. intros H. injection H as <-.
  destruct (Nat.ltb_spec 0 (length w)) as [Hpos|_].
  - apply round2_bounds; apply ratio_bounds; lia.
  - apply round2_bounds; [apply Qle_refl|discriminate].
Qed.

Lemma error_rates_from_bounds (full rest : list timeline_point) (i : nat) (rs : list Q) :
  error_rates_from full i rest = Some rs ->
  Forall (fun r => (0 <= r)%Q /\ (r <= 100)%Q) rs.
Proof.
  revert i rs. induction rest as [|p rest IH]; intros i rs H;
    cbn [error_rates_from] in H.
  - injection H as <-. constructor.
  - destruct (i mod 5 =? 0).
    + destruct (window_error_rate full i) as [r|] eqn:Er; [|discriminate].
      destruct (error_rates_from full (S i) rest) as [rs'|] eqn:E; [|discriminate].
      injection H as <-. constructor.
      * exact (window_error_rate_bounds _ _ _ Er).
      * exact (IH _ _ E).
    + exact (IH _ _ H).
Qed.

(** X11.  When the timeline chart of the report is computed, it has one
    error rate for every fifth point of the timeline, and each of them lies
    between 0 and 100. *)
Theorem timeline_error_rates_in_range (tl : list timeline_point) (rs : list Q) :
  error_rates tl = Some rs ->
  length rs = (length tl + 4) / 5
  /\ Forall (fun r => (0 <= r)%Q /\ (r <= 100)%Q) rs.
Proof.
  unfold error_rates, sorted_timeline.
  destruct (forallb _ tl); [|discriminate]. intros H.
  split.
  - destruct (error_rates_from_index _ _ _ _ H) as [Hlen _].
    rewrite Hlen, sorted_by_length. lia.
  - exact (error_rates_from_bounds _ _ _ _ H).
Qed.

Lemma timeline_error_rates_in_range_witness :
  exists rs,
    error_rates Spec.one_in_three_timeline = Some rs
    /\ length rs = (length Spec.one_in_three_timeline + 4) / 5.
Proof.
  assert (H : exists rs, error_rates Spec.one_in_three_timeline = Some rs).
  { eexists. vm_compute. reflexivity. }
  destruct H as [rs H]. exists rs. split; [exact H|].
  exact (proj1 (timeline_error_rates_in_range _ _ H)).
Defined.

(** ** The end of a run, and the routes that read its entry *)

Ltac env_cases :=
  repeat (cbn -[String.eqb];
          match goal with
          | |- context [match ?o with Returns _ => _ | Throws _ => _ | TimesOut _ => _ end] =>
              is_var o; destruct o
          | |- context [let '(_, _) := ?p in _] => is_var p; destruct p
          | |- context [(?x =? ?y)%Z] => is_var x; destruct (x =? y)%Z
          | |- context [match ?l with [] => _ | _ :: _ => _ end] => is_var l; destruct l
          end).

Lemma k6_final_status (custom_stages : option (list stage)) (env : k6_env) :
  (Spec.last_write "status" (run_k6_test custom_stages env) = Some (VStr "completed")
   /\ Spec.k6_succeeds env = true)
  \/ (Spec.last_write "status" (run_k6_test custom_stages env) = Some (VStr "failed")
      /\ is_Some (Spec.last_write "error" (run_k6_test custom_stages env))
      /\ Spec.k6_succeeds env = false).
Proof.
  unfold run_k6_test, k6_body, Spec.k6_succeeds.
  pose proof (output_loop_loop_writes (total_stages_of custom_stages)
                (k6_output env) tracker_init) as Hl.
  destruct (output_loop _ _ _) as [t ws]. cbn [snd] in Hl.
  assert (Hs : Spec.last_write "status" ws = None)
    by (apply loop_writes_last; [exact Hl|reflexivity]).
  assert (He : Spec.last_write "error" ws = None)
    by (apply loop_writes_last; [exact Hl|reflexivity]).
  unfold mbind, W_bind, w_bind, put, emit, call, returned, handlers.
  destruct env as [prep popen out wait report listing move]. cbn.
  env_cases; cbn; rewrite ?last_write_app, ?Hs, ?He; cbn;
    first [left; split; reflexivity
          | right; split; [reflexivity|split; [eexists; reflexivity|reflexivity]]].
Qed.



Lemma k6_final_files (custom_stages : option (list stage)) (env : k6_env) :
  match Spec.k6_reports env with
  | Some (f, name) =>
      Spec.k6_succeeds env = true
      /\ Spec.last_write "report_file" (run_k6_test custom_stages env) = Some (VStr f)
      /\ Spec.last_write "summary_file" (run_k6_test custom_stages env)
         = Some (VStr (name +:+ "_summary.json"))
      /\ Spec.last_write "detailed_file" (run_k6_test custom_stages env)
         = Some (VStr (name +:+ "_detailed.json"))
  | None => Spec.k6_succeeds env = false
  end.
Proof.
  unfold run_k6_test, k6_body, Spec.k6_reports, Spec.k6_succeeds.
  pose proof (output_loop_loop_writes (total_stages_of custom_stages)
                (k6_output env) tracker_init) as Hl.
  destruct (output_loop _ _ _) as [t ws]. cbn [snd] in Hl.
  unfold mbind, W_bind, w_bind, put, emit, call, returned, handlers.
  destruct env as [prep popen out wait report listing move]. cbn.
  env_cases; cbn; rewrite ?last_write_app; cbn; repeat split; reflexivity.
Qed.

Lemma rate_report_other_keys (env : rate_env) (key : string) :
  key <> "report_file" -> key <> "report_error" ->
  Spec.last_write key (rate_report_writes env) = None.
Proof.
  intros H1 H2.
  assert (E1 : String.eqb "report_file" key = false) by (apply String.eqb_neq; congruence).
  assert (E2 : String.eqb "report_error" key = false) by (apply String.eqb_neq; congruence).
  unfold rate_report_writes.
  destruct (rate_report env) as [[[rc out] err]|msg|msg];
    [destruct (negb (rc =? 0)%Z);
     [|destruct (rate_listing env) as [[[[|f fs] a] r]|msg|msg]]|..];
    cbn [Spec.last_write fst snd]; rewrite ?E1, ?E2; reflexivity.
Qed.

Lemma rate_report_file (env : rate_env) :
  Spec.last_write "report_file" (rate_report_writes env)
  = VStr <$> Spec.rate_reports env.
Proof.
  unfold rate_report_writes, Spec.rate_reports.
  destruct (rate_report env) as [[[rc out] err]|msg|msg];
    [destruct (rc =? 0)%Z;
     [destruct (rate_listing env) as [[[[|f fs] a] r]|msg|msg]|]|..];
    reflexivity.
Qed.


Ltac rate_start cfg env ws Hl rw :=
  unfold run_simple_rate_control_test, rate_body;
  pose proof (rate_loop_writes cfg (rate_output env)) as Hl;
  generalize dependent (concat (map (rate_line_step cfg) (rate_output env)));
  intros ws Hl;
  generalize dependent (rate_report_writes env); intros rw.

Lemma rate_final_status (cfg : rate_config) (env : rate_env) :
  (Spec.last_write "status" (run_simple_rate_control_test cfg env)
   = Some (VStr "completed")
   /\ Spec.rate_succeeds env = true)
  \/ (Spec.last_write "status" (run_simple_rate_control_test cfg env)
      = Some (VStr "failed")
      /\ is_Some (Spec.last_write "error" (run_simple_rate_control_test cfg env))
      /\ Spec.rate_succeeds env = false).
Proof.
  pose proof (rate_report_other_keys env "status") as Hr1.
  pose proof (rate_report_other_keys env "error") as Hr2.
  unfold Spec.rate_succeeds.
  rate_start cfg env ws Hl rw. intros Hr1 Hr2.
  specialize (Hr1 ltac:(discriminate) ltac:(discriminate)).
  specialize (Hr2 ltac:(discriminate) ltac:(discriminate)).
  assert (Hs : Spec.last_write "status" ws = None)
    by (apply loop_writes_last; [exact Hl|reflexivity]).
  assert (He : Spec.last_write "error" ws = None)
    by (apply loop_writes_last; [exact Hl|reflexivity]).
  unfold mbind, W_bind, w_bind, put, emit, call, returned, handlers.
  destruct env as [prep popen out wait report listing move]. cbn.
  env_cases; cbn; rewrite ?app_nil_r, <- ?app_assoc; cbn [app Spec.last_write];
    rewrite ?last_write_app, ?Hs, ?He, ?Hr1, ?Hr2; cbn;
    rewrite ?last_write_app, ?Hs, ?He, ?Hr1, ?Hr2; cbn;
    first [left; split; reflexivity
          | right; split; [reflexivity|split; [eexists; reflexivity|reflexivity]]].
Qed.

Lemma rate_never_writes (cfg : rate_config) (env : rate_env) (key : string) :
  Spec.loop_key key = false ->
  key <> "status" -> key <> "error" -> key <> "report_file" -> key <> "report_error" ->
  Spec.last_write key (run_simple_rate_control_test cfg env) = None.
Proof.
  intros Hk N1 N2 N3 N4.
  pose proof (rate_report_other_keys env key N3 N4) as Hr.
  assert (E1 : String.eqb "status" key = false) by (apply String.eqb_neq; congruence).
  assert (E2 : String.eqb "error" key = false) by (apply String.eqb_neq; congruence).
  assert (E3 : String.eqb "stage" key = false).
  { apply String.eqb_neq. intros <-. discriminate Hk. }
  rate_start cfg env ws Hl rw. intros Hr.
  assert (Hs : Spec.last_write key ws = None)
    by (apply loop_writes_last; [exact Hl|exact Hk]).
  unfold mbind, W_bind, w_bind, put, emit, call, returned, handlers.
  destruct env as [prep popen out wait report listing move].
  cbn [rate_prepare rate_popen rate_output rate_wait rate_move].
  env_cases; cbn -[String.eqb]; rewrite ?app_nil_r, <- ?app_assoc;
    cbn [app Spec.last_write fst snd];
    repeat first [ progress rewrite ?last_write_app, ?Hs, ?Hr, ?E1, ?E2, ?E3
                 | progress cbn [Spec.last_write fst snd] ];
    reflexivity.
Qed.

Lemma rate_report_file_written (cfg : rate_config) (env : rate_env) :
  Spec.rate_succeeds env = true ->
  Spec.last_write "report_file" (run_simple_rate_control_test cfg env)
  = VStr <$> Spec.rate_reports env.
Proof.
  rewrite <- rate_report_file. unfold Spec.rate_succeeds.
  rate_start cfg env ws Hl rw.
  assert (Hs : Spec.last_write "report_file" ws = None)
    by (apply loop_writes_last; [exact Hl|reflexivity]).
  unfold mbind, W_bind, w_bind, put, emit, call, returned, handlers.
  destruct env as [prep popen out wait report listing move]. cbn.
  env_cases; cbn; try discriminate; intros _;
    rewrite ?app_nil_r, <- ?app_assoc; cbn [app Spec.last_write];
    rewrite ?last_write_app, ?Hs; cbn; now destruct (Spec.last_write "report_file" rw).
Qed.


Lemma final_lookup (run : list write) (entry0 : gmap string val) (key : string) (v : val) :
  Spec.last_write key run = Some v -> apply_writes entry0 run !! key = Some v.
Proof. intros H. now rewrite apply_writes_lookup, H. Qed.

Lemma final_lookup_none (run : list write) (entry0 : gmap string val) (key : string) :
  Spec.last_write key run = None ->
  apply_writes entry0 run !! key = entry0 !! key.
Proof. intros H. now rewrite apply_writes_lookup, H. Qed.

(** X12.  Whatever happens around a run of [run_k6_test], the entry ends
    with the status "completed" or "failed", never "queued" or "running".
    It is "completed" exactly when the preparation, the process, the report
    generator, the listing and the move of the results all succeed with an
    exit code 0 or 99; otherwise it is "failed" and the entry holds an
    [error]. *)
Theorem k6_run_ends_completed_or_failed
    (custom_stages : option (list stage)) (env : k6_env) (entry0 : gmap string val) :
  let final := apply_writes entry0 (run_k6_test custom_stages env) in
  (final !! "status" = Some (VStr "completed") /\ Spec.k6_succeeds env = true)
  \/ (final !! "status" = Some (VStr "failed")
      /\ is_Some (final !! "error")
      /\ Spec.k6_succeeds env = false).
Proof.
  intros final. subst final.
  destruct (k6_final_status custom_stages env) as [[Hs Hk]|(Hs & He & Hk)].
  - left. split; [now apply final_lookup|exact Hk].
  - right. split; [now apply final_lookup|].
    split; [now apply final_lookup_some|exact Hk].
Qed.

(** X13.  A run of [run_simple_rate_control_test] ends with the status
    "completed" exactly when the process starts, exits with code 0 or 99 and
    the results are moved, whether the report is generated or not; otherwise
    the status is "failed" and the entry holds an [error]. *)
Theorem rate_run_ends_completed_or_failed
    (cfg : rate_config) (env : rate_env) (entry0 : gmap string val) :
  let final := apply_writes entry0 (run_simple_rate_control_test cfg env) in
  (final !! "status" = Some (VStr "completed") /\ Spec.rate_succeeds env = true)
  \/ (final !! "status" = Some (VStr "failed")
      /\ is_Some (final !! "error")
      /\ Spec.rate_succeeds env = false).
Proof.
  intros final. subst final.
  destruct (rate_final_status cfg env) as [[Hs Hk]|(Hs & He & Hk)].
  - left. split; [now apply final_lookup|exact Hk].
  - right. split; [now apply final_lookup|].
    split; [now apply final_lookup_some|exact Hk].
Qed.



(** X15.  After a run of [run_k6_test] none of the three download routes
    raises before it reaches [send_from_directory]; in particular none
    raises [KeyError].  When the run succeeded they call it with the first
    HTML file of the listing and with the two result names made of the test
    id and the test name; otherwise they redirect to the index.  Whether
    [send_from_directory] finds the file is not part of the statement. *)
Theorem routes_reach_send_after_k6_run
    (custom_stages : option (list stage)) (env : k6_env) (entry0 : gmap string val)
    (test_status : gmap string (gmap string val)) (test_id file_type : string) :
  test_status !! test_id = Some (apply_writes entry0 (run_k6_test custom_stages env)) ->
  (forall e, download_report test_status test_id <> Fails e)
  /\ (forall e, view_report test_status test_id <> Fails e)
  /\ (forall e, download_results test_status test_id file_type <> Fails e)
  /\ match Spec.k6_reports env with
     | Some (report, test_name) =>
         download_report test_status test_id = SendFile ReportsFolder (VStr report) true
         /\ view_report test_status test_id = SendFile ReportsFolder (VStr report) false
         /\ download_results test_status test_id "summary"
            = SendFile ResultsFolder
                (VStr (test_id +:+ "_" +:+ test_name +:+ "_summary.json")) true
         /\ download_results test_status test_id "detailed"
            = SendFile ResultsFolder
                (VStr (test_id +:+ "_" +:+ test_name +:+ "_detailed.json")) true
     | None =>
         download_report test_status test_id = ToIndex "Report not available"
         /\ view_report test_status test_id = ToIndex "Report not available"
         /\ download_results test_status test_id file_type
            = ToIndex "Results not available"
     end.
Proof.
  intros Hts.
  pose proof (k6_final_files custom_stages env) as Hf.
  unfold download_report, view_report, download_results, completed. rewrite Hts.
  destruct (k6_final_status custom_stages env) as [[Hs Hk]|(Hs & He & Hk)];
    rewrite (final_lookup _ entry0 _ _ Hs); cbn [String.eqb Ascii.eqb Bool.eqb].
  - destruct (Spec.k6_reports env) as [[report name]|]; [|congruence].
    destruct Hf as (_ & Hr & Hsum & Hdet).
    rewrite (final_lookup _ entry0 _ _ Hr), (final_lookup _ entry0 _ _ Hsum),
      (final_lookup _ entry0 _ _ Hdet).
    change (String.eqb "completed" "completed") with true. cbn iota.
    split; [discriminate|]. split; [discriminate|]. split; [|repeat split].
    intros e. destruct (String.eqb file_type "summary"); [discriminate|].
    destruct (String.eqb file_type "detailed"); discriminate.
  - destruct (Spec.k6_reports env) as [[report name]|]; [destruct Hf; congruence|].
    change (String.eqb "failed" "completed") with false. cbn iota.
    split; [discriminate|]. split; [discriminate|]. split; [discriminate|].
    repeat split.
Qed.

Lemma routes_reach_send_after_k6_run_witness :
  download_report
    {[ "t1" := apply_writes Spec.fresh_entry (run_k6_test None Spec.smooth_k6_env) ]}
    "t1"
  = SendFile ReportsFolder (VStr "load.html") true.
Proof.
  assert (H : ({[ "t1" := apply_writes Spec.fresh_entry
                            (run_k6_test None Spec.smooth_k6_env) ]}
               : gmap string (gmap string val)) !! "t1"
              = Some (apply_writes Spec.fresh_entry (run_k6_test None Spec.smooth_k6_env)))
    by apply lookup_singleton_eq.
  exact (proj1 (proj2 (proj2 (proj2 (routes_reach_send_after_k6_run None
                         Spec.smooth_k6_env Spec.fresh_entry _ "t1" "summary" H))))).
Defined.

(** X16.  After a rate-control run that ends "completed", on an entry that
    held no file names before, the route [download_results] raises
    [KeyError] for both file types, because the run never stores
    [summary_file] or [detailed_file]; [download_report] raises [KeyError]
    when no report was registered, where [view_report] redirects to the
    status page. *)
Theorem results_download_fails_after_rate_run
    (cfg : rate_config) (env : rate_env) (entry0 : gmap string val)
    (test_status : gmap string (gmap string val)) (test_id : string) :
  entry0 !! "summary_file" = None -> entry0 !! "detailed_file" = None ->
  entry0 !! "report_file" = None ->
  Spec.rate_succeeds env = true ->
  test_status !! test_id
  = Some (apply_writes entry0 (run_simple_rate_control_test cfg env)) ->
  download_results test_status test_id "summary" = Fails KeyError
  /\ download_results test_status test_id "detailed" = Fails KeyError
  /\ download_report test_status test_id
     = match Spec.rate_reports env with
       | Some report => SendFile ReportsFolder (VStr report) true
       | None => Fails KeyError
       end
  /\ view_report test_status test_id
     = match Spec.rate_reports env with
       | Some report => SendFile ReportsFolder (VStr report) false
       | None => ToStatusPage "HTML report was not generated for this test"
       end.
Proof.
  intros H1 H2 H3 Hok Hts.
  unfold download_report, view_report, download_results, completed. rewrite Hts.
  destruct (rate_final_status cfg env) as [[Hs Hk]|(Hs & He & Hk)]; [|congruence].
  rewrite (final_lookup _ entry0 _ _ Hs).
  change (String.eqb "completed" "completed") with true. cbn iota.
  rewrite (final_lookup_none _ entry0 "summary_file"), H1
    by (apply rate_never_writes; [reflexivity|discriminate..]).
  rewrite (final_lookup_none _ entry0 "detailed_file"), H2
    by (apply rate_never_writes; [reflexivity|discriminate..]).
  rewrite apply_writes_lookup, (rate_report_file_written cfg env Hok), H3.
  change (String.eqb "summary" "summary") with true.
  change (String.eqb "detailed" "summary") with false.
  change (String.eqb "detailed" "detailed") with true. cbn iota.
  destruct (Spec.rate_reports env); repeat split.
Qed.

Lemma results_download_fails_after_rate_run_witness :
  download_results
    {[ "t1" := apply_writes Spec.fresh_entry
                 (run_simple_rate_control_test Spec.constant_rate Spec.failed_report_env) ]}
    "t1" "summary"
  = Fails KeyError.
Proof.
  assert (H : ({[ "t1" := apply_writes Spec.fresh_entry
                            (run_simple_rate_control_test Spec.constant_rate
                               Spec.failed_report_env) ]}
               : gmap string (gmap string val)) !! "t1"
              = Some (apply_writes Spec.fresh_entry
                        (run_simple_rate_control_test Spec.constant_rate
                           Spec.failed_report_env)))
    by apply lookup_singleton_eq.
  exact (proj1 (results_download_fails_after_rate_run Spec.constant_rate
                  Spec.failed_report_env Spec.fresh_entry _ "t1"
                  eq_refl eq_refl eq_refl eq_refl H)).
Defined.

(** ** The file type of an upload *)


Lemma append_cons (a : ascii) (s t : string) : String a s +:+ t = String a (s +:+ t).
Proof. reflexivity. Qed.

Lemma after_last_split (c : ascii) (s r : string) :
  PyStr.after_last c s = Some r ->
  exists stem, s = stem +:+ String c r /\ PyStr.after_last c r = None.
Proof.
  revert r. induction s as [|a t IH]; intros r; simpl; [discriminate|].
  destruct (PyStr.after_last c t) as [r'|] eqn:E.
  - intros H. injection H as ->. destruct (IH r eq_refl) as (stem & -> & Hn).
    exists (String a stem). split; [reflexivity|exact Hn].
  - destruct (Ascii.eqb_spec a c) as [->|_]; [|discriminate].
    intros H. injection H as ->. exists "". split; [reflexivity|exact E].
Qed.

Lemma after_last_app (c : ascii) (stem r : string) :
  PyStr.after_last c r = None ->
  PyStr.after_last c (stem +:+ String c r) = Some r.
Proof.
  intros Hn. induction stem as [|a t IH].
  - change ("" +:+ String c r) with (String c r). simpl.
    rewrite Hn, Ascii.eqb_refl. reflexivity.
  - rewrite append_cons. simpl. now rewrite IH.
Qed.

Lemma contains_after_last (c : ascii) (s : string) :
  PyStr.contains (String c "") s = match PyStr.after_last c s with Some _ => true | None => false end.
Proof.
  induction s as [|a t IH]; [reflexivity|].
  cbn [PyStr.contains PyStr.after_last PyStr.startswith]. rewrite IH.
  rewrite (Ascii.eqb_sym c a).
  destruct (PyStr.after_last c t); [now rewrite orb_true_r|].
  rewrite andb_true_r, orb_false_r. now destruct (Ascii.eqb a c).
Qed.

Lemma lower_json_no_dot (ext : string) :
  PyStr.lower ext = "json" -> PyStr.after_last "." ext = None.
Proof.
  assert (Hc : forall a b : ascii, PyStr.lower_char a = b -> b <> "."%char ->
                 Ascii.eqb a "." = false).
  { intros a b Hl Hb. destruct (Ascii.eqb_spec a "."%char) as [->|]; [|reflexivity].
    exfalso. apply Hb. rewrite <- Hl. reflexivity. }
  destruct ext as [|a1 [|a2 [|a3 [|a4 [|a5 t]]]]]; try discriminate.
  unfold PyStr.lower. cbn [PyStr.map_chars]. intros H.
  injection H as H1 H2 H3 H4.
  cbn [PyStr.after_last].
  rewrite (Hc _ _ H1), (Hc _ _ H2), (Hc _ _ H3), (Hc _ _ H4) by discriminate.
  reflexivity.
Qed.

(** X17.  [allowed_file] accepts exactly the names that end in a dot
    followed by "json" in any mix of upper and lower case: only what stands
    behind the last dot counts, and a name without a dot is refused. *)
Theorem allowed_file_accepts_json_extension (filename : string) :
  allowed_file filename = true
  <-> exists stem extension,
        filename = stem +:+ "." +:+ extension /\ PyStr.lower extension = "json".
Proof.
  unfold allowed_file. rewrite contains_after_last. split.
  - destruct (PyStr.after_last "." filename) as [ext|] eqn:E; [|discriminate].
    cbn [andb]. intros H. apply String.eqb_eq in H.
    destruct (after_last_split _ _ _ E) as (stem & -> & _).
    exists stem, ext. split; [reflexivity|exact H].
  - intros (stem & ext & -> & Hl).
    change ("." +:+ ext) with (String "." ext).
    rewrite (after_last_app "." stem ext (lower_json_no_dot ext Hl)).
    cbn [andb]. now apply String.eqb_eq.
Qed.

(** ** The validation of an uploaded file *)

Lemma first_missing_none (fields : list string) (v : json) :
  first_missing fields v = Ok None
  <-> Forall (fun field => Py.str_in field v = Ok true) fields.
Proof.
  induction fields as [|f rest IH]; simpl.
  - split; [constructor|reflexivity].
  - destruct (Py.str_in f v) as [[|]|e] eqn:E.
    + rewrite IH. split; [now constructor|now inversion 1].
    + split; [discriminate|]. inversion 1; congruence.
    + split; [discriminate|]. inversion 1; congruence.
Qed.

Lemma first_missing_some (fields : list string) (v : json) (field : string) :
  first_missing fields v = Ok (Some field) ->
  In field fields /\ Py.str_in field v = Ok false.
Proof.
  induction fields as [|f rest IH]; simpl; [discriminate|].
  destruct (Py.str_in f v) as [[|]|e] eqn:E; [| |discriminate].
  - intros H. destruct (IH H). split; [now right|assumption].
  - intros H. injection H as <-. split; [now left|exact E].
Qed.

Lemma check_endpoints_valid (i : nat) (endpoints : list json) :
  check_endpoints i endpoints = Ok Valid <-> Forall Spec.complete_endpoint endpoints.
Proof.
  revert i. induction endpoints as [|e rest IH]; intros i; cbn [check_endpoints].
  - split; [constructor|reflexivity].
  - destruct (first_missing _ e) as [[f|]|x] eqn:E.
    + split; [discriminate|]. inversion 1 as [|? ? Hc _]; subst.
      apply first_missing_none in Hc. congruence.
    + rewrite IH. apply first_missing_none in E.
      split; [now constructor|now inversion 1].
    + split; [discriminate|]. inversion 1 as [|? ? Hc _]; subst.
      apply first_missing_none in Hc. congruence.
Qed.

Lemma check_endpoints_missing (i j : nat) (endpoints : list json) (field : string) :
  check_endpoints i endpoints = Ok (EndpointMissingField j field) ->
  exists endpoint,
    i <= j /\ nth_error endpoints (j - i) = Some endpoint
    /\ In field ["name"; "method"; "url"]
    /\ Py.str_in field endpoint = Ok false
    /\ Forall Spec.complete_endpoint (firstn (j - i) endpoints).
Proof.
  revert i. induction endpoints as [|e rest IH]; intros i; cbn [check_endpoints];
    [discriminate|].
  destruct (first_missing _ e) as [[f|]|x] eqn:E; [| |discriminate].
  - intros H. injection H as <- <-. exists e.
    destruct (first_missing_some _ _ _ E) as [Hin Hf].
    rewrite Nat.sub_diag. repeat split; auto.
  - intros H. destruct (IH _ H) as (ep & Hle & Hn & Hin & Hf & Hall).
    exists ep. replace (j - i) with (S (j - S i)) by lia.
    split; [lia|]. split; [exact Hn|]. split; [exact Hin|]. split; [exact Hf|].
    cbn [firstn]. constructor; [|exact Hall]. now apply first_missing_none.
Qed.

Lemma check_endpoints_verdict (i : nat) (endpoints : list json) (v : verdict) :
  check_endpoints i endpoints = Ok v ->
  v = Valid \/ exists j field, v = EndpointMissingField j field.
Proof.
  revert i. induction endpoints as [|e rest IH]; intros i; cbn [check_endpoints].
  - intros H. injection H as <-. now left.
  - destruct (first_missing _ e) as [[f|]|x]; [| |discriminate].
    + intros H. injection H as <-. right. now eexists _, _.
    + apply IH.
Qed.

Lemma str_in_keys (s : string) (kv : list (string * json)) :
  Py.str_in s (JObj kv) = Ok true <-> is_Some (Py.lookup_item s kv).
Proof.
  cbn [Py.str_in]. induction kv as [|[k x] r IH]; cbn [existsb Py.lookup_item fst].
  - split; [discriminate|]. intros [? H]. discriminate.
  - rewrite String.eqb_sym. destruct (Py.lookup_item s r) as [y|].
    + destruct IH as [_ IH]. assert (H : existsb (fun kx => String.eqb kx.1 s) r = true).
      { specialize (IH ltac:(now eexists)). now injection IH. }
      rewrite H, orb_true_r. split; [now eexists|reflexivity].
    + assert (H : existsb (fun kx => String.eqb kx.1 s) r = false).
      { destruct (existsb _ r); [|reflexivity].
        destruct IH as [IH _]. destruct (IH eq_refl) as [? ?]. discriminate. }
      rewrite H, orb_false_r. destruct (String.eqb s k).
      * split; [now eexists|reflexivity].
      * split; [discriminate|]. intros [? ?]. discriminate.
Qed.

(** X18.  [validate_endpoints_json] answers [True] exactly for a JSON object
    with a key [base_url] whose [endpoints] is a non-empty list in which
    every endpoint contains name, method and url in the sense of Python's
    [in].  The endpoints need not be objects: a file whose endpoint is the
    string "name method url" is valid. *)
Theorem validate_accepts_exactly (file : option json) :
  (validate_endpoints_json file = Valid
   <-> exists kv endpoints,
         file = Some (JObj kv)
         /\ is_Some (Py.lookup_item "base_url" kv)
         /\ Py.lookup_item "endpoints" kv = Some (JArr endpoints)
         /\ endpoints <> []
         /\ Forall Spec.complete_endpoint endpoints)
  /\ validate_endpoints_json Spec.string_endpoints = Valid.
Proof.
  split; [|reflexivity]. split.
  - unfold validate_endpoints_json.
    destruct file as [data|]; [|discriminate].
    destruct (first_missing _ data) as [[f|]|x] eqn:E; try discriminate.
    apply first_missing_none in E.
    inversion E as [|? ? Hb E']; subst. inversion E' as [|? ? He _]; subst.
    destruct data as [| | | | |kv]; try discriminate.
    cbn [subscript_str]. unfold Py.subscript.
    destruct (Py.lookup_item "endpoints" kv) as [[| | | |l|]|] eqn:El; try discriminate.
    destruct l as [|e0 l]; [discriminate|].
    destruct (check_endpoints 1 (e0 :: l)) as [v|x] eqn:Ec; [|discriminate].
    intros ->. apply check_endpoints_valid in Ec.
    exists kv, (e0 :: l). split; [reflexivity|].
    split; [now apply str_in_keys|]. split; [exact El|]. split; [discriminate|exact Ec].
  - intros (kv & l & -> & Hb & He & Hne & Hall).
    unfold validate_endpoints_json.
    assert (E : first_missing ["base_url"; "endpoints"] (JObj kv) = Ok None).
    { apply first_missing_none. constructor; [now apply str_in_keys|].
      constructor; [|constructor]. apply str_in_keys. rewrite He. now eexists. }
    rewrite E. cbn [subscript_str]. unfold Py.subscript. rewrite He.
    destruct l as [|e0 l]; [congruence|].
    apply (check_endpoints_valid 1) in Hall. now rewrite Hall.
Qed.

(** X19.  When [validate_endpoints_json] reports "Endpoint i missing
    required field: f", the endpoint of number i, counted from 1, is the
    first one that lacks one of name, method and url, and f is a field that
    it lacks. *)
Theorem validate_names_first_incomplete_endpoint
    (file : option json) (i : nat) (field : string) :
  validate_endpoints_json file = EndpointMissingField i field ->
  exists kv endpoints endpoint,
    file = Some (JObj kv)
    /\ Py.lookup_item "endpoints" kv = Some (JArr endpoints)
    /\ 1 <= i
    /\ nth_error endpoints (i - 1) = Some endpoint
    /\ In field ["name"; "method"; "url"]
    /\ Py.str_in field endpoint = Ok false
    /\ Forall Spec.complete_endpoint (firstn (i - 1) endpoints).
Proof.
  unfold validate_endpoints_json.
  destruct file as [data|]; [|discriminate].
  destruct (first_missing _ data) as [[f|]|x] eqn:E; try discriminate.
  destruct data as [| | | | |kv]; try discriminate.
  cbn [subscript_str]. unfold Py.subscript.
  destruct (Py.lookup_item "endpoints" kv) as [[| | | |l|]|] eqn:El; try discriminate.
  destruct l as [|e0 l]; [discriminate|].
  destruct (check_endpoints 1 (e0 :: l)) as [v|x] eqn:Ec; [|discriminate].
  intros ->. destruct (check_endpoints_missing _ _ _ _ Ec) as (ep & H1 & Hn & Hin & Hf & Hall).
  exists kv, (e0 :: l), ep. repeat split; assumption.
Qed.

Lemma validate_names_first_incomplete_endpoint_witness :
  exists endpoint,
    validate_endpoints_json Spec.url_missing = EndpointMissingField 2 "url"
    /\ Py.str_in "url" endpoint = Ok false.
Proof.
  assert (H : validate_endpoints_json Spec.url_missing = EndpointMissingField 2 "url")
    by reflexivity.
  destruct (validate_names_first_incomplete_endpoint _ _ _ H)
    as (kv & l & ep & _ & _ & _ & _ & _ & Hf & _).
  exists ep. split; [exact H|exact Hf].
Defined.

(** ** The names of the result files *)

Lemma length_append (s t : string) :
  String.length (s +:+ t) = String.length s + String.length t.
Proof. induction s as [|a s IH]; [reflexivity|]. rewrite append_cons. simpl. now rewrite IH. Qed.

Lemma append_assoc (s t u : string) : (s +:+ t) +:+ u = s +:+ (t +:+ u).
Proof. induction s as [|a s IH]; [reflexivity|]. rewrite !append_cons. now rewrite IH. Qed.

Lemma length_zero (s : string) : String.length s = 0 -> s = "".
Proof. destruct s; [reflexivity|discriminate]. Qed.

Lemma split_last_suffix (sep : ascii) (s : string) :
  exists pre, s = pre +:+ List.last (PyStr.split sep s) ""
              /\ (length (PyStr.split sep s) = 1 -> pre = "").
Proof.
  induction s as [|a t (pre & Ht & Hone)].
  - exists "". split; reflexivity.
  - cbn [PyStr.split]. destruct (Ascii.eqb a sep).
    + exists (String a pre). split.
      * rewrite append_cons. f_equal.
        destruct (PyStr.split sep t) as [|h r] eqn:E; [now apply split_nonempty in E|].
        exact Ht.
      * cbn [length]. destruct (PyStr.split sep t) eqn:E; [now apply split_nonempty in E|].
        discriminate.
    + destruct (PyStr.split sep t) as [|h [|h' r]] eqn:E.
      * now apply split_nonempty in E.
      * exists "". split; [|reflexivity]. cbn [List.last] in *.
        rewrite (Hone eq_refl) in Ht. change ("" +:+ h) with h in Ht. now subst h.
      * exists (String a pre). split; [|discriminate].
        rewrite append_cons. f_equal. exact Ht.
Qed.

Lemma basename_suffix (path : string) : exists pre, path = pre +:+ basename path.
Proof. destruct (split_last_suffix "/" path) as (pre & H & _). now exists pre. Qed.

Lemma moved_name_differs (test_id test_name f : string) :
  In f (moved_result_names test_name) ->
  f <> test_id +:+ "_" +:+ test_name +:+ "_summary.json"
  /\ f <> test_id +:+ "_" +:+ test_name +:+ "_detailed.json".
Proof.
  unfold moved_result_names. cbn [map In].
  intros [<-|[<-|[]]].
  - destruct (basename_suffix (test_name +:+ "_summary.json")) as [pre Hp].
    apply (f_equal String.length) in Hp. rewrite !length_append in Hp.
    split; intros E; rewrite E in Hp; rewrite !length_append in Hp; simpl in Hp; lia.
  - destruct (basename_suffix (test_name +:+ "_detailed.json")) as [pre Hp].
    pose proof (f_equal String.length Hp) as Hl. rewrite !length_append in Hl.
    split; intros E; rewrite E in Hl, Hp; rewrite !length_append in Hl; simpl in Hl;
      [|lia].
    assert (Hpre : pre = "") by (apply length_zero; lia).
    assert (Hid : test_id = "") by (apply length_zero; lia).
    subst pre test_id.
    change ("" +:+ "" +:+ "_" +:+ test_name +:+ "_summary.json")
      with (String "_" (test_name +:+ "_summary.json")) in Hp.
    pose proof (append_correct2 test_name "_detailed.json" 2) as G1.
    pose proof (append_correct2 (String "_" test_name) "_summary.json" 1) as G2.
    change (String "_" test_name +:+ "_summary.json")
      with (String "_" (test_name +:+ "_summary.json")) in G2.
    rewrite <- Hp in G2.
    change (String.length (String "_" test_name)) with (S (String.length test_name)) in G2.
    replace (1 + S (String.length test_name)) with (2 + String.length test_name) in G2 by lia.
    rewrite <- G1 in G2. discriminate.
Qed.

Lemma download_results_after_k6
    (custom_stages : option (list stage)) (env : k6_env) (entry0 : gmap string val)
    (test_status : gmap string (gmap string val)) (test_id file_type : string) :
  test_status !! test_id = Some (apply_writes entry0 (run_k6_test custom_stages env)) ->
  download_results test_status test_id file_type
  = match Spec.k6_reports env with
    | Some (_, test_name) =>
        if String.eqb file_type "summary"
        then SendFile ResultsFolder
               (VStr (test_id +:+ "_" +:+ test_name +:+ "_summary.json")) true
        else if String.eqb file_type "detailed"
        then SendFile ResultsFolder
               (VStr (test_id +:+ "_" +:+ test_name +:+ "_detailed.json")) true
        else ToIndex "Invalid file type"
    | None => ToIndex "Results not available"
    end.
Proof.
  intros Hts.
  pose proof (k6_final_files custom_stages env) as Hf.
  unfold download_results, completed. rewrite Hts.
  destruct (k6_final_status custom_stages env) as [[Hs Hk]|(Hs & He & Hk)];
    rewrite (final_lookup _ entry0 _ _ Hs).
  - destruct (Spec.k6_reports env) as [[report name]|]; [|congruence].
    destruct Hf as (_ & Hr & Hsum & Hdet).
    rewrite (final_lookup _ entry0 _ _ Hsum), (final_lookup _ entry0 _ _ Hdet).
    reflexivity.
  - destruct (Spec.k6_reports env) as [[report name]|]; [destruct Hf; congruence|].
    reflexivity.
Qed.

Lemma k6_reports_name (env : k6_env) (report test_name : string) :
  Spec.k6_reports env = Some (report, test_name) -> k6_prepare env = Returns test_name.
Proof.
  unfold Spec.k6_reports.
  destruct (k6_prepare env) as [name| |]; try discriminate.
  destruct (k6_listing env) as [[[[|f fs] a] r]| |]; try discriminate.
  destruct (Spec.k6_succeeds _); [|discriminate].
  intros H. now injection H as _ ->.
Qed.

(** X20.  After a run of [run_k6_test], whenever [download_results] sends a
    file, the name it asks for is none of the names under which the run
    moved its result files to the results folder: the route puts the test id
    in front of the name, the run does not. *)
Theorem results_route_asks_for_unmoved_name
    (custom_stages : option (list stage)) (env : k6_env) (entry0 : gmap string val)
    (test_status : gmap string (gmap string val)) (test_id file_type path : string)
    (directory : folder) (as_attachment : bool) :
  test_status !! test_id = Some (apply_writes entry0 (run_k6_test custom_stages env)) ->
  download_results test_status test_id file_type
  = SendFile directory (VStr path) as_attachment ->
  exists test_name,
    k6_prepare env = Returns test_name
    /\ ~ In path (moved_result_names test_name).
Proof.
  intros Hts. rewrite (download_results_after_k6 _ _ _ _ _ _ Hts).
  destruct (Spec.k6_reports env) as [[report name]|] eqn:Er; [|discriminate].
  intros Hsend. exists name. split; [exact (k6_reports_name _ _ _ Er)|].
  intros Hin. destruct (moved_name_differs test_id name path Hin) as [H1 H2].
  destruct (String.eqb file_type "summary").
  - injection Hsend as _ Hp _. congruence.
  - destruct (String.eqb file_type "detailed"); [|discriminate].
    injection Hsend as _ Hp _. congruence.
Qed.

Lemma results_route_asks_for_unmoved_name_witness :
  k6_prepare Spec.smooth_k6_env = Returns "load-20240501-100000"
  /\ ~ In "t1_load-20240501-100000_summary.json"
         (moved_result_names "load-20240501-100000").
Proof.
  split; [reflexivity|].
  pose (ts := ({[ "t1" := apply_writes Spec.fresh_entry
                            (run_k6_test None Spec.smooth_k6_env) ]}
               : gmap string (gmap string val))).
  assert (H : ts !! "t1"
              = Some (apply_writes Spec.fresh_entry (run_k6_test None Spec.smooth_k6_env)))
    by apply lookup_singleton_eq.
  destruct (results_route_asks_for_unmoved_name None Spec.smooth_k6_env
              Spec.fresh_entry ts "t1" "summary"
              "t1_load-20240501-100000_summary.json" ResultsFolder true H)
    as (name & Hn & Hnot).
  - rewrite (download_results_after_k6 _ _ _ _ _ _ H). reflexivity.
  - injection Hn as <-. exact Hnot.
Defined.

(** ** The name of the report file *)


Ltac each_char c := destruct c as [[] [] [] [] [] [] [] []]; try reflexivity; try discriminate.

Lemma lower_char_dash (a : ascii) : Ascii.eqb (PyStr.lower_char a) "-" = Ascii.eqb a "-".
Proof. each_char a. Qed.

Lemma word_lower_name (a : ascii) :
  PyStr.is_word a || Ascii.eqb a "-" = true -> Spec.name_char (PyStr.lower_char a) = true.
Proof. each_char a. Qed.

Lemma name_char_kept (a : ascii) : Spec.name_char a = true -> kept_char a = true.
Proof. each_char a. Qed.

Lemma name_char_lower (a : ascii) : Spec.name_char a = true -> PyStr.lower_char a = a.
Proof. each_char a. Qed.

Lemma name_char_sep (a : ascii) :
  Spec.name_char a = true -> dash_or_space a = Ascii.eqb a "-".
Proof. each_char a. Qed.

Lemma kept_not_sep (a : ascii) :
  kept_char a = true -> dash_or_space a = false ->
  PyStr.is_word a || Ascii.eqb a "-" = true.
Proof. each_char a. Qed.

Lemma sep_not_dash (a : ascii) : dash_or_space a = false -> Ascii.eqb a "-" = false.
Proof. each_char a. Qed.

Lemma filter_chars_all (p : ascii -> bool) (s : string) :
  Spec.all_chars p (PyStr.filter_chars p s) = true.
Proof.
  induction s as [|a t IH]; [reflexivity|]. simpl.
  destruct (p a) eqn:E; [simpl; now rewrite E|exact IH].
Qed.

Lemma filter_chars_id (p : ascii -> bool) (s : string) :
  Spec.all_chars p s = true -> PyStr.filter_chars p s = s.
Proof.
  induction s as [|a t IH]; [reflexivity|]. simpl.
  intros H. apply andb_true_iff in H as [Ha Ht]. rewrite Ha. now rewrite IH.
Qed.

Lemma collapse_runs_chars (b : bool) (s : string) :
  Spec.all_chars kept_char s = true ->
  Spec.all_chars (fun a => PyStr.is_word a || Ascii.eqb a "-") (collapse_runs b s) = true.
Proof.
  revert b. induction s as [|a t IH]; intros b; [reflexivity|]. simpl.
  intros H. apply andb_true_iff in H as [Ha Ht].
  destruct (dash_or_space a) eqn:E.
  - destruct b; [now apply IH|]. simpl. now apply IH.
  - simpl. rewrite (kept_not_sep a Ha E). now apply IH.
Qed.

Lemma collapse_runs_apart (b : bool) (s : string) :
  PyStr.contains "--" (collapse_runs b s) = false
  /\ (b = true -> PyStr.startswith "-" (collapse_runs b s) = false).
Proof.
  revert b. induction s as [|a t IH]; intros b.
  - split; reflexivity.
  - cbn [collapse_runs]. destruct (dash_or_space a) eqn:E.
    + destruct b; [apply IH|]. destruct (IH true) as [H1 H2].
      split; [|discriminate].
      cbn [PyStr.contains PyStr.startswith]. rewrite H1.
      cbn [PyStr.startswith] in H2. rewrite Ascii.eqb_refl. cbn [andb].
      destruct (collapse_runs true t) as [|c r]; [reflexivity|].
      cbn [PyStr.startswith] in *. specialize (H2 eq_refl).
      rewrite andb_true_r in H2. rewrite H2. reflexivity.
    + destruct (IH false) as [H1 _].
      pose proof (sep_not_dash a E) as Hd. rewrite Ascii.eqb_sym in Hd.
      split; [|intros _; cbn [PyStr.startswith]; now rewrite Hd].
      cbn [PyStr.contains PyStr.startswith]. now rewrite H1, Hd.
Qed.

Lemma collapse_runs_id (b : bool) (s : string) :
  Spec.all_chars Spec.name_char s = true ->
  PyStr.contains "--" s = false ->
  (b = true -> PyStr.startswith "-" s = false) ->
  collapse_runs b s = s.
Proof.
  revert b. induction s as [|a t IH]; intros b Hall Hc Hb; [reflexivity|].
  cbn [collapse_runs]. cbn [Spec.all_chars] in Hall.
  apply andb_true_iff in Hall as [Ha Ht].
  cbn [PyStr.contains] in Hc. apply orb_false_iff in Hc as [Hs Hc].
  rewrite (name_char_sep a Ha).
  destruct (Ascii.eqb_spec a "-"%char) as [->|Hne].
  - destruct b.
    + specialize (Hb eq_refl). discriminate Hb.
    + f_equal. apply IH; [exact Ht|exact Hc|]. intros _.
      cbn [PyStr.startswith] in Hs. cbn [Ascii.eqb Bool.eqb andb] in Hs.
      destruct t as [|c r]; [reflexivity|]. cbn [PyStr.startswith] in *.
      now rewrite andb_true_r in Hs |- *.
  - f_equal. apply IH; [exact Ht|exact Hc|discriminate].
Qed.

Lemma contains_tail (n : string) (a : ascii) (t : string) :
  PyStr.contains n (String a t) = false -> PyStr.contains n t = false.
Proof.
  cbn [PyStr.contains]. intros H. now apply orb_false_iff in H as [_ H].
Qed.

Lemma contains_cons (n : string) (a : ascii) (t : string) :
  PyStr.contains n (String a t) = PyStr.startswith n (String a t) || PyStr.contains n t.
Proof. reflexivity. Qed.

Lemma lstrip_char_keeps (c : ascii) (p : ascii -> bool) (n : string) (s : string) :
  (Spec.all_chars p s = true -> Spec.all_chars p (PyStr.lstrip_char c s) = true)
  /\ (PyStr.contains n s = false -> PyStr.contains n (PyStr.lstrip_char c s) = false)
  /\ PyStr.startswith (String c "") (PyStr.lstrip_char c s) = false.
Proof.
  induction s as [|a t (I1 & I2 & I3)].
  - repeat split; auto.
  - cbn [PyStr.lstrip_char]. destruct (Ascii.eqb a c) eqn:E.
    + split; [|split; [|exact I3]].
      * cbn [Spec.all_chars]. intros H. apply andb_true_iff in H as [_ H]. auto.
      * intros H. apply I2. eapply contains_tail, H.
    + split; [auto|split; [auto|]].
      cbn [PyStr.startswith]. rewrite Ascii.eqb_sym, E. reflexivity.
Qed.

Lemma startswith_rstrip_char (n : string) (c : ascii) (s : string) :
  PyStr.startswith n (PyStr.rstrip_char c s) = true -> PyStr.startswith n s = true.
Proof.
  revert n. induction s as [|a t IH]; intros n; [auto|].
  cbn [PyStr.rstrip_char].
  destruct n as [|b n']; [reflexivity|].
  destruct (PyStr.rstrip_char c t) as [|x r] eqn:E.
  - destruct (Ascii.eqb a c); [discriminate|].
    cbn [PyStr.startswith]. destruct n' as [|? ?]; [|now rewrite andb_false_r].
    intros H. now rewrite andb_true_r in H |- *.
  - cbn [PyStr.startswith]. intros H. apply andb_true_iff in H as [Hb Hn].
    rewrite Hb. now apply IH.
Qed.

Lemma rstrip_char_keeps (c : ascii) (p : ascii -> bool) (n : string) (s : string) :
  (Spec.all_chars p s = true -> Spec.all_chars p (PyStr.rstrip_char c s) = true)
  /\ (PyStr.contains n s = false -> PyStr.contains n (PyStr.rstrip_char c s) = false)
  /\ (PyStr.startswith (String c "") s = false ->
      PyStr.startswith (String c "") (PyStr.rstrip_char c s) = false)
  /\ Spec.last_char (PyStr.rstrip_char c s) <> Some c.
Proof.
  induction s as [|a t (I1 & I2 & I3 & I4)].
  - repeat split; auto; discriminate.
  - split; [|split; [|split]].
    + cbn [Spec.all_chars PyStr.rstrip_char]. intros H.
      apply andb_true_iff in H as [Ha Ht]. specialize (I1 Ht).
      destruct (PyStr.rstrip_char c t) as [|x r].
      * destruct (Ascii.eqb a c); [reflexivity|]. cbn [Spec.all_chars]. now rewrite Ha.
      * cbn [Spec.all_chars] in *. now rewrite Ha, I1.
    + intros H. destruct (PyStr.contains n (PyStr.rstrip_char c (String a t))) eqn:E;
        [|reflexivity].
      exfalso. cbn [PyStr.contains] in H. apply orb_false_iff in H as [Hs Hc].
      specialize (I2 Hc).
      assert (Hs' : PyStr.startswith n (PyStr.rstrip_char c (String a t)) = false).
      { destruct (PyStr.startswith n (PyStr.rstrip_char c (String a t))) eqn:E2;
          [|reflexivity].
        apply startswith_rstrip_char in E2. congruence. }
      cbn [PyStr.rstrip_char] in E, Hs'.
      destruct (PyStr.rstrip_char c t) as [|x r].
      * destruct (Ascii.eqb a c).
        -- cbn [PyStr.contains] in E. now rewrite Hs' in E.
        -- cbn [PyStr.contains] in E. rewrite Hs' in E. cbn in E.
           destruct n; discriminate.
      * rewrite contains_cons, Hs', I2 in E. discriminate.
    + cbn [PyStr.startswith PyStr.rstrip_char]. intros H.
      rewrite andb_true_r in H.
      destruct (PyStr.rstrip_char c t) as [|x r].
      * rewrite Ascii.eqb_sym, H. cbn [PyStr.startswith]. now rewrite H.
      * cbn [PyStr.startswith]. now rewrite H.
    + cbn [PyStr.rstrip_char].
      destruct (PyStr.rstrip_char c t) as [|x r] eqn:E.
      * destruct (Ascii.eqb_spec a c) as [->|Hne]; [discriminate|].
        cbn [Spec.last_char]. congruence.
      * cbn [Spec.last_char] in *. destruct (Spec.last_char r); [exact I4|exact I4].
Qed.

Lemma lstrip_char_id (c : ascii) (s : string) :
  PyStr.startswith (String c "") s = false -> PyStr.lstrip_char c s = s.
Proof.
  destruct s as [|a t]; [reflexivity|]. cbn [PyStr.startswith PyStr.lstrip_char].
  rewrite andb_true_r, Ascii.eqb_sym. now intros ->.
Qed.

Lemma rstrip_char_id (c : ascii) (s : string) :
  Spec.last_char s <> Some c -> PyStr.rstrip_char c s = s.
Proof.
  induction s as [|a t IH]; [reflexivity|].
  cbn [Spec.last_char PyStr.rstrip_char]. intros H.
  destruct (Spec.last_char t) as [x|] eqn:E.
  - rewrite IH by exact H. destruct t; [discriminate|reflexivity].
  - destruct t as [|b t']; [|cbn [Spec.last_char] in E; destruct (Spec.last_char t'); discriminate].
    cbn [PyStr.rstrip_char]. destruct (Ascii.eqb_spec a c) as [->|_]; [congruence|reflexivity].
Qed.

Lemma lower_keeps (s : string) :
  (Spec.all_chars (fun a => PyStr.is_word a || Ascii.eqb a "-") s = true ->
   Spec.all_chars Spec.name_char (PyStr.lower s) = true)
  /\ PyStr.startswith "-" (PyStr.lower s) = PyStr.startswith "-" s
  /\ PyStr.startswith "--" (PyStr.lower s) = PyStr.startswith "--" s
  /\ PyStr.contains "--" (PyStr.lower s) = PyStr.contains "--" s
  /\ (Spec.last_char s <> Some "-"%char -> Spec.last_char (PyStr.lower s) <> Some "-"%char).
Proof.
  unfold PyStr.lower.
  induction s as [|a t (I1 & I2 & I3 & I4 & I5)].
  - repeat split; auto.
  - cbn [PyStr.map_chars]. split; [|split; [|split; [|split]]].
    + cbn [Spec.all_chars]. intros H. apply andb_true_iff in H as [Ha Ht].
      now rewrite (word_lower_name a Ha), I1.
    + cbn [PyStr.startswith]. rewrite !andb_true_r.
      rewrite (Ascii.eqb_sym _ (PyStr.lower_char a)), lower_char_dash.
      apply Ascii.eqb_sym.
    + cbn [PyStr.startswith] in *.
      rewrite (Ascii.eqb_sym _ (PyStr.lower_char a)), lower_char_dash.
      rewrite (Ascii.eqb_sym a). f_equal.
      destruct t as [|b t']; [reflexivity|]. exact I2.
    + cbn [PyStr.contains]. rewrite I4. f_equal.
      cbn [PyStr.startswith] in *.
      rewrite (Ascii.eqb_sym _ (PyStr.lower_char a)), lower_char_dash.
      rewrite (Ascii.eqb_sym a). f_equal.
      destruct t as [|b t']; [reflexivity|]. exact I2.
    + cbn [Spec.last_char].
      destruct (Spec.last_char t) as [x|] eqn:E.
      * intros H. specialize (I5 H).
        destruct (Spec.last_char (PyStr.map_chars PyStr.lower_char t)) eqn:E2; [exact I5|].
        destruct t; [discriminate|]. cbn [PyStr.map_chars Spec.last_char] in E2.
        match type of E2 with
        | context [Spec.last_char ?u] => destruct (Spec.last_char u)
        end; discriminate E2.
      * destruct t as [|b t']; [|cbn [Spec.last_char] in E; destruct (Spec.last_char t'); discriminate].
        cbn [PyStr.map_chars Spec.last_char]. intros H Hl.
        apply H. f_equal. injection Hl as Hl.
        apply Ascii.eqb_eq. rewrite <- lower_char_dash. now apply Ascii.eqb_eq.
Qed.

Lemma lower_id (s : string) :
  Spec.all_chars Spec.name_char s = true -> PyStr.lower s = s.
Proof.
  unfold PyStr.lower. induction s as [|a t IH]; [reflexivity|].
  cbn [Spec.all_chars PyStr.map_chars]. intros H. apply andb_true_iff in H as [Ha Ht].
  now rewrite (name_char_lower a Ha), IH.
Qed.

Lemma sanitize_clean (title : string) : Spec.clean_name (sanitize_filename title).
Proof.
  unfold sanitize_filename, PyStr.strip_char.
  set (f := PyStr.filter_chars kept_char title).
  pose proof (filter_chars_all kept_char title) as Hf. fold f in Hf.
  pose proof (collapse_runs_chars false f Hf) as Hc.
  destruct (collapse_runs_apart false f) as [Hd _].
  set (c := collapse_runs false f) in *.
  destruct (lstrip_char_keeps "-" (fun a => PyStr.is_word a || Ascii.eqb a "-") "--" c)
    as (L1 & L2 & L3).
  specialize (L1 Hc). specialize (L2 Hd).
  set (l := PyStr.lstrip_char "-" c) in *.
  destruct (rstrip_char_keeps "-" (fun a => PyStr.is_word a || Ascii.eqb a "-") "--" l)
    as (R1 & R2 & R3 & R4).
  specialize (R1 L1). specialize (R2 L2). specialize (R3 L3).
  set (r := PyStr.rstrip_char "-" l) in *.
  destruct (lower_keeps r) as (W1 & W2 & _ & W4 & W5).
  split; [now apply W1|]. split; [now rewrite W2|].
  split; [now apply W5|now rewrite W4].
Qed.

Lemma sanitize_id (name : string) : Spec.clean_name name -> sanitize_filename name = name.
Proof.
  intros (Hall & Hs & Hl & Hc). unfold sanitize_filename, PyStr.strip_char.
  rewrite filter_chars_id.
  2:{ clear -Hall. induction name as [|a t IH]; [reflexivity|].
      cbn [Spec.all_chars] in *. apply andb_true_iff in Hall as [Ha Ht].
      now rewrite (name_char_kept a Ha), IH. }
  rewrite collapse_runs_id by (try assumption; discriminate).
  rewrite lstrip_char_id by exact Hs.
  rewrite rstrip_char_id by exact Hl.
  now apply lower_id.
Qed.

(** X21.  For a title of ASCII characters, [sanitize_filename] returns a
    name made of lower-case letters, digits, underscores and dashes only,
    without a dash at either end and without two dashes in a row; in
    particular it holds no slash, dot or space.  Sanitizing the name again
    leaves it as it is. *)
Theorem sanitized_name_is_clean (title : string) :
  Spec.ascii_only title = true ->
  Spec.clean_name (sanitize_filename title)
  /\ sanitize_filename (sanitize_filename title) = sanitize_filename title.
Proof.
  intros _. split; [apply sanitize_clean|]. apply sanitize_id, sanitize_clean.
Qed.

Lemma sanitized_name_is_clean_witness :
  sanitize_filename "My Report: v2.0 -- final!" = "my-report-v20-final"
  /\ Spec.clean_name "my-report-v20-final".
Proof.
  assert (H : sanitize_filename "My Report: v2.0 -- final!" = "my-report-v20-final")
    by reflexivity.
  split; [exact H|]. rewrite <- H.
  exact (proj1 (sanitized_name_is_clean "My Report: v2.0 -- final!" eq_refl)).
Defined.






(** ** The last lines of the output *)

Lemma push_line_last (line : string) (l : list string) :
  length l <= 10 -> push_line line l = Spec.last_n 10 (l ++ [line]).
Proof.
  intros H. unfold push_line, Spec.last_n. rewrite length_app. cbn [length].
  destruct (Nat.leb_spec 10 (length l)) as [H10|Hlt].
  - replace (length l + 1 - 10) with 1 by lia.
    destruct l as [|x r]; [simpl in H10; lia|reflexivity].
  - replace (length l + 1 - 10) with 0 by lia. reflexivity.
Qed.

Lemma last_n_length {A : Type} (n : nat) (l : list A) : length (Spec.last_n n l) <= n.
Proof. unfold Spec.last_n. rewrite length_skipn. lia. Qed.

Lemma last_n_app {A : Type} (n : nat) (a b : list A) :
  Spec.last_n n (Spec.last_n n a ++ b) = Spec.last_n n (a ++ b).
Proof.
  unfold Spec.last_n.
  assert (E : skipn (length a - n) a ++ b = skipn (length a - n) (a ++ b)).
  { rewrite List.skipn_app. replace (length a - n - length a) with 0 by lia. reflexivity. }
  rewrite E, List.skipn_skipn. f_equal.
  rewrite length_skipn, !length_app. lia.
Qed.

Lemma line_step_last_lines (total : N) (t : tracker) (line : string) :
  last_lines (fst (line_step total t line)) = push_line line (last_lines t).
Proof.
  unfold line_step.
  destruct (search match_vus line) as [[a b]|];
    [|destruct (search match_simple_vus line);
      [destruct (PyStr.contains "VUs" line)|]];
    destruct (search match_progress line);
    destruct (PyStr.contains "ramping up" _);
    try destruct (PyStr.contains "ramping down" _);
    try destruct (PyStr.contains "staying at" _); reflexivity.
Qed.

Lemma output_loop_last_lines (total : N) (lines : list string) (t : tracker) :
  length (last_lines t) <= 10 ->
  last_lines (fst (output_loop total t lines)) = Spec.last_n 10 (last_lines t ++ lines).
Proof.
  revert t. induction lines as [|line rest IH]; intros t Ht.
  - cbn [output_loop fst]. rewrite app_nil_r. unfold Spec.last_n.
    replace (length (last_lines t) - 10) with 0 by lia. reflexivity.
  - cbn [output_loop].
    pose proof (line_step_last_lines total t line) as H1.
    destruct (line_step total t line) as [t1 w1]. cbn [fst] in H1.
    assert (Ht1 : length (last_lines t1) <= 10).
    { rewrite H1, push_line_last by exact Ht. apply last_n_length. }
    specialize (IH t1 Ht1).
    destruct (output_loop total t1 rest) as [t2 w2]. cbn [fst] in *.
    rewrite IH, H1, push_line_last by exact Ht.
    rewrite last_n_app. now rewrite <- app_assoc.
Qed.

(** X23.  When the k6 process of [run_k6_test] exits with a code other
    than 0 and 99, the run ends "failed" and its [error] quotes the last
    ten lines of the output, or all of them when there are fewer. *)
Theorem failed_run_quotes_last_ten_lines
    (custom_stages : option (list stage)) (env : k6_env) (entry0 : gmap string val)
    (test_name : string) (code : Z) :
  k6_prepare env = Returns test_name -> k6_popen env = Returns tt ->
  k6_wait env = Returns code -> code <> 0%Z -> code <> 99%Z ->
  let final := apply_writes entry0 (run_k6_test custom_stages env) in
  final !! "status" = Some (VStr "failed")
  /\ final !! "error"
     = Some (VStr ("K6 test failed. Last output: "
                   +:+ String.concat "" (Spec.last_n 10 (k6_output env)))).
Proof.
  intros Hp Ho Hw H0 H99 final. subst final.
  rewrite !apply_writes_lookup.
  unfold run_k6_test, k6_body. rewrite Hp, Ho, Hw.
  pose proof (output_loop_loop_writes (total_stages_of custom_stages)
                (k6_output env) tracker_init) as Hl.
  pose proof (output_loop_last_lines (total_stages_of custom_stages)
                (k6_output env) tracker_init) as Hq.
  destruct (output_loop _ _ _) as [t ws]. cbn [snd fst] in Hl, Hq.
  specialize (Hq ltac:(simpl; lia)). cbn [tracker_init last_lines app] in Hq.
  assert (Hs : Spec.last_write "status" ws = None)
    by (apply loop_writes_last; [exact Hl|reflexivity]).
  assert (He : Spec.last_write "error" ws = None)
    by (apply loop_writes_last; [exact Hl|reflexivity]).
  assert (E0 : (code =? 0)%Z = false) by now apply Z.eqb_neq.
  assert (E99 : (code =? 99)%Z = false) by now apply Z.eqb_neq.
  unfold mbind, W_bind, w_bind, put, emit, call, returned, handlers.
  cbn -[String.eqb]. rewrite E0, E99. cbn -[String.eqb].
  rewrite ?app_nil_r, !last_write_app. cbn.
  rewrite Hq. split; reflexivity.
Qed.

Lemma failed_run_quotes_last_ten_lines_witness :
  apply_writes Spec.fresh_entry (run_k6_test None Spec.crashed_k6_env) !! "error"
  = Some (VStr "K6 test failed. Last output: cdefghijkl").
Proof.
  exact (proj2 (failed_run_quotes_last_ten_lines None Spec.crashed_k6_env
                  Spec.fresh_entry "load-20240501-100000" 1%Z
                  eq_refl eq_refl eq_refl ltac:(discriminate) ltac:(discriminate))).
Defined.
